(** * scout-bot: the polling loop, the VHS Berlin search protocol and its
      result parser, embedded from the Python sources

    Layout of the development, following the repository:
    - [Py]        the Python built-ins the sources rely on (str methods,
                  [re.search(r"\d+", _)], [int], [str], exceptions);
    - [Bs4]       the part of BeautifulSoup's tree interface the scout uses;
    - [Effects]   the world the program acts on and the monad threading it;
    - [Utils]     core/utils.py;
    - [BaseScout] core/base_scout.py;
    - [VHSBerlin] scouts/vhs_berlin.py;
    - [Stub]      a scripted scout, the test double of the specification;
    - [Lab]       a closed instance of the outside world, to run the
                  definitions on concrete inputs;
    then runs of the definitions, the lemmas about them, and the theorems
    that settle the claims C1 to C10 of the specification.

    Conventions of the embedding.
    - A Python [str] is a Rocq [string] holding its UTF-8 encoding.  Substring
      tests and concatenation commute with the encoding.  [str.strip] removes
      every Unicode whitespace character (table below).  Decimal digits are
      the ASCII ones: the non-ASCII digits of category Nd, which [\d] and
      [int] also accept, are outside the model.
    - A Python [int] is a [Z]; [int(...)] and [str(...)] are unbounded (no
      limit on the number of digits of a conversion).
    - A Python [float] is idealised as an exact rational [Q]; rounding is
      outside the model. *)

From Stdlib Require Import ZArith QArith Qround Lqa String Ascii List DecimalString DecimalZ.
From stdpp Require Import base gmap strings list.

Local Open Scope Z_scope.
Set Warnings "-register-all".

(* ===================================================================== *)
(** * Python built-ins *)
(* ===================================================================== *)

Module Py.

(** An exception object: its class and [str(e)]. *)
Record exn := Exn { exn_class : string; exn_str : string }.

(** ASCII decimal digits. *)
Definition is_digit (c : ascii) : bool :=
  match c with
  | "0" | "1" | "2" | "3" | "4" | "5" | "6" | "7" | "8" | "9" => true
  | _ => false
  end%char.

Fixpoint all_digits (s : string) : bool :=
  match s with
  | EmptyString => true
  | String c s' => is_digit c && all_digits s'
  end.

Fixpoint has_digit (s : string) : bool :=
  match s with
  | EmptyString => false
  | String c s' => is_digit c || has_digit s'
  end.

Definition starts_with_digit (s : string) : bool :=
  match s with
  | EmptyString => false
  | String c _ => is_digit c
  end.

(** [str.lower()] on the ASCII letters, as used on header names. *)
Definition lower_char (c : ascii) : ascii :=
  let n := nat_of_ascii c in
  if ((65 <=? n) && (n <=? 90))%nat then ascii_of_nat (n + 32) else c.

Fixpoint lower (s : string) : string :=
  match s with
  | EmptyString => EmptyString
  | String c s' => String (lower_char c) (lower s')
  end.

(** [needle in hay] on strings. *)
Fixpoint contains (needle hay : string) : bool :=
  String.prefix needle hay ||
  match hay with
  | EmptyString => false
  | String _ hay' => contains needle hay'
  end.

(** One-byte whitespace: U+0009..U+000D, U+001C..U+001F, U+0020. *)
Definition is_ascii_space (c : ascii) : bool :=
  let n := nat_of_ascii c in
  ((9 <=? n) && (n <=? 13) || (28 <=? n) && (n <=? 32))%nat.

Fixpoint all_space (s : string) : bool :=
  match s with
  | EmptyString => true
  | String c s' => is_ascii_space c && all_space s'
  end.

Definition byte_in (c : ascii) (lo hi : nat) : bool :=
  ((lo <=? nat_of_ascii c) && (nat_of_ascii c <=? hi))%nat.

Definition byte_is (c : ascii) (n : nat) : bool := (nat_of_ascii c =? n)%nat.

(** [str.lstrip()]: drop leading whitespace.  The multi-byte cases are the
    UTF-8 encodings of U+0085, U+00A0 (C2 85, C2 A0), U+1680 (E1 9A 80),
    U+2000..U+200A, U+2028, U+2029, U+202F (E2 80 80..8A, A8, A9, AF),
    U+205F (E2 81 9F) and U+3000 (E3 80 80). *)
Fixpoint lstrip (s : string) : string :=
  match s with
  | EmptyString => EmptyString
  | String c1 s1 =>
      if is_ascii_space c1 then lstrip s1
      else
        match s1 with
        | String c2 s2 =>
            if byte_is c1 194 && (byte_is c2 133 || byte_is c2 160)
            then lstrip s2
            else
              match s2 with
              | String c3 s3 =>
                  if byte_is c1 225 && byte_is c2 154 && byte_is c3 128
                  || byte_is c1 226 && byte_is c2 128 &&
                       (byte_in c3 128 138 || byte_in c3 168 169 || byte_is c3 175)
                  || byte_is c1 226 && byte_is c2 129 && byte_is c3 159
                  || byte_is c1 227 && byte_is c2 128 && byte_is c3 128
                  then lstrip s3
                  else s
              | EmptyString => s
              end
        | EmptyString => s
        end
  end.

(** The same table read from the end of the string, on the reversed bytes. *)
Fixpoint lstrip_rev (s : string) : string :=
  match s with
  | EmptyString => EmptyString
  | String c1 s1 =>
      if is_ascii_space c1 then lstrip_rev s1
      else
        match s1 with
        | String c2 s2 =>
            if byte_is c2 194 && (byte_is c1 133 || byte_is c1 160)
            then lstrip_rev s2
            else
              match s2 with
              | String c3 s3 =>
                  if byte_is c3 225 && byte_is c2 154 && byte_is c1 128
                  || byte_is c3 226 && byte_is c2 128 &&
                       (byte_in c1 128 138 || byte_in c1 168 169 || byte_is c1 175)
                  || byte_is c3 226 && byte_is c2 129 && byte_is c1 159
                  || byte_is c3 227 && byte_is c2 128 && byte_is c1 128
                  then lstrip_rev s3
                  else s
              | EmptyString => s
              end
        | EmptyString => s
        end
  end.

Fixpoint rev_append (s acc : string) : string :=
  match s with
  | EmptyString => acc
  | String c s' => rev_append s' (String c acc)
  end.

Definition reverse (s : string) : string := rev_append s EmptyString.

Definition rstrip (s : string) : string := reverse (lstrip_rev (reverse s)).

(** [str.strip()]. *)
Definition strip (s : string) : string := rstrip (lstrip s).

(** The longest run of digits at the head of [s]. *)
Fixpoint take_digits (s : string) : string :=
  match s with
  | EmptyString => EmptyString
  | String c s' => if is_digit c then String c (take_digits s') else EmptyString
  end.

(** [re.search(r"\d+", s)]: [None] when there is no match, otherwise
    [m.group()], the leftmost and (the quantifier being greedy) longest run
    of digits. *)
Fixpoint re_search_digits (s : string) : option string :=
  match s with
  | EmptyString => None
  | String c s' =>
      if is_digit c then Some (take_digits s) else re_search_digits s'
  end.

(** The digits of an [int] literal: [digit (["_"] digit)*], underscores
    removed; [None] when [s] is not of that shape. *)
Fixpoint literal_digits (after_digit : bool) (s : string) : option string :=
  match s with
  | EmptyString => if after_digit then Some EmptyString else None
  | String c s' =>
      if is_digit c then String c <$> literal_digits true s'
      else if Ascii.eqb c "_" && after_digit && starts_with_digit s'
           then literal_digits false s'
           else None
  end.

(** [int(s)] in base 10: surrounding whitespace, an optional sign, digits.
    [None] stands for the [ValueError] it raises. *)
Definition split_sign (t : string) : Z * string :=
  match t with
  | String "-" r => (-1, r)
  | String "+" r => (1, r)
  | _ => (1, t)
  end.

Definition int (s : string) : option Z :=
  let '(sgn, body) := split_sign (strip s) in
  ds ← literal_digits false body;
  d ← NilZero.uint_of_string ds;
  Some (sgn * Z.of_uint d).

(** [str(n)] for an [int], also what an f-string writes for [{n}]. *)
Definition str (n : Z) : string := NilZero.string_of_int (Z.to_int n).

(** The number a string of digits writes in base ten, read digit by digit:
    the reference for what [int] makes of a match of [\d+]. *)
Definition digit_value (c : ascii) : Z := Z.of_nat (nat_of_ascii c) - 48.

Fixpoint decimal_from (acc : Z) (s : string) : Z :=
  match s with
  | EmptyString => acc
  | String c s' => decimal_from (10 * acc + digit_value c) s'
  end.

Definition decimal (s : string) : Z := decimal_from 0 s.

End Py.

(* ===================================================================== *)
(** * BeautifulSoup trees *)
(* ===================================================================== *)

Module Bs4.

(** A node of the parsed document: a text string ([NavigableString]) or an
    element ([Tag]) with its lower-cased name, its attributes and its
    contents.  BeautifulSoup keeps the value of [class] as the list of its
    tokens and the value of [id], [name], [value] as a string: [classes]
    holds the former, [attrs] the single-valued attributes.  Comments and
    the other string kinds that [.text] skips are left out. *)
Inductive node :=
| NText (s : string)
| NTag (name : string) (attrs : list (string * string)) (classes : list string)
       (contents : list node).

(** The [BeautifulSoup] object: the top-level contents of the document. *)
Definition soup := list node.

Fixpoint attrs_get (attrs : list (string * string)) (key : string) : option string :=
  match attrs with
  | [] => None
  | (k, v) :: rest => if String.eqb k key then Some v else attrs_get rest key
  end.

(** [tag.get(key)] for a single-valued attribute. *)
Definition tag_get (n : node) (key : string) : option string :=
  match n with
  | NText _ => None
  | NTag _ attrs _ _ => attrs_get attrs key
  end.

Definition contents (n : node) : list node :=
  match n with
  | NText _ => []
  | NTag _ _ _ cs => cs
  end.

(** [tag.text]: the text strings below the node, concatenated in document
    order. *)
Fixpoint text (n : node) : string :=
  match n with
  | NText s => s
  | NTag _ _ _ cs =>
      (fix texts (l : list node) : string :=
         match l with
         | [] => EmptyString
         | c :: l' => text c +:+ texts l'
         end) cs
  end.

(** A compound CSS selector [name#id.class]; an absent part matches
    anything. *)
Record compound := Compound {
  sel_name : option string;
  sel_id : option string;
  sel_class : option string
}.

Definition matches (c : compound) (n : node) : bool :=
  match n with
  | NText _ => false
  | NTag name attrs classes _ =>
      match sel_name c with Some t => String.eqb name t | None => true end &&
      match sel_id c with
      | Some i => match attrs_get attrs "id" with Some v => String.eqb v i | None => false end
      | None => true
      end &&
      match sel_class c with Some k => existsb (String.eqb k) classes | None => true end
  end.

(** The elements at or below [n], in document order, that match [target]
    and lie below a chain of ancestors matching [pending] (outermost first):
    the descendant combinator.  Taking the first ancestor that matches is
    enough, every later candidate lies below it as well. *)
Fixpoint select_from (pending : list compound) (target : compound) (n : node) : list node :=
  match n with
  | NText _ => []
  | NTag _ _ _ cs =>
      let here :=
        match pending with
        | [] => if matches target n then [n] else []
        | _ :: _ => []
        end in
      let pending' :=
        match pending with
        | [] => []
        | c :: rest => if matches c n then rest else pending
        end in
      here ++
      (fix below (l : list node) : list node :=
         match l with
         | [] => []
         | c :: l' => select_from pending' target c ++ below l'
         end) cs
  end.

(** [soup.select(selector)], the selector given as the chain of its compound
    selectors, ancestors first. *)
Definition select (ancestors : list compound) (target : compound) (roots : list node) : list node :=
  flat_map (select_from ancestors target) roots.

(** [soup.select_one(selector)] *)
Definition select_one (ancestors : list compound) (target : compound) (roots : list node) : option node :=
  head (select ancestors target roots).

(** [tag.select_one(selector)] on an element: its descendants are searched,
    the element itself is not a candidate. *)
Definition tag_select_one (row : node) (target : compound) : option node :=
  select_one [] target (contents row).

(** [soup.find(name, {key: value})]: the first element in document order
    with that name whose attribute [key] is [value]. *)
Fixpoint find_from (name key value : string) (n : node) : option node :=
  match n with
  | NText _ => None
  | NTag nm attrs _ cs =>
      if String.eqb nm name &&
         match attrs_get attrs key with Some v => String.eqb v value | None => false end
      then Some n
      else
        (fix below (l : list node) : option node :=
           match l with
           | [] => None
           | c :: l' =>
               match find_from name key value c with
               | Some r => Some r
               | None => below l'
               end
           end) cs
  end.

Fixpoint find (name key value : string) (roots : list node) : option node :=
  match roots with
  | [] => None
  | n :: rest =>
      match find_from name key value n with
      | Some r => Some r
      | None => find name key value rest
      end
  end.

Definition by_id (i : string) : compound := Compound None (Some i) None.
Definition by_class (name k : string) : compound := Compound (Some name) None (Some k).

End Bs4.

(* ===================================================================== *)
(** * The world of the program and the monad of its effects *)
(* ===================================================================== *)

Module Effects.
Import Py.

Inductive http_method := GET | POST.

Inductive body :=
| NoBody
| FormData (fields : list (string * string))    (* [data=payload] *)
| JsonData (fields : list (string * string)).   (* [json=payload] *)

(** A call into [requests]: through the scout's session (shared cookie jar)
    or the module-level [requests.post]. *)
Record request := Request {
  req_method : http_method;
  req_url : string;
  req_body : body;
  allow_redirects : bool;
  in_session : bool
}.

(** The fields of a [requests.Response] the program reads, [headers] with
    one entry a name.  With [allow_redirects] set, it is the response at
    the end of the redirect chain that [requests] followed. *)
Record response := Response {
  status_code : Z;
  reason : string;
  url : string;
  headers : list (string * string);
  text : string
}.

(** What the program leaves behind, in order. *)
Inductive event :=
| Logged (msg : string)                  (* [core.utils.log] *)
| Slept (seconds : Q)                    (* [time.sleep] *)
| Sent (r : request)                     (* a request handed to [requests] *)
| Called (method : string) (args : list string).   (* a call recorded by a test double *)

(** What lies outside the repository:
    - [html_parser]: [BeautifulSoup(markup, "html.parser")];
    - [format_1f]: the format specification [:.1f] of a float;
    - [remote], [serve]: the servers and the session's cookie jar as a state
      machine: a request is answered by a response, or a [requests]
      exception (connection error, timeout, ...). *)
Class Env := {
  html_parser : string -> Bs4.soup;
  format_1f : Q -> string;
  remote : Type;
  serve : request -> remote -> (exn + response) * remote
}.

Section World.
Context `{Env}.

Record world := World {
  files : gmap string string;      (* the files of the working directory *)
  net : remote;
  rng : nat -> Q;                  (* the values [random.random()] will return *)
  rng_next : nat;
  trace : list event
}.

Inductive outcome (A : Type) :=
| Returned (a : A)
| Raised (e : exn).
Global Arguments Returned {A} a.
Global Arguments Raised {A} e.

(** A computation: runs in a world, returns or raises, leaves a world. *)
Definition M (A : Type) : Type := world -> outcome A * world.

Definition ret {A} (a : A) : M A := fun w => (Returned a, w).

Definition raise {A} (e : exn) : M A := fun w => (Raised e, w).

Definition bind {A B} (m : M A) (k : A -> M B) : M B :=
  fun w =>
    match m w with
    | (Returned a, w') => k a w'
    | (Raised e, w') => (Raised e, w')
    end.

(** [try: m except Exception as e: handler e] *)
Definition try_except {A} (m : M A) (handler : exn -> M A) : M A :=
  fun w =>
    match m w with
    | (Returned a, w') => (Returned a, w')
    | (Raised e, w') => handler e w'
    end.

Definition emit (e : event) : M unit :=
  fun w => (Returned tt,
            World (files w) (net w) (rng w) (rng_next w) (trace w ++ [e])).

(** [random.random()] *)
Definition random : M Q :=
  fun w => (Returned (rng w (rng_next w)),
            World (files w) (net w) (rng w) (S (rng_next w)) (trace w)).

(** Hand a request to [requests]. *)
Definition send (r : request) : M response :=
  fun w =>
    let '(res, net') := serve r (net w) in
    let w' := World (files w) net' (rng w) (rng_next w) (trace w ++ [Sent r]) in
    match res with
    | inl e => (Raised e, w')
    | inr resp => (Returned resp, w')
    end.

(** [open(path, "w")] and [f.write(data)] *)
Definition write_file (path data : string) : M unit :=
  fun w => (Returned tt,
            World (<[path := data]> (files w)) (net w) (rng w) (rng_next w) (trace w)).

(** [open(path, "r")] and [f.read()]; a missing file raises. *)
Definition read_file (path : string) : M string :=
  fun w =>
    match files w !! path with
    | Some data => (Returned data, w)
    | None =>
        (Raised (Exn "FileNotFoundError"
                   ("[Errno 2] No such file or directory: '" +:+ path +:+ "'")), w)
    end.

(** [time.sleep(seconds)] *)
Definition time_sleep (seconds : Q) : M unit := emit (Slept seconds).

(** [response.raise_for_status()] *)
Definition raise_for_status (r : response) : M unit :=
  if (400 <=? status_code r) && (status_code r <? 500) then
    raise (Exn "HTTPError"
             (str (status_code r) +:+ " Client Error: " +:+ reason r +:+ " for url: " +:+ url r))
  else if (500 <=? status_code r) && (status_code r <? 600) then
    raise (Exn "HTTPError"
             (str (status_code r) +:+ " Server Error: " +:+ reason r +:+ " for url: " +:+ url r))
  else ret tt.

(** [int(s)] as a statement: the [ValueError] of a malformed literal (its
    message quotes [s]). *)
Definition int_of (s : string) : M Z :=
  match int s with
  | Some n => ret n
  | None => raise (Exn "ValueError" ("invalid literal for int() with base 10: '" +:+ s +:+ "'"))
  end.

(** [response.ok] *)
Definition ok (r : response) : bool :=
  negb ((400 <=? status_code r) && (status_code r <? 600)).

(** [response.headers.get(key)]: the header dictionary of [requests]
    compares names without regard to case. *)
Fixpoint headers_get (hs : list (string * string)) (key : string) : option string :=
  match hs with
  | [] => None
  | (k, v) :: rest =>
      if String.eqb (lower k) (lower key) then Some v else headers_get rest key
  end.

End World.

Notation "x <- m ;; k" := (bind m (fun x => k))
  (at level 100, m at next level, right associativity, only parsing).
Notation "m ;;; k" := (bind m (fun _ => k))
  (at level 100, right associativity, only parsing).

End Effects.

(* ===================================================================== *)
(** * core/utils.py *)
(* ===================================================================== *)

Module Utils.
Import Py Effects.

Section Utils.
Context `{Env}.

(** [log]: [logging.info(msg)] and [print(msg)]. *)
Definition log (msg : string) : M unit := emit (Logged msg).

(** Python's [max(a, b)]: [b] when [b > a], otherwise [a]. *)
Definition max (a b : Q) : Q := if Qle_bool b a then a else b.

(** [random.uniform(a, b)], which is [a + (b - a) * random()]. *)
Definition uniform (a b : Q) : M Q :=
  r <- random ;; ret (a + (b - a) * r)%Q.

Definition random_delay (base_seconds : Q) : M Q :=
  let jitter := (base_seconds * (3 # 10))%Q in
  u <- uniform (- jitter)%Q jitter ;;
  let delay := (base_seconds + u)%Q in
  ret (max 0%Q delay).

(** What [random_delay] returns, as a function of the base and of the value
    [r] that [random.random()] drew. *)
Definition jittered (base_seconds r : Q) : Q :=
  let jitter := (base_seconds * (3 # 10))%Q in
  max 0%Q (base_seconds + (- jitter + (jitter - - jitter) * r))%Q.

Definition run_number_file : string := "run_number.txt".

Definition save_run_number (run_num : Z) : M unit :=
  write_file run_number_file (str run_num).

Definition load_run_number : M Z :=
  try_except
    (data <- read_file run_number_file ;;
     int_of (strip data))
    (fun _ => ret 0).

Definition send_telegram_message (bot_token chat_id message : string) : M unit :=
  let target := "https://api.telegram.org/bot" +:+ bot_token +:+ "/sendMessage" in
  let payload := [("chat_id", chat_id); ("text", message); ("parse_mode", "Markdown")] in
  try_except
    (resp <- send (Request POST target (JsonData payload) true false) ;;
     if negb (ok resp)
     then log ("Telegram API error: " +:+ str (status_code resp) +:+ " " +:+ text resp)
     else ret tt)
    (fun e => log ("Failed to send Telegram message: " +:+ exn_str e)).

End Utils.

(** [sep.join(items)] *)
Fixpoint join (sep : string) (items : list string) : string :=
  match items with
  | [] => EmptyString
  | [x] => x
  | x :: rest => x +:+ sep +:+ join sep rest
  end.

(** [not os.getenv(var)], on [os.environ] as [load_dotenv()] left it: the
    variable is unset, or set to the empty string. *)
Definition not_set (environ : gmap string string) (var : string) : bool :=
  match environ !! var with
  | None | Some EmptyString => true
  | Some _ => false
  end.

(** [{var: os.getenv(var) for var in required_vars}]; a variable that is
    unset would be mapped to [None], which the check before excludes. *)
Fixpoint getenv_all (environ : gmap string string) (vars : list string)
    : gmap string string :=
  match vars with
  | [] => ∅
  | var :: rest =>
      match environ !! var with
      | Some v => <[var := v]> (getenv_all environ rest)
      | None => getenv_all environ rest
      end
  end.

Definition missing_message (missing_vars : list string) : string :=
  "Missing required environment variables: " +:+ join ", " missing_vars.

Definition load_env_vars (environ : gmap string string) (required_vars : list string)
    : exn + gmap string string :=
  let missing_vars := List.filter (not_set environ) required_vars in
  match missing_vars with
  | _ :: _ => inl (Exn "ScoutConfigurationError" (missing_message missing_vars))
  | [] => inr (getenv_all environ required_vars)
  end.

End Utils.

(* ===================================================================== *)
(** * core/base_scout.py *)
(* ===================================================================== *)

Module BaseScout.
Import Py Effects.

Section BaseScout.
Context `{Env}.

(** The methods a scout provides: the two abstract ones, and the hooks
    with a default that a subclass may override.  [content] is what
    [perform_search] returns and [results] the dictionary of
    [parse_results]; [get_success p] is the truth value of
    [p.get("success", False)].  A dictionary holding a true ["success"] is
    not empty, so [results] once assigned is true in [not results] and in
    [if results]. *)
Class Scout (content results : Type) := {
  perform_search : M content;
  parse_results : content -> M results;
  get_success : results -> bool;
  notify : string -> M unit;
  handle_success : Z -> results -> M unit;
  handle_failure : Z -> Z -> M unit
}.

(** The default [notify]. *)
Definition default_notify (message : string) : M unit :=
  Utils.log ("Notification: " +:+ message).

(** The default [handle_success] and [handle_failure], over the [notify] in
    force; [show] is how the f-string writes [{results}]. *)
Definition default_handle_success {results} (notify : string -> M unit)
    (show : results -> string) (run_number : Z) (r : results) : M unit :=
  let message := "🎉 Success on run #" +:+ str run_number +:+ "!
Results: " +:+ show r in
  notify message ;;;
  Utils.log ("Success on run #" +:+ str run_number +:+ ", results: " +:+ show r).

Definition default_handle_failure (notify : string -> M unit)
    (run_number max_attempts : Z) : M unit :=
  let msg := "❗️ Max attempts (" +:+ str max_attempts +:+ ") reached on run #" +:+ str run_number in
  notify msg ;;;
  Utils.log msg.

Definition waiting (delay : Q) : string :=
  "Waiting " +:+ format_1f delay +:+ " seconds...".

(** [sleep]: sleep with random jitter. *)
Definition sleep (seconds : Q) : M unit :=
  delay <- Utils.random_delay seconds ;;
  Utils.log (waiting delay) ;;;
  time_sleep delay.

Definition load_run_number : M Z := Utils.load_run_number.

Definition save_run_number (run_num : Z) : M unit := Utils.save_run_number run_num.

Section Run.
Context {content results : Type} `{Scout content results}.
Variables (max_attempts short_wait long_wait : Z).

Definition error_log (attempt : Z) (e : exn) : string :=
  "[Attempt #" +:+ str attempt +:+ "] Error during search: " +:+ exn_str e.

Definition error_notification (attempt : Z) (e : exn) : string :=
  "⚠️ Error during search (attempt #" +:+ str attempt +:+ "):
`" +:+ exn_str e +:+ "`".

(** The [try] statement of the inner loop, lines 54 to 63: [Some parsed]
    when it ends in [break], [None] when control falls through to the
    [self.sleep(short_wait)] after it. *)
Definition attempt_search (attempt : Z) : M (option results) :=
  try_except
    (search_results <- perform_search ;;
     parsed <- parse_results search_results ;;
     if get_success parsed then ret (Some parsed) else ret None)
    (fun e =>
       Utils.log (error_log attempt e) ;;;
       notify (error_notification attempt e) ;;;
       ret None).

(** [while attempt < max_attempts and not results], lines 52 to 65.  The
    loop runs at most [max_attempts - attempt] times; [fuel] bounds the
    unfolding and [attempts_fuel] below shows that this many iterations
    never cut it short.  Returns the final [attempt] and [results]. *)
Fixpoint attempts (fuel : nat) (attempt : Z) (res : option results)
    : M (Z * option results) :=
  if (attempt <? max_attempts) && negb (bool_decide (is_Some res)) then
    match fuel with
    | O => ret (attempt, res)
    | S fuel' =>
        let attempt := attempt + 1 in
        found <- attempt_search attempt ;;
        match found with
        | Some parsed => ret (attempt, Some parsed)
        | None =>
            sleep (inject_Z short_wait) ;;;
            attempts fuel' attempt res
        end
    end
  else ret (attempt, res).

Definition start_message (run_number : Z) : string :=
  "🚀 Starting run #" +:+ str run_number.

(** One turn of [while True], lines 41 to 72; returns the run number. *)
Definition run_once (run_number : Z) : M Z :=
  let run_number := run_number + 1 in
  save_run_number run_number ;;;
  Utils.log (start_message run_number) ;;;
  notify (start_message run_number) ;;;
  ar <- attempts (Z.to_nat max_attempts) 0 None ;;
  match snd ar with
  | Some r =>
      handle_success run_number r ;;;
      sleep (inject_Z long_wait)
  | None =>
      handle_failure run_number max_attempts ;;;
      sleep (inject_Z long_wait)
  end ;;;
  ret run_number.

Fixpoint runs (n : nat) (run_number : Z) : M Z :=
  match n with
  | O => ret run_number
  | S n' => run_number' <- run_once run_number ;; runs n' run_number'
  end.

(** [run]: the loop never ends; [run n] is its first [n] turns. *)
Definition run (n : nat) : M Z :=
  run_number <- load_run_number ;; runs n run_number.

End Run.
End BaseScout.
End BaseScout.

(* ===================================================================== *)
(** * scouts/vhs_berlin.py *)
(* ===================================================================== *)

Module VHSBerlin.
Import Py Effects BaseScout.

(** [self.config] after [setup]. *)
Record config := Config {
  URL : string;
  KEYWORD_SELECTION_VALUE : string;
  TELEGRAM_BOT_TOKEN : string;
  TELEGRAM_CHAT_ID : string;
  LONG_WAIT : Z;
  SHORT_WAIT : Z;
  MAX_ATTEMPTS : Z
}.

(** One entry of ["courses"]. *)
Record course := Course {
  district : string;
  course_title : string;
  free_places : string
}.

(** The dictionary [parse_results] returns: the keys ["success"] and
    ["has_courses"] are always there, ["course_count"] and ["courses"]
    only in the dictionary of a result list. *)
Record parsed := Parsed {
  success : bool;
  has_courses : bool;
  course_count : option Z;
  courses : option (list course)
}.

Definition no_courses_message : string := "Zu Ihrer Suche wurden keine Kurse gefunden.".
Definition site : string := "https://www.vhsit.berlin.de".

(** A request of the session for an address of the site. *)
Definition site_get (e : event) : Prop :=
  exists loc redirects, e = Sent (Request GET (site +:+ loc) NoBody redirects true).

(** A request of the session, of any kind. *)
Definition session_request (e : event) : Prop :=
  exists r, e = Sent r /\ in_session r = true.

(** What [_get_hidden_inputs] has to store under [name]: the [value] of the
    first input of that name, the empty string when there is no such
    input; [None] when that input has no [value], where [tag["value"]]
    raises. *)
Definition hidden_value (soup : Bs4.soup) (name : string) : option string :=
  match Bs4.find "input" "name" name soup with
  | Some tag => Bs4.tag_get tag "value"
  | None => Some EmptyString
  end.

Definition required_vars : list string :=
  ["URL"; "KEYWORD_SELECTION_VALUE"; "TELEGRAM_BOT_TOKEN"; "TELEGRAM_CHAT_ID"].

(** [int(os.getenv(var, fallback))] *)
Definition int_env (environ : gmap string string) (var fallback : string) : exn + Z :=
  let s := default fallback (environ !! var) in
  match int s with
  | Some n => inr n
  | None => inl (Exn "ValueError" ("invalid literal for int() with base 10: '" +:+ s +:+ "'"))
  end.

(** [self.config[key]] *)
Definition config_item (d : gmap string string) (key : string) : exn + string :=
  match d !! key with
  | Some v => inr v
  | None => inl (Exn "KeyError" ("'" +:+ key +:+ "'"))
  end.

(** [setup]: the required variables, then the three numbers with their
    defaults, evaluated in the order of the dictionary display.  The
    record is filled from the dictionary the way the methods read it
    later. *)
Definition setup (environ : gmap string string) : exn + config :=
  match Utils.load_env_vars environ required_vars with
  | inl e => inl e
  | inr d =>
      match int_env environ "LONG_WAIT" "3600" with
      | inl e => inl e
      | inr long_wait =>
      match int_env environ "SHORT_WAIT" "60" with
      | inl e => inl e
      | inr short_wait =>
      match int_env environ "MAX_ATTEMPTS" "500" with
      | inl e => inl e
      | inr max_attempts =>
      match config_item d "URL", config_item d "KEYWORD_SELECTION_VALUE",
            config_item d "TELEGRAM_BOT_TOKEN", config_item d "TELEGRAM_CHAT_ID" with
      | inr u, inr k, inr t, inr c =>
          inr (Config u k t c long_wait short_wait max_attempts)
      | inl e, _, _, _ | _, inl e, _, _ | _, _, inl e, _ | _, _, _, inl e => inl e
      end end end end
  end.

Section VHSBerlinScout.
Context `{Env}.
Variable cfg : config.

Definition notify (message : string) : M unit :=
  Utils.send_telegram_message (TELEGRAM_BOT_TOKEN cfg) (TELEGRAM_CHAT_ID cfg) message.

Definition hidden_names : list string :=
  ["__VIEWSTATE"; "__VIEWSTATEGENERATOR"; "__LASTFOCUS"; "__EVENTTARGET";
   "__EVENTARGUMENT"; "__SCROLLPOSITIONX"; "__SCROLLPOSITIONY"].

(** [_get_hidden_inputs]: [tag["value"]] raises [KeyError] on an input
    without that attribute. *)
Fixpoint hidden_inputs_of (soup : Bs4.soup) (names : list string)
    (inputs : gmap string string) : M (gmap string string) :=
  match names with
  | [] => ret inputs
  | name :: rest =>
      match Bs4.find "input" "name" name soup with
      | Some tag =>
          match Bs4.tag_get tag "value" with
          | Some v => hidden_inputs_of soup rest (<[name := v]> inputs)
          | None => raise (Exn "KeyError" "'value'")
          end
      | None => hidden_inputs_of soup rest (<[name := EmptyString]> inputs)
      end
  end.

Definition _get_hidden_inputs (soup : Bs4.soup) : M (gmap string string) :=
  hidden_inputs_of soup hidden_names ∅.

(** [d[key]] *)
Definition item (d : gmap string string) (key : string) : M string :=
  match d !! key with
  | Some v => ret v
  | None => raise (Exn "KeyError" ("'" +:+ key +:+ "'"))
  end.

Definition _build_search_payload (hidden_inputs : gmap string string)
    : M (list (string * string)) :=
  lastfocus <- item hidden_inputs "__LASTFOCUS" ;;
  eventtarget <- item hidden_inputs "__EVENTTARGET" ;;
  eventargument <- item hidden_inputs "__EVENTARGUMENT" ;;
  viewstate <- item hidden_inputs "__VIEWSTATE" ;;
  viewstategenerator <- item hidden_inputs "__VIEWSTATEGENERATOR" ;;
  scrollx <- item hidden_inputs "__SCROLLPOSITIONX" ;;
  scrolly <- item hidden_inputs "__SCROLLPOSITIONY" ;;
  ret [ ("__LASTFOCUS", lastfocus);
        ("__EVENTTARGET", eventtarget);
        ("__EVENTARGUMENT", eventargument);
        ("__VIEWSTATE", viewstate);
        ("__VIEWSTATEGENERATOR", viewstategenerator);
        ("__SCROLLPOSITIONX", scrollx);
        ("__SCROLLPOSITIONY", scrolly);
        ("ctl00$Content$btnSearch", "Suchen");
        ("ctl00$Content$SimpleSearch1$SimpleSearchBox$txtSearchTerm", EmptyString);
        ("ctl00$Content$KeywordsList1$cmbKeyword", KEYWORD_SELECTION_VALUE cfg);
        ("ctl00$Content$AreaList1$cmbDistricts", "0");
        ("ctl00$Content$AdvancedSearch1$SearchBox1$txtSearchTerm", EmptyString);
        ("ctl00$Content$KeywordsListAdvanced1$cmbKeyword", "-1");
        ("ctl00$Content$AreaListAdvanced1$CheckBoxListDistricts$0", "0");
        ("ctl00$Content$LyceumSelection1$cmbLyceum", "0");
        ("ctl00$Content$TimeDependingInput1$cmbTimeStructur", "0");
        ("ctl00$Content$TimeDependingInput1$txtCourseInstructor", EmptyString);
        ("ctl00$Content$TimeDependingInput1$txtBeginFrom", EmptyString);
        ("ctl00$Content$TimeDependingInput1$txtEndTo", EmptyString);
        ("ctl00$Content$CourseNumber1$searchBoxCourseNr$txtSearchTerm", EmptyString) ].

(** [self.session.get(url, allow_redirects=...)] *)
Definition session_get (target : string) (redirects : bool) : M response :=
  send (Request GET target NoBody redirects true).

(** [self.session.post(url, data=payload, allow_redirects=...)] *)
Definition session_post (target : string) (payload : list (string * string))
    (redirects : bool) : M response :=
  send (Request POST target (FormData payload) redirects true).

(** [_follow_redirects]; [not loc] holds of a missing header and of an
    empty one. *)
Definition _follow_redirects (initial_response : response) : M string :=
  if status_code initial_response =? 200 then ret (text initial_response)
  else
    match headers_get (headers initial_response) "Location" with
    | None | Some EmptyString => ret (text initial_response)
    | Some loc =>
        r1 <- session_get (site +:+ loc) false ;;
        if status_code r1 =? 200 then ret (text r1)
        else
          match headers_get (headers r1) "Location" with
          | None | Some EmptyString => ret (text r1)
          | Some loc2 =>
              r2 <- session_get (site +:+ loc2) true ;;
              raise_for_status r2 ;;;
              ret (text r2)
          end
    end.

(** Lines 43 and 44: the status check on the response to the POST. *)
Definition check_post_status (post_resp : response) : M unit :=
  if negb (bool_decide (status_code post_resp ∈ [302; 200])) then
    raise (Exn "Exception"
             ("Unexpected POST response status: " +:+ str (status_code post_resp)))
  else ret tt.

Definition perform_search : M string :=
  r <- session_get (URL cfg) true ;;
  raise_for_status r ;;;
  let soup := html_parser (text r) in
  hidden_inputs <- _get_hidden_inputs soup ;;
  payload <- _build_search_payload hidden_inputs ;;
  post_resp <- session_post (URL cfg) payload false ;;
  check_post_status post_resp ;;;
  content <- _follow_redirects post_resp ;;
  ret content.

(** Steps 1 to 3 of [perform_search] on their own, lines 33 to 42: the
    response to the form submission. *)
Definition submit_form : M response :=
  r <- session_get (URL cfg) true ;;
  raise_for_status r ;;;
  let soup := html_parser (text r) in
  hidden_inputs <- _get_hidden_inputs soup ;;
  payload <- _build_search_payload hidden_inputs ;;
  session_post (URL cfg) payload false.

Definition unexpected_status (status : Z) : exn :=
  Exn "Exception" ("Unexpected POST response status: " +:+ str status).

Definition sel_error : Bs4.compound := Bs4.by_id "ctl00_Content_ErrorMessage1_lblError".
Definition sel_title : Bs4.compound := Bs4.by_id "ctl00_Content_lblTitle".
Definition sel_count : Bs4.compound := Bs4.by_id "ctl00_Content_lblMessage1All".
Definition sel_grid : Bs4.compound := Bs4.by_id "ctl00_Content_ILDataGrid1".
Definition sel_row : Bs4.compound := Bs4.by_class "tr" "DataGridItem".

(** [safe_text]: the selection cannot raise on a tree, the [except] branch
    is never taken. *)
Definition safe_text (row : Bs4.node) (sel : Bs4.compound) : string :=
  match Bs4.tag_select_one row sel with
  | Some el => strip (Bs4.text el)
  | None => "N/A"
  end.

Definition course_of_row (row : Bs4.node) : course :=
  {| district := safe_text row (Bs4.by_class "td" "DataGridItemDistrict");
     course_title := safe_text row (Bs4.by_class "td" "DataGridItemCourseTitle");
     free_places := safe_text row (Bs4.by_class "td" "DataGridItemPlaces") |}.

(** [rows = soup.select("#ctl00_Content_ILDataGrid1 tr.DataGridItem")] *)
Definition data_rows (soup : Bs4.soup) : list Bs4.node :=
  Bs4.select [sel_grid] sel_row soup.

(** [count_text] *)
Definition count_text (soup : Bs4.soup) : string :=
  match Bs4.select_one [] sel_count soup with
  | Some count_el => strip (Bs4.text count_el)
  | None => EmptyString
  end.

(** The count a page with a list reports: the number written by the first
    run of digits of [count_text], 0 when it holds no digit. *)
Definition reported_count (soup : Bs4.soup) : Z :=
  match re_search_digits (count_text soup) with
  | Some group => decimal group
  | None => 0
  end.

(** The two tests of the parser, as properties of a page: it carries the
    message that no course was found; its title element is there and holds
    the marker of a course list. *)
Definition shows_no_courses (soup : Bs4.soup) : bool :=
  match Bs4.select_one [] sel_error soup with
  | Some el => contains no_courses_message (Bs4.text el)
  | None => false
  end.

Definition shows_course_list (soup : Bs4.soup) : bool :=
  match Bs4.select_one [] sel_title soup with
  | Some el => contains "Kursliste" (Bs4.text el)
  | None => false
  end.

(** The dictionary returned for both kinds of page without a list. *)
Definition no_courses : parsed :=
  {| success := false; has_courses := false; course_count := None; courses := None |}.

(** The dictionary of a list that announces no course and has no row. *)
Definition empty_list : parsed :=
  {| success := true; has_courses := true; course_count := Some 0; courses := Some [] |}.

(** The parser on the tree that [BeautifulSoup] built, lines 113 to 151. *)
Definition parse_soup (soup : Bs4.soup) : M parsed :=
  let error_el := Bs4.select_one [] sel_error soup in
  if match error_el with
     | Some el => contains no_courses_message (Bs4.text el)
     | None => false
     end
  then ret {| success := false; has_courses := false; course_count := None; courses := None |}
  else
    let title_el := Bs4.select_one [] sel_title soup in
    if match title_el with
       | Some el => negb (contains "Kursliste" (Bs4.text el))
       | None => true
       end
    then ret {| success := false; has_courses := false; course_count := None; courses := None |}
    else
      let m := re_search_digits (count_text soup) in
      count <- match m with
               | Some group => int_of group
               | None => ret 0
               end ;;
      let rows := data_rows soup in
      ret {| success := true; has_courses := true;
             course_count := Some count;
             courses := Some (map course_of_row rows) |}.

Definition parse_results (html_text : string) : M parsed :=
  let soup := html_parser html_text in
  parse_soup soup.

Definition course_lines (i : Z) (c : course) : string :=
  str i +:+ ". District: " +:+ district c +:+ "
   Title: " +:+ course_title c +:+ "
   Free places: " +:+ free_places c +:+ "

".

(** [for i, c in enumerate(results["courses"], 1): message += ...] *)
Fixpoint enumerate_lines (i : Z) (cs : list course) (message : string) : string :=
  match cs with
  | [] => message
  | c :: rest => enumerate_lines (i + 1) rest (message +:+ course_lines i c)
  end.

Definition minutes (seconds : Z) : string := format_1f (inject_Z seconds / 60)%Q.

Definition handle_success (run_number : Z) (r : parsed) : M unit :=
  match course_count r, courses r with
  | Some count, Some cs =>
      let message :=
        "đźŽ‰ *Courses available found on run #" +:+ str run_number +:+ "!*
Total courses: *" +:+ str count +:+ "*
Link: " +:+ URL cfg +:+ "

" in
      notify (enumerate_lines 1 cs message) ;;;
      Utils.log ("Courses found on run #" +:+ str run_number +:+ ", waiting " +:+
                 minutes (LONG_WAIT cfg) +:+ " minutes before next run...")
  | None, _ => raise (Exn "KeyError" "'course_count'")
  | Some _, None => raise (Exn "KeyError" "'courses'")
  end.

Definition handle_failure (run_number max_attempts : Z) : M unit :=
  let msg := "âť—ď¸Ź Max attempts (" +:+ str max_attempts +:+ ") reached on run #" +:+
             str run_number +:+ ", waiting " +:+ minutes (LONG_WAIT cfg) +:+
             " minutes before next run..." in
  Utils.log msg ;;;
  notify msg.

Global Instance VHSBerlinScout : Scout string parsed := {|
  BaseScout.perform_search := perform_search;
  BaseScout.parse_results := parse_results;
  BaseScout.get_success := success;
  BaseScout.notify := notify;
  BaseScout.handle_success := handle_success;
  BaseScout.handle_failure := handle_failure
|}.

(** [run]: the base loop with the configured limits. *)
Definition run (n : nat) : M Z :=
  BaseScout.run (MAX_ATTEMPTS cfg) (SHORT_WAIT cfg) (LONG_WAIT cfg) n.

End VHSBerlinScout.
End VHSBerlin.

(* ===================================================================== *)
(** * A scripted scout *)
(* ===================================================================== *)

(** The test double of the specification's loop properties: a scout whose
    [k]-th search ends the way [script k] says, and whose methods record
    their calls.  It counts its searches in the record of its calls, as a
    mock object does. *)
Module Stub.
Import Py Effects BaseScout.

Definition is_call (name : string) (e : event) : bool :=
  match e with
  | Called m _ => String.eqb m name
  | _ => false
  end.

(** How often [name] was called. *)
Definition calls (name : string) (tr : list event) : nat :=
  length (List.filter (is_call name) tr).

(** A notification of a failed attempt, by the marker of line 63. *)
Definition is_error_notification (e : event) : bool :=
  match e with
  | Called "notify" [msg] => String.prefix "⚠️ Error during search" msg
  | _ => false
  end.

Definition error_notifications (tr : list event) : nat :=
  length (List.filter is_error_notification tr).

(** How often [time.sleep] was called. *)
Definition is_sleep (e : event) : bool :=
  match e with
  | Slept _ => true
  | _ => false
  end.

Definition sleeps (tr : list event) : nat :=
  length (List.filter is_sleep tr).

Section Stub.
Context `{Env} {content results : Type}.
Variable script : nat -> exn + content.
Variable parse : content -> exn + results.
Variable flag : results -> bool.

Definition perform_search : M content :=
  fun w =>
    let k := calls "perform_search" (trace w) in
    (emit (Called "perform_search" []) ;;;
     match script k with
     | inl e => raise e
     | inr c => ret c
     end) w.

Definition parse_results (c : content) : M results :=
  emit (Called "parse_results" []) ;;;
  match parse c with
  | inl e => raise e
  | inr r => ret r
  end.

Definition notify (message : string) : M unit :=
  emit (Called "notify" [message]).

Definition handle_success (run_number : Z) (r : results) : M unit :=
  emit (Called "handle_success" [str run_number]).

Definition handle_failure (run_number max_attempts : Z) : M unit :=
  emit (Called "handle_failure" [str run_number; str max_attempts]).

(** How the [k]-th attempt of the script ends: it raises (in the search or
    in the parse); it fails (it raises, or its result has a false flag). *)
Definition attempt_raises (k : nat) : bool :=
  match script k with
  | inl _ => true
  | inr c => match parse c with inl _ => true | inr _ => false end
  end.

Definition attempt_fails (k : nat) : bool :=
  match script k with
  | inl _ => true
  | inr c => match parse c with inl _ => true | inr r => negb (flag r) end
  end.

(** How many of the attempts [from], ..., [from + n - 1] raise. *)
Definition raising (from n : nat) : nat :=
  length (List.filter attempt_raises (seq from n)).

Definition StubScout : Scout content results := {|
  BaseScout.perform_search := perform_search;
  BaseScout.parse_results := parse_results;
  BaseScout.get_success := flag;
  BaseScout.notify := notify;
  BaseScout.handle_success := handle_success;
  BaseScout.handle_failure := handle_failure
|}.

End Stub.
End Stub.

(* ===================================================================== *)
(** * A closed environment *)
(* ===================================================================== *)

(** A small instance of what lies outside the repository, to run the
    definitions on concrete inputs: pages are looked up in a table instead
    of being parsed, the site answers the requests of the session from a
    script, one answer a request, and Telegram always answers 200. *)
Module Lab.
Import Py Effects.

Definition pages := list (string * Bs4.soup).

Fixpoint lookup_page (table : pages) (markup : string) : Bs4.soup :=
  match table with
  | [] => []
  | (k, t) :: rest => if String.eqb k markup then t else lookup_page rest markup
  end.

(** [:.1f] of a non-negative rational: tenths, rounded half to even. *)
Definition format_tenths (q : Q) : string :=
  let t := (q * 10)%Q in
  let lo := Qfloor t in
  let r := (t - inject_Z lo)%Q in
  let n :=
    if Qle_bool r (1 # 2)
    then (if Qle_bool (1 # 2) r then (if Z.even lo then lo else lo + 1) else lo)
    else lo + 1 in
  str (n / 10) +:+ "." +:+ str (n mod 10).

Definition span (id content : string) : Bs4.node :=
  Bs4.NTag "span" [("id", id)] [] [Bs4.NText content].

Definition cell (class content : string) : Bs4.node :=
  Bs4.NTag "td" [] [class] [Bs4.NText content].

(** The pages of the site: one that says no course was found, one whose
    title is not that of a course list, a course list announcing 12 courses
    with two rows, each lacking some of its cells, a course list without
    summary and rows, and the search form. *)
Definition no_courses_page : Bs4.soup :=
  [Bs4.NTag "html" [] []
     [span "ctl00_Content_lblTitle" "Kurssuche";
      span "ctl00_Content_ErrorMessage1_lblError"
        "Zu Ihrer Suche wurden keine Kurse gefunden."]].

Definition maintenance_page : Bs4.soup :=
  [Bs4.NTag "html" [] [] [span "ctl00_Content_lblTitle" "Wartungsarbeiten"]].

Definition listing_page : Bs4.soup :=
  [Bs4.NTag "html" [] []
     [span "ctl00_Content_lblTitle" "Kursliste";
      span "ctl00_Content_lblMessage1All" " Es wurden 12 Kurse gefunden ";
      Bs4.NTag "table" [("id", "ctl00_Content_ILDataGrid1")] []
        [Bs4.NTag "tr" [] ["DataGridItem"]
           [cell "DataGridItemDistrict" " Mitte ";
            cell "DataGridItemCourseTitle" "Deutsch A1"];
         Bs4.NTag "tr" [] ["DataGridItem"]
           [cell "DataGridItemPlaces" "3"]]]].

Definition empty_listing_page : Bs4.soup :=
  [Bs4.NTag "html" [] [] [span "ctl00_Content_lblTitle" "Kursliste"]].

Definition form_page : Bs4.soup :=
  [Bs4.NTag "form" [] []
     [Bs4.NTag "input" [("name", "__VIEWSTATE"); ("value", "dDwtMTA4")] [] []]].

Definition site_pages : pages :=
  [("<no courses>", no_courses_page); ("<maintenance>", maintenance_page);
   ("<listing>", listing_page); ("<empty listing>", empty_listing_page);
   ("<form>", form_page)].

Definition script := list (exn + response).

Definition answer (r : request) (st : script) : (exn + response) * script :=
  if in_session r then
    match st with
    | a :: rest => (a, rest)
    | [] => (inl (Exn "ConnectionError" "Connection refused"), [])
    end
  else (inr (Response 200 "OK" (req_url r) [] "{}"), st).

Definition env (table : pages) : Env := {|
  html_parser := lookup_page table;
  format_1f := format_tenths;
  remote := script;
  serve := answer
|}.

(** A configuration, and the answer of the site to the first GET. *)
Definition settings : VHSBerlin.config :=
  VHSBerlin.Config "https://vhs/search" "42" "token" "chat" 3600 60 5.

Definition ok_form : response :=
  Response 200 "OK" "https://vhs/search" [] "<form>".

(** A fresh world: no files, every random draw one half. *)
Definition fresh (table : pages) (st : script) : @world (env table) :=
  @World (env table) ∅ st (fun _ => 1 # 2)%Q O [].

(** The answers of the site for three attempts: the first finds no course,
    the second is refused, the third is redirected twice to the list. *)
Definition three_attempt_script : script :=
  [inr ok_form;
   inr (Response 200 "OK" "https://vhs/search" [] "<no courses>");
   inl (Exn "ConnectionError" "connection refused");
   inr ok_form;
   inr (Response 302 "Found" "https://vhs/search" [("Location", "/hop")] EmptyString);
   inr (Response 302 "Found" "https://vhs/hop" [("Location", "/list")] "<maintenance>");
   inr (Response 200 "OK" "https://vhs/list" [] "<listing>")].

(** What a trace holds: the messages logged, the calls to Telegram. *)
Definition logged (tr : list event) : list string :=
  omap (fun e => match e with Logged msg => Some msg | _ => None end) tr.

Definition telegrams (tr : list event) : nat :=
  length (List.filter (fun e => match e with
                                | Sent r => negb (in_session r)
                                | _ => false
                                end) tr).

End Lab.

(* ===================================================================== *)
(** * The definitions at work *)
(* ===================================================================== *)

Section Runs.
Import Py Effects VHSBerlin.

Example strip_summary : strip "  12 Kurse " = "12 Kurse".
Proof. reflexivity. Qed.

(** A no-break space (C2 A0) and a line break at the ends are whitespace. *)
Example strip_no_break_space :
  strip (String (ascii_of_nat 194) (String (ascii_of_nat 160) "3
")) = "3".
Proof. reflexivity. Qed.

Example int_literals :
  int " 1_000 " = Some 1000 /\ int "-7" = Some (-7) /\ int "+7" = Some 7 /\
  int "007" = Some 7 /\ int "1__0" = None /\ int "_1" = None /\
  int "" = None /\ int "12a" = None.
Proof. repeat split; reflexivity. Qed.

Example first_run_of_digits :
  re_search_digits "Es wurden 12 Kurse (3 frei)" = Some "12" /\
  re_search_digits "keine Kurse" = None.
Proof. split; reflexivity. Qed.

Example location_header :
  headers_get [("Content-Type", "text/html"); ("location", "/list")] "Location"
  = Some "/list".
Proof. reflexivity. Qed.

Example listing_rows :
  length (data_rows Lab.listing_page) = 2%nat /\
  map course_of_row (data_rows Lab.listing_page) =
  [Course "Mitte" "Deutsch A1" "N/A"; Course "N/A" "N/A" "3"].
Proof. split; reflexivity. Qed.

(** One whole turn of the loop of the VHS Berlin scout: the first attempt
    finds no course, the second is refused by the site, the third follows
    two redirects to the list. *)
Example vhs_berlin_turn :
  let after := @VHSBerlin.run (Lab.env Lab.site_pages) Lab.settings 1
                 (Lab.fresh Lab.site_pages Lab.three_attempt_script) in
  fst after = Returned 1 /\
  files (snd after) !! Utils.run_number_file = Some "1" /\
  net (snd after) = [] /\
  Lab.logged (trace (snd after)) =
    ["🚀 Starting run #1";
     "Waiting 60.0 seconds...";
     "[Attempt #2] Error during search: connection refused";
     "Waiting 60.0 seconds...";
     "Courses found on run #1, waiting 60.0 minutes before next run...";
     "Waiting 3600.0 seconds..."] /\
  Lab.telegrams (trace (snd after)) = 3%nat.
Proof. repeat split; reflexivity. Qed.

End Runs.

(* ===================================================================== *)
(** * The monad laws, pointwise *)
(* ===================================================================== *)

Section MonadFacts.
Import Effects.
Context `{Env}.

Lemma bind_ret_r {A : Type} (m : M A) (w : world) : bind m ret w = m w.
Proof. unfold bind, ret. destruct (m w) as [[a|e] w']; reflexivity. Qed.

Lemma bind_assoc {A B C : Type} (m : M A) (k : A -> M B) (k' : B -> M C) (w : world) :
  bind (bind m k) k' w = bind m (fun a => bind (k a) k') w.
Proof. unfold bind. destruct (m w) as [[a|e] w']; reflexivity. Qed.

End MonadFacts.

(* ===================================================================== *)
(** * Facts about the built-ins *)
(* ===================================================================== *)

Section PyFacts.
Import Py.

Lemma is_digit_range (c : ascii) :
  is_digit c = true <-> (48 <= nat_of_ascii c <= 57)%nat.
Proof.
  destruct c as [[] [] [] [] [] [] [] []]; vm_compute; split;
    first [ discriminate | lia | intros [? ?]; lia | intros _; split; lia | reflexivity ].
Qed.

Lemma not_digit_range (c : ascii) :
  is_digit c = false <-> (nat_of_ascii c < 48 \/ 57 < nat_of_ascii c)%nat.
Proof.
  pose proof (is_digit_range c) as Hc.
  destruct (is_digit c); split; intros Hx; try discriminate; try reflexivity; lia.
Qed.

Lemma space_not_digit (c : ascii) : is_ascii_space c = true -> is_digit c = false.
Proof.
  unfold is_ascii_space. rewrite not_digit_range. intros Hs.
  apply orb_true_iff in Hs as [Hs | Hs]; apply andb_true_iff in Hs as [H1 H2];
    apply Nat.leb_le in H1, H2; lia.
Qed.

Lemma byte_is_not_digit (c : ascii) (n : nat) :
  (57 < n)%nat -> byte_is c n = true -> is_digit c = false.
Proof.
  unfold byte_is. intros Hn Hc. apply Nat.eqb_eq in Hc. apply not_digit_range. lia.
Qed.

Lemma byte_in_not_digit (c : ascii) (lo hi : nat) :
  (57 < lo)%nat -> byte_in c lo hi = true -> is_digit c = false.
Proof.
  unfold byte_in. intros Hn Hc. apply andb_true_iff in Hc as [H1 H2].
  apply Nat.leb_le in H1. apply not_digit_range. lia.
Qed.

Lemma digit_not_byte (c : ascii) (n : nat) :
  (57 < n)%nat -> is_digit c = true -> byte_is c n = false.
Proof.
  intros Hn Hc. destruct (byte_is c n) eqn:Hb; [|reflexivity].
  rewrite (byte_is_not_digit c n Hn Hb) in Hc. discriminate.
Qed.

Lemma digit_not_in (c : ascii) (lo hi : nat) :
  (57 < lo)%nat -> is_digit c = true -> byte_in c lo hi = false.
Proof.
  intros Hn Hc. destruct (byte_in c lo hi) eqn:Hb; [|reflexivity].
  rewrite (byte_in_not_digit c lo hi Hn Hb) in Hc. discriminate.
Qed.

Lemma digit_not_space (c : ascii) : is_digit c = true -> is_ascii_space c = false.
Proof.
  intros Hc. destruct (is_ascii_space c) eqn:Hs; [|reflexivity].
  rewrite (space_not_digit c Hs) in Hc. discriminate.
Qed.

(** ** Substring tests *)

Lemma prefix_append (s q : string) : String.prefix s (s +:+ q) = true.
Proof.
  induction s as [|c s IH]; simpl.
  - destruct q; reflexivity.
  - destruct (ascii_dec c c); [exact IH | congruence].
Qed.

Lemma contains_append_l (p s : string) (needle : string) :
  contains needle s = true -> contains needle (p +:+ s) = true.
Proof.
  intros Hs. induction p as [|c p IH]; simpl; [exact Hs|].
  rewrite IH. apply orb_true_r.
Qed.

Lemma contains_prefix (needle hay : string) :
  String.prefix needle hay = true -> contains needle hay = true.
Proof. intros Hp. destruct hay; unfold contains; fold contains; rewrite Hp; reflexivity. Qed.

Lemma contains_middle (p s q : string) : contains s (p +:+ s +:+ q) = true.
Proof. apply contains_append_l, contains_prefix, prefix_append. Qed.

End PyFacts.

Section StripFacts.
Import Py.

Lemma lstrip_digit (s : string) : starts_with_digit s = true -> lstrip s = s.
Proof.
  destruct s as [|c1 [|c2 [|c3 s3]]]; cbn [starts_with_digit]; intros Hd;
    try discriminate; cbn [lstrip];
    rewrite (digit_not_space _ Hd), ?(digit_not_byte c1 194), ?(digit_not_byte c1 225),
      ?(digit_not_byte c1 226), ?(digit_not_byte c1 227) by (assumption || lia);
    reflexivity.
Qed.

Lemma lstrip_rev_digit (s : string) : starts_with_digit s = true -> lstrip_rev s = s.
Proof.
  destruct s as [|c1 [|c2 [|c3 s3]]]; cbn [starts_with_digit]; intros Hd;
    try discriminate; cbn [lstrip_rev];
    rewrite (digit_not_space _ Hd), ?(digit_not_byte c1 133), ?(digit_not_byte c1 160),
      ?(digit_not_byte c1 128), ?(digit_not_byte c1 175), ?(digit_not_byte c1 159),
      ?(digit_not_in c1 128 138), ?(digit_not_in c1 168 169) by (assumption || lia);
    cbn [orb]; rewrite ?andb_false_r; reflexivity.
Qed.

Lemma has_digit_append (a b : string) :
  has_digit (a +:+ b) = has_digit a || has_digit b.
Proof. induction a as [|c a IH]; simpl; [reflexivity|]. rewrite IH. apply orb_assoc. Qed.

(** The bytes of a whitespace character are no digits: split the test [H]
    that recognised it into its byte tests and read each one. *)
Ltac split_tests H :=
  repeat match type of H with
         | (_ || _) = true => apply orb_true_iff in H as [H | H]
         | (_ && _) = true =>
             let H' := fresh H in apply andb_true_iff in H as [H H']; split_tests H'
         end.

Ltac no_digit :=
  solve [ eapply space_not_digit; eassumption
        | eapply byte_is_not_digit; [|eassumption]; lia
        | eapply byte_in_not_digit; [|eassumption]; lia ].

(** What is stripped from the front holds no digit.  [strip_front] is the
    common shape of [lstrip] and [lstrip_rev]: one, two or three bytes are
    dropped while the test on them holds. *)
Ltac strip_front IH s Hlen :=
  let c1 := fresh "c" in let s1 := fresh "s" in
  let c2 := fresh "c" in let s2 := fresh "s" in
  let c3 := fresh "c" in let s3 := fresh "s" in
  let T := fresh "T" in let d := fresh "d" in
  let Hd := fresh "Hd" in let Hn := fresh "Hn" in
  destruct s as [|c1 s1]; [exists EmptyString; split; reflexivity|];
  cbn [lstrip lstrip_rev];
  destruct (is_ascii_space c1) eqn:T;
  [ destruct (IH s1) as (d & Hd & Hn); [simpl in Hlen; lia|];
    exists (String c1 d); split; [rewrite Hd at 1; reflexivity|];
    cbn [has_digit]; rewrite Hn;
    assert (is_digit c1 = false) as -> by no_digit; reflexivity
  | clear T ];
  destruct s1 as [|c2 s2]; [exists EmptyString; split; reflexivity|];
  match goal with |- context [if ?b then _ else _] => destruct b eqn:T end;
  [ destruct (IH s2) as (d & Hd & Hn); [simpl in Hlen; lia|];
    exists (String c1 (String c2 d)); split; [rewrite Hd at 1; reflexivity|];
    cbn [has_digit]; rewrite Hn;
    assert (is_digit c1 = false /\ is_digit c2 = false) as (-> & ->)
      by (split_tests T; split; no_digit);
    reflexivity
  | clear T ];
  destruct s2 as [|c3 s3]; [exists EmptyString; split; reflexivity|];
  match goal with |- context [if ?b then _ else _] => destruct b eqn:T end;
  [ destruct (IH s3) as (d & Hd & Hn); [simpl in Hlen; lia|];
    exists (String c1 (String c2 (String c3 d))); split; [rewrite Hd at 1; reflexivity|];
    cbn [has_digit]; rewrite Hn;
    assert (is_digit c1 = false /\ is_digit c2 = false /\ is_digit c3 = false)
      as (-> & -> & ->) by (split_tests T; repeat split; no_digit);
    reflexivity
  | exists EmptyString; split; reflexivity ].

Lemma lstrip_split_bounded (n : nat) (s : string) :
  (String.length s <= n)%nat ->
  exists d, s = d +:+ lstrip s /\ has_digit d = false.
Proof.
  revert s. induction n as [|n IH]; intros s Hlen.
  - destruct s; [|simpl in Hlen; lia]. exists EmptyString. split; reflexivity.
  - strip_front IH s Hlen.
Qed.

Lemma lstrip_split (s : string) :
  exists d, s = d +:+ lstrip s /\ has_digit d = false.
Proof. apply (lstrip_split_bounded (String.length s)). lia. Qed.

Lemma lstrip_rev_split_bounded (n : nat) (s : string) :
  (String.length s <= n)%nat ->
  exists d, s = d +:+ lstrip_rev s /\ has_digit d = false.
Proof.
  revert s. induction n as [|n IH]; intros s Hlen.
  - destruct s; [|simpl in Hlen; lia]. exists EmptyString. split; reflexivity.
  - strip_front IH s Hlen.
Qed.

Lemma lstrip_rev_split (s : string) :
  exists d, s = d +:+ lstrip_rev s /\ has_digit d = false.
Proof. apply (lstrip_rev_split_bounded (String.length s)). lia. Qed.

End StripFacts.

Section ReverseFacts.
Import Py.

Lemma append_cons (c : ascii) (a b : string) : String c a +:+ b = String c (a +:+ b).
Proof. reflexivity. Qed.

Lemma append_nil_r (s : string) : s +:+ EmptyString = s.
Proof. induction s as [|c s IH]; [reflexivity|]. rewrite append_cons, IH. reflexivity. Qed.

Lemma append_assoc (a b c : string) : (a +:+ b) +:+ c = a +:+ (b +:+ c).
Proof. induction a as [|x a IH]; [reflexivity|]. rewrite !append_cons, IH. reflexivity. Qed.

Lemma rev_append_spec (s acc : string) : rev_append s acc = reverse s +:+ acc.
Proof.
  unfold reverse. revert acc. induction s as [|c s IH]; intros acc; [reflexivity|].
  cbn [rev_append]. rewrite IH, (IH (String c EmptyString)), append_assoc. reflexivity.
Qed.

Lemma reverse_cons (c : ascii) (s : string) :
  reverse (String c s) = reverse s +:+ String c EmptyString.
Proof. unfold reverse at 1. cbn [rev_append]. apply rev_append_spec. Qed.

Lemma reverse_append (a b : string) : reverse (a +:+ b) = reverse b +:+ reverse a.
Proof.
  induction a as [|c a IH].
  - change (EmptyString +:+ b) with b. symmetry. apply append_nil_r.
  - rewrite append_cons, !reverse_cons, IH, append_assoc. reflexivity.
Qed.

Lemma reverse_involutive (s : string) : reverse (reverse s) = s.
Proof.
  induction s as [|c s IH]; [reflexivity|].
  rewrite reverse_cons, reverse_append, IH. reflexivity.
Qed.

Lemma has_digit_reverse (s : string) : has_digit (reverse s) = has_digit s.
Proof.
  induction s as [|c s IH]; [reflexivity|].
  rewrite reverse_cons, has_digit_append, IH. simpl. rewrite orb_false_r. apply orb_comm.
Qed.

(** What [rstrip] and [strip] drop holds no digit. *)
Lemma rstrip_split (s : string) :
  exists d, s = rstrip s +:+ d /\ has_digit d = false.
Proof.
  unfold rstrip. destruct (lstrip_rev_split (reverse s)) as (d & Hd & Hn).
  exists (reverse d). split; [|rewrite has_digit_reverse; exact Hn].
  rewrite <- reverse_append, <- Hd, reverse_involutive. reflexivity.
Qed.

Lemma strip_split (s : string) :
  exists d1 d2, s = d1 +:+ strip s +:+ d2 /\ has_digit d1 = false /\ has_digit d2 = false.
Proof.
  unfold strip. destruct (lstrip_split s) as (d1 & H1 & Hn1).
  destruct (rstrip_split (lstrip s)) as (d2 & H2 & Hn2).
  exists d1, d2. repeat split; try assumption. rewrite <- H2. exact H1.
Qed.

(** A string that starts and ends with a digit has nothing to strip. *)
Lemma strip_digits_ends (s : string) :
  starts_with_digit s = true -> starts_with_digit (reverse s) = true -> strip s = s.
Proof.
  intros Hs He. unfold strip, rstrip.
  rewrite (lstrip_digit s Hs), (lstrip_rev_digit _ He). apply reverse_involutive.
Qed.

Lemma all_digits_starts (s : string) :
  all_digits s = true -> s <> EmptyString -> starts_with_digit s = true.
Proof.
  destruct s as [|c s]; [congruence|]. simpl. intros Hd _.
  apply andb_true_iff in Hd. tauto.
Qed.

Lemma all_digits_append (a b : string) :
  all_digits (a +:+ b) = all_digits a && all_digits b.
Proof. induction a as [|c a IH]; simpl; [reflexivity|]. rewrite IH. apply andb_assoc. Qed.

Lemma all_digits_reverse (s : string) : all_digits (reverse s) = all_digits s.
Proof.
  induction s as [|c s IH]; [reflexivity|].
  rewrite reverse_cons, all_digits_append, IH. simpl. rewrite andb_true_r. apply andb_comm.
Qed.

Lemma reverse_nonempty (s : string) : s <> EmptyString -> reverse s <> EmptyString.
Proof.
  destruct s as [|c s]; [congruence|]. intros _. rewrite reverse_cons.
  destruct (reverse s); discriminate.
Qed.

Lemma strip_all_digits (s : string) :
  all_digits s = true -> s <> EmptyString -> strip s = s.
Proof.
  intros Hd Hne. apply strip_digits_ends.
  - apply all_digits_starts; assumption.
  - apply all_digits_starts; [rewrite all_digits_reverse; exact Hd|].
    apply reverse_nonempty, Hne.
Qed.

End ReverseFacts.

Section SearchFacts.
Import Py.

Lemma re_search_none (s : string) : has_digit s = false -> re_search_digits s = None.
Proof.
  induction s as [|c s IH]; [reflexivity|]. simpl. intros Hd.
  apply orb_false_iff in Hd as [Hc Hs]. rewrite Hc. auto.
Qed.

Lemma re_search_skip (p s : string) :
  has_digit p = false -> re_search_digits (p +:+ s) = re_search_digits s.
Proof.
  induction p as [|c p IH]; [reflexivity|]. simpl. intros Hd.
  apply orb_false_iff in Hd as [Hc Hp]. rewrite Hc. auto.
Qed.

Lemma take_digits_run (ds post : string) :
  all_digits ds = true -> starts_with_digit post = false ->
  take_digits (ds +:+ post) = ds.
Proof.
  intros Hd Hp. induction ds as [|c ds IH].
  - destruct post as [|c post]; [reflexivity|]. simpl in *. rewrite Hp. reflexivity.
  - simpl in *. apply andb_true_iff in Hd as [Hc Hd]. rewrite Hc, IH; auto.
Qed.

Lemma no_digit_start (d : string) : has_digit d = false -> starts_with_digit d = false.
Proof. destruct d; simpl; [reflexivity|]. intros Hd. apply orb_false_iff in Hd. tauto. Qed.

Lemma take_digits_tail (s d : string) :
  has_digit d = false -> take_digits (s +:+ d) = take_digits s.
Proof.
  intros Hd. induction s as [|c s IH].
  - apply (take_digits_run EmptyString d); [reflexivity | apply no_digit_start, Hd].
  - simpl. rewrite IH. reflexivity.
Qed.

Lemma re_search_tail (s d : string) :
  has_digit d = false -> re_search_digits (s +:+ d) = re_search_digits s.
Proof.
  intros Hd. induction s as [|c s IH].
  - apply re_search_none, Hd.
  - rewrite append_cons. cbn [re_search_digits]. rewrite IH.
    rewrite <- append_cons, take_digits_tail by exact Hd. reflexivity.
Qed.

(** Stripping does not change what [\d+] finds. *)
Lemma re_search_strip (s : string) :
  re_search_digits (strip s) = re_search_digits s.
Proof.
  destruct (strip_split s) as (d1 & d2 & Hs & H1 & H2).
  rewrite Hs at 2. rewrite re_search_skip, re_search_tail by assumption. reflexivity.
Qed.

(** The match is the first run of digits. *)
Lemma re_search_run (pre ds post : string) :
  has_digit pre = false -> all_digits ds = true -> ds <> EmptyString ->
  starts_with_digit post = false ->
  re_search_digits (pre +:+ ds +:+ post) = Some ds.
Proof.
  intros Hpre Hds Hne Hpost. rewrite re_search_skip by exact Hpre.
  destruct ds as [|c ds]; [congruence|].
  pose proof (take_digits_run _ _ Hds Hpost) as Ht.
  rewrite append_cons in *. cbn [re_search_digits].
  simpl in Hds. apply andb_true_iff in Hds as [Hc _]. rewrite Hc, Ht. reflexivity.
Qed.

End SearchFacts.

Section IntFacts.
Import Py.

Lemma literal_digits_all (s : string) (after_digit : bool) :
  all_digits s = true -> s <> EmptyString \/ after_digit = true ->
  literal_digits after_digit s = Some s.
Proof.
  revert after_digit. induction s as [|c s IH]; intros b Hd Hb.
  - destruct Hb as [Hb | ->]; [congruence | reflexivity].
  - simpl in *. apply andb_true_iff in Hd as [Hc Hd]. rewrite Hc.
    rewrite (IH true Hd) by (right; reflexivity). reflexivity.
Qed.

Lemma split_sign_digit (c : ascii) (r : string) :
  is_digit c = true -> split_sign (String c r) = (1, String c r).
Proof.
  destruct c as [[] [] [] [] [] [] [] []]; intros Hc; try discriminate Hc; reflexivity.
Qed.

Lemma uint_of_digits (s : string) :
  all_digits s = true ->
  exists d, NilEmpty.uint_of_string s = Some d /\
    forall e, Z.of_N (DecimalPos.Unsigned.of_lu (Decimal.revapp d e)) =
              decimal_from (Z.of_N (DecimalPos.Unsigned.of_lu e)) s.
Proof.
  induction s as [|c s IH]; intros Hd.
  - exists Decimal.Nil. split; [reflexivity|]. intros e. reflexivity.
  - simpl in Hd. apply andb_true_iff in Hd as [Hc Hd].
    destruct (IH Hd) as (d & Hs & Hv). cbn [NilEmpty.uint_of_string]. rewrite Hs.
    destruct c as [[] [] [] [] [] [] [] []]; try discriminate Hc;
      eexists; (split; [reflexivity|]); intros e;
      cbn [Decimal.revapp decimal_from]; rewrite Hv; f_equal;
      cbn [DecimalPos.Unsigned.of_lu]; unfold digit_value;
      change (nat_of_ascii _) with (48 + 0)%nat || change (nat_of_ascii _) with (48 + 1)%nat
      || change (nat_of_ascii _) with (48 + 2)%nat || change (nat_of_ascii _) with (48 + 3)%nat
      || change (nat_of_ascii _) with (48 + 4)%nat || change (nat_of_ascii _) with (48 + 5)%nat
      || change (nat_of_ascii _) with (48 + 6)%nat || change (nat_of_ascii _) with (48 + 7)%nat
      || change (nat_of_ascii _) with (48 + 8)%nat || change (nat_of_ascii _) with (48 + 9)%nat;
      lia.
Qed.

(** [int] of a run of digits is the number it writes. *)
Lemma int_digits (s : string) :
  all_digits s = true -> s <> EmptyString -> int s = Some (decimal s).
Proof.
  intros Hd Hne. unfold int. rewrite (strip_all_digits s Hd Hne).
  destruct s as [|c r]; [congruence|].
  assert (is_digit c = true) as Hc by (simpl in Hd; apply andb_true_iff in Hd; tauto).
  rewrite (split_sign_digit c r Hc).
  rewrite (literal_digits_all _ false Hd) by (left; discriminate).
  destruct (uint_of_digits _ Hd) as (d & Hs & Hv).
  cbn [mbind option_bind]. change (NilZero.uint_of_string (String c r)) with (NilEmpty.uint_of_string (String c r)).
  rewrite Hs. cbn [mbind option_bind]. f_equal.
  unfold Z.of_uint. rewrite DecimalPos.Unsigned.of_uint_alt.
  unfold Decimal.rev. rewrite Hv. unfold decimal. simpl. destruct (decimal_from _ _); reflexivity.
Qed.

Lemma all_digits_of_uint (d : Decimal.uint) :
  all_digits (NilEmpty.string_of_uint d) = true.
Proof. induction d; simpl; auto. Qed.

Lemma str_nonneg_digits (n : Z) :
  0 <= n -> all_digits (str n) = true /\ str n <> EmptyString.
Proof.
  intros Hn. destruct n as [|p|p]; [split; [reflexivity | discriminate] | | lia].
  unfold str. cbn [Z.to_int NilZero.string_of_int].
  pose proof (DecimalPos.Unsigned.to_uint_nonnil p) as Hnil.
  destruct (Pos.to_uint p) eqn:E; try congruence;
    (split; [apply (all_digits_of_uint) | discriminate]).
Qed.

End IntFacts.

Section StrFacts.
Import Py.

Lemma uint_value_to_uint (p : positive) : Z.of_uint (Pos.to_uint p) = Z.pos p.
Proof. unfold Z.of_uint. rewrite DecimalPos.Unsigned.of_to. reflexivity. Qed.

Lemma str_pos (p : positive) : str (Z.pos p) = NilEmpty.string_of_uint (Pos.to_uint p).
Proof.
  unfold str. cbn [Z.to_int NilZero.string_of_int].
  pose proof (DecimalPos.Unsigned.to_uint_nonnil p).
  destruct (Pos.to_uint p); try congruence; reflexivity.
Qed.

Lemma str_neg (p : positive) : str (Z.neg p) = String "-" (str (Z.pos p)).
Proof. rewrite str_pos. unfold str. cbn [Z.to_int NilZero.string_of_int].
  pose proof (DecimalPos.Unsigned.to_uint_nonnil p).
  destruct (Pos.to_uint p); try congruence; reflexivity.
Qed.

Lemma uint_of_str_pos (p : positive) :
  NilZero.uint_of_string (str (Z.pos p)) = Some (Pos.to_uint p).
Proof.
  rewrite str_pos.
  pose proof (DecimalPos.Unsigned.to_uint_nonnil p) as Hnil.
  rewrite <- (NilZero.usu _ Hnil). f_equal.
  destruct (Pos.to_uint p); try congruence; reflexivity.
Qed.

Lemma lstrip_minus (s : string) : lstrip (String "-" s) = String "-" s.
Proof. destruct s as [|c2 [|c3 s3]]; reflexivity. Qed.

Lemma strip_str (n : Z) : strip (str n) = str n.
Proof.
  destruct n as [|p|p]; [reflexivity| |].
  - destruct (str_nonneg_digits (Z.pos p)) as [Hd Hne]; [lia|].
    apply strip_all_digits; assumption.
  - destruct (str_nonneg_digits (Z.pos p)) as [Hd Hne]; [lia|].
    rewrite str_neg. unfold strip, rstrip.
    rewrite lstrip_minus, lstrip_rev_digit, reverse_involutive; [reflexivity|].
    rewrite reverse_cons.
    pose proof (reverse_nonempty _ Hne) as Hr.
    pose proof (all_digits_reverse (str (Z.pos p))) as Ha. rewrite Hd in Ha.
    destruct (reverse (str (Z.pos p))) as [|c r]; [congruence|].
    apply (all_digits_starts _ Ha Hr).
Qed.

(** [int] reads back what [str] wrote. *)
Lemma int_str (n : Z) : int (str n) = Some n.
Proof.
  unfold int. rewrite strip_str.
  destruct n as [|p|p]; [reflexivity| |];
    destruct (str_nonneg_digits (Z.pos p)) as [Hd Hne]; try lia.
  - destruct (str (Z.pos p)) as [|c r] eqn:E; [congruence|].
    assert (is_digit c = true) as Hc by (simpl in Hd; apply andb_true_iff in Hd; tauto).
    rewrite (split_sign_digit c r Hc), (literal_digits_all _ false Hd) by (left; discriminate).
    cbn [mbind option_bind]. rewrite <- E, uint_of_str_pos. cbn [mbind option_bind].
    rewrite uint_value_to_uint. reflexivity.
  - rewrite str_neg. cbn [split_sign].
    rewrite (literal_digits_all _ false Hd) by (left; exact Hne).
    cbn [mbind option_bind]. rewrite uint_of_str_pos. cbn [mbind option_bind].
    rewrite uint_value_to_uint. reflexivity.
Qed.

End StrFacts.

(* ===================================================================== *)
(** * core/utils.py: the jittered delay and the run number *)
(* ===================================================================== *)

Section UtilsFacts.
Import Py Effects.
Context `{Env}.

Lemma random_delay_draw (base : Q) (w : world) :
  Utils.random_delay base w =
  (Returned (Utils.jittered base (rng w (rng_next w))),
   World (files w) (net w) (rng w) (S (rng_next w)) (trace w)).
Proof. reflexivity. Qed.

Lemma max_zero_cases (d : Q) :
  (d <= 0 /\ Utils.max 0 d = 0)%Q \/ (0 < d /\ Utils.max 0 d = d)%Q.
Proof.
  unfold Utils.max. destruct (Qle_bool d 0) eqn:E.
  - left. split; [apply Qle_bool_iff, E | reflexivity].
  - right. split; [|reflexivity]. apply Qnot_le_lt. intros Hle.
    apply Qle_bool_iff in Hle. congruence.
Qed.

Lemma jittered_nonneg_base (base r : Q) :
  (0 <= base -> 0 <= r <= 1 ->
   (7 # 10) * base <= Utils.jittered base r <= (13 # 10) * base)%Q.
Proof.
  intros Hb [Hr0 Hr1]. unfold Utils.jittered; cbv zeta.
  set (d := (base + (- (base * (3 # 10)) + (base * (3 # 10) - - (base * (3 # 10))) * r))%Q).
  assert (0 <= base * r)%Q as Hx0 by (apply Qmult_le_0_compat; assumption).
  assert (0 <= base * (1 - r))%Q as Hx1 by (apply Qmult_le_0_compat; lra).
  assert (base * (1 - r) == base - base * r)%Q as Hx2 by ring.
  assert (d == (7 # 10) * base + (6 # 10) * (base * r))%Q as Hd by (unfold d; ring).
  destruct (max_zero_cases d) as [[Hd0 ->] | [Hd0 ->]]; rewrite Hd in *; split; lra.
Qed.

Lemma jittered_neg_base (base r : Q) :
  (base <= 0 -> 0 <= r <= 1 -> Utils.jittered base r = 0)%Q.
Proof.
  intros Hb [Hr0 Hr1]. unfold Utils.jittered; cbv zeta.
  set (d := (base + (- (base * (3 # 10)) + (base * (3 # 10) - - (base * (3 # 10))) * r))%Q).
  assert (0 <= (- base) * r)%Q as Hx0 by (apply Qmult_le_0_compat; lra).
  assert (d == (7 # 10) * base - (6 # 10) * ((- base) * r))%Q as Hd by (unfold d; ring).
  destruct (max_zero_cases d) as [[Hd0 ->] | [Hd0 ->]]; [reflexivity|].
  rewrite Hd in Hd0. lra.
Qed.

End UtilsFacts.

(* ===================================================================== *)
(** * core/base_scout.py: one turn of the inner loop *)
(* ===================================================================== *)

Section LoopFacts.
Import Py Effects BaseScout.
Context `{Env} {content results : Type} {scout : Scout content results}.
Variables (max_attempts short_wait long_wait : Z).

Local Abbreviation attempts := (attempts max_attempts short_wait).

(** The loop is left when the budget is used up or a result is held. *)
Lemma attempts_exit (fuel : nat) (attempt : Z) (res : option results) (w : world) :
  max_attempts <= attempt \/ is_Some res ->
  attempts fuel attempt res w = (Returned (attempt, res), w).
Proof.
  intros Hexit.
  assert ((attempt <? max_attempts) && negb (bool_decide (is_Some res)) = false) as Hc.
  { destruct Hexit as [Hge | Hres].
    - apply andb_false_iff. left. apply Z.ltb_ge, Hge.
    - apply andb_false_iff. right. rewrite bool_decide_eq_true_2 by exact Hres. reflexivity. }
  destruct fuel; cbn [BaseScout.attempts]; rewrite Hc; reflexivity.
Qed.

Lemma attempts_enter (fuel : nat) (attempt : Z) (w : world) :
  attempt < max_attempts ->
  attempts (S fuel) attempt None w =
  bind (attempt_search (attempt + 1))
    (fun found =>
       match found with
       | Some parsed => ret (attempt + 1, Some parsed)
       | None => bind (sleep (inject_Z short_wait))
                   (fun _ => attempts fuel (attempt + 1) None)
       end) w.
Proof.
  intros Hlt. cbn [BaseScout.attempts].
  assert ((attempt <? max_attempts) && negb (bool_decide (is_Some (@None results))) = true) as ->.
  { apply andb_true_iff. split; [apply Z.ltb_lt, Hlt|].
    rewrite bool_decide_eq_false_2; [reflexivity|]. intros [x Hx]. discriminate. }
  reflexivity.
Qed.

(** An attempt whose search raises: the error is logged and notified, then
    the loop sleeps the short delay and goes on. *)
Lemma attempts_search_raises (fuel : nat) (attempt : Z) (w w1 : world) (e : exn) :
  attempt < max_attempts ->
  perform_search w = (Raised e, w1) ->
  attempts (S fuel) attempt None w =
  bind (Utils.log (error_log (attempt + 1) e)) (fun _ =>
  bind (notify (error_notification (attempt + 1) e)) (fun _ =>
  bind (sleep (inject_Z short_wait)) (fun _ =>
  attempts fuel (attempt + 1) None))) w1.
Proof.
  intros Hlt Hs. rewrite attempts_enter by exact Hlt.
  unfold attempt_search, try_except, bind at 1 2 3. rewrite Hs.
  unfold bind, Utils.log, emit. destruct (notify _ _) as [[[]|e'] w2]; reflexivity.
Qed.

(** The same when it is the parser that raises. *)
Lemma attempts_parse_raises (fuel : nat) (attempt : Z) (w w1 w2 : world)
    (c : content) (e : exn) :
  attempt < max_attempts ->
  perform_search w = (Returned c, w1) ->
  parse_results c w1 = (Raised e, w2) ->
  attempts (S fuel) attempt None w =
  bind (Utils.log (error_log (attempt + 1) e)) (fun _ =>
  bind (notify (error_notification (attempt + 1) e)) (fun _ =>
  bind (sleep (inject_Z short_wait)) (fun _ =>
  attempts fuel (attempt + 1) None))) w2.
Proof.
  intros Hlt Hs Hp. rewrite attempts_enter by exact Hlt.
  unfold attempt_search, try_except, bind at 1 2 3. rewrite Hs, Hp.
  unfold bind, Utils.log, emit. destruct (notify _ _) as [[[]|e'] w3]; reflexivity.
Qed.

(** An attempt that ends with a negative outcome: nothing is logged and no
    notification is sent for it, the loop goes straight to the short
    sleep. *)
Lemma attempts_negative (fuel : nat) (attempt : Z) (w w1 w2 : world)
    (c : content) (p : results) :
  attempt < max_attempts ->
  perform_search w = (Returned c, w1) ->
  parse_results c w1 = (Returned p, w2) ->
  get_success p = false ->
  attempts (S fuel) attempt None w =
  bind (sleep (inject_Z short_wait)) (fun _ => attempts fuel (attempt + 1) None) w2.
Proof.
  intros Hlt Hs Hp Hf. rewrite attempts_enter by exact Hlt.
  unfold attempt_search, try_except, bind at 1 2 3. rewrite Hs, Hp, Hf. reflexivity.
Qed.

(** A successful attempt leaves the loop at once: no sleep, no further
    attempt. *)
Lemma attempts_success (fuel : nat) (attempt : Z) (w w1 w2 : world)
    (c : content) (p : results) :
  attempt < max_attempts ->
  perform_search w = (Returned c, w1) ->
  parse_results c w1 = (Returned p, w2) ->
  get_success p = true ->
  attempts (S fuel) attempt None w = (Returned (attempt + 1, Some p), w2).
Proof.
  intros Hlt Hs Hp Hf. rewrite attempts_enter by exact Hlt.
  unfold attempt_search, try_except, bind at 1 2 3. rewrite Hs, Hp, Hf. reflexivity.
Qed.

(** [max_attempts - attempt] unfoldings are enough: more fuel changes
    nothing. *)
Lemma attempts_fuel (fuel fuel' : nat) (attempt : Z) (res : option results) (w : world) :
  (Z.to_nat (max_attempts - attempt) <= fuel)%nat ->
  (Z.to_nat (max_attempts - attempt) <= fuel')%nat ->
  attempts fuel attempt res w = attempts fuel' attempt res w.
Proof.
  revert fuel' attempt res w. induction fuel as [|fuel IH]; intros fuel' attempt res w Hf Hf'.
  - rewrite !attempts_exit by (left; lia). reflexivity.
  - destruct (Z.lt_ge_cases attempt max_attempts) as [Hlt | Hge];
      [|rewrite !attempts_exit by (left; lia); reflexivity].
    destruct res as [r|]; [rewrite !attempts_exit by (right; eauto); reflexivity|].
    destruct fuel' as [|fuel']; [lia|].
    rewrite !attempts_enter by exact Hlt. unfold bind at 1 3.
    destruct (attempt_search (attempt + 1) w) as [[[p|]|e] w1]; try reflexivity.
    unfold bind. destruct (sleep (inject_Z short_wait) w1) as [[[]|e] w2]; [|reflexivity].
    apply IH; lia.
Qed.

(** With that much fuel the loop ends by its own condition, never for want
    of fuel, and the attempt counter stays within the budget. *)
Lemma attempts_ends (fuel : nat) (attempt a : Z) (res r : option results) (w w' : world) :
  (Z.to_nat (max_attempts - attempt) <= fuel)%nat ->
  attempts fuel attempt res w = (Returned (a, r), w') ->
  (max_attempts <= a \/ is_Some r) /\ attempt <= a <= Z.max attempt max_attempts.
Proof.
  revert attempt res w. induction fuel as [|fuel IH]; intros attempt res w Hfuel Hrun.
  - rewrite attempts_exit in Hrun by (left; lia). injection Hrun as <- <- <-.
    split; [left|]; lia.
  - destruct (Z.lt_ge_cases attempt max_attempts) as [Hlt | Hge].
    2:{ rewrite attempts_exit in Hrun by (left; lia). injection Hrun as <- <- <-.
        split; [left|]; lia. }
    destruct res as [x|].
    { rewrite attempts_exit in Hrun by (right; eauto). injection Hrun as <- <- <-.
      split; [right; eauto | lia]. }
    rewrite attempts_enter in Hrun by exact Hlt. unfold bind at 1 in Hrun.
    destruct (attempt_search (attempt + 1) w) as [[[p|]|e] w1]; try discriminate.
    + injection Hrun as <- <- <-. split; [right; eauto | lia].
    + unfold bind in Hrun.
      destruct (sleep (inject_Z short_wait) w1) as [[[]|e] w2]; [|discriminate].
      apply IH in Hrun; [|lia]. destruct Hrun as [Hend Hbound]. split; [exact Hend | lia].
Qed.

End LoopFacts.

(* ===================================================================== *)
(** * The scripted scout in the loop *)
(* ===================================================================== *)

Section SleepFacts.
Import Py Effects BaseScout.
Context `{Env}.

(** [sleep] draws once, logs the delay and sleeps it. *)
Lemma sleep_world (seconds : Q) (w : world) :
  sleep seconds w =
  (Returned tt,
   let delay := Utils.jittered seconds (rng w (rng_next w)) in
   World (files w) (net w) (rng w) (S (rng_next w))
     (trace w ++ [Logged (waiting delay); Slept delay])).
Proof.
  unfold sleep, bind. rewrite random_delay_draw.
  unfold Utils.log, time_sleep, emit. cbn [files net rng rng_next trace].
  rewrite <- app_assoc. reflexivity.
Qed.

End SleepFacts.

Section StubFacts.
Import Py Effects BaseScout Stub.

Lemma calls_app (name : string) (a b : list event) :
  calls name (a ++ b) = (calls name a + calls name b)%nat.
Proof. unfold calls. rewrite List.filter_app, length_app. reflexivity. Qed.

Context `{Env} {content results : Type}.
Variable script : nat -> exn + content.
Variable parse : content -> exn + results.
Variable flag : results -> bool.
Variables (max_attempts short_wait : Z).

Local Abbreviation stub := (StubScout script parse flag).
Local Abbreviation attempts := (@attempts _ _ _ stub max_attempts short_wait).

(** The [k]-th search of the stub ends as the script says. *)
Lemma stub_search (k : nat) (w : world) :
  calls "perform_search" (trace w) = k ->
  Stub.perform_search script w =
  (match script k with inl e => Raised e | inr c => Returned c end,
   World (files w) (net w) (rng w) (rng_next w) (trace w ++ [Called "perform_search" []])).
Proof.
  intros <-. unfold Stub.perform_search, bind, emit.
  destruct (script _); reflexivity.
Qed.

(** An attempt of the stub whose search raises, with all it leaves in the
    trace. *)
Lemma stub_attempt_raises (k fuel : nat) (attempt : Z) (w : world) (e : exn) :
  attempt < max_attempts ->
  calls "perform_search" (trace w) = k ->
  script k = inl e ->
  attempts (S fuel) attempt None w =
  attempts fuel (attempt + 1) None
    (let delay := Utils.jittered (inject_Z short_wait) (rng w (rng_next w)) in
     World (files w) (net w) (rng w) (S (rng_next w))
       (trace w ++ [Called "perform_search" [];
                    Logged (error_log (attempt + 1) e);
                    Called "notify" [error_notification (attempt + 1) e];
                    Logged (waiting delay); Slept delay])).
Proof.
  intros Hlt Hk He.
  erewrite attempts_search_raises;
    [| exact Hlt | cbn [BaseScout.perform_search StubScout]; rewrite (stub_search k w Hk), He; reflexivity].
  unfold bind at 1. cbn [Utils.log emit].
  unfold bind at 1. cbn [BaseScout.notify StubScout Stub.notify emit].
  unfold bind at 1. rewrite sleep_world.
  cbn [files net rng rng_next trace]. rewrite <- !app_assoc. reflexivity.
Qed.

(** A successful attempt of the stub. *)
Lemma stub_attempt_success (k fuel : nat) (attempt : Z) (w : world)
    (c : content) (p : results) :
  attempt < max_attempts ->
  calls "perform_search" (trace w) = k ->
  script k = inr c -> parse c = inr p -> flag p = true ->
  attempts (S fuel) attempt None w =
  (Returned (attempt + 1, Some p),
   World (files w) (net w) (rng w) (rng_next w)
     (trace w ++ [Called "perform_search" []; Called "parse_results" []])).
Proof.
  intros Hlt Hk Hc Hp Hf.
  pose proof (stub_search k w Hk) as Hs. rewrite Hc in Hs.
  assert (Stub.parse_results parse c
            (World (files w) (net w) (rng w) (rng_next w)
               (trace w ++ [Called "perform_search" []])) =
          (Returned p,
           World (files w) (net w) (rng w) (rng_next w)
             (trace w ++ [Called "perform_search" []; Called "parse_results" []]))) as Hq.
  { unfold Stub.parse_results, bind, emit. rewrite Hp.
    cbn [files net rng rng_next trace]. rewrite <- app_assoc. reflexivity. }
  apply (attempts_success (scout := stub) max_attempts short_wait fuel attempt _ _ _ c p Hlt Hs Hq Hf).
Qed.

(** An attempt of the stub with a negative outcome. *)
Lemma stub_attempt_negative (k fuel : nat) (attempt : Z) (w : world)
    (c : content) (p : results) :
  attempt < max_attempts ->
  calls "perform_search" (trace w) = k ->
  script k = inr c -> parse c = inr p -> flag p = false ->
  attempts (S fuel) attempt None w =
  attempts fuel (attempt + 1) None
    (let delay := Utils.jittered (inject_Z short_wait) (rng w (rng_next w)) in
     World (files w) (net w) (rng w) (S (rng_next w))
       (trace w ++ [Called "perform_search" []; Called "parse_results" [];
                    Logged (waiting delay); Slept delay])).
Proof.
  intros Hlt Hk Hc Hp Hf.
  pose proof (stub_search k w Hk) as Hs. rewrite Hc in Hs.
  assert (Stub.parse_results parse c
            (World (files w) (net w) (rng w) (rng_next w)
               (trace w ++ [Called "perform_search" []])) =
          (Returned p,
           World (files w) (net w) (rng w) (rng_next w)
             (trace w ++ [Called "perform_search" []; Called "parse_results" []]))) as Hq.
  { unfold Stub.parse_results, bind, emit. rewrite Hp.
    cbn [files net rng rng_next trace]. rewrite <- app_assoc. reflexivity. }
  rewrite (attempts_negative (scout := stub) max_attempts short_wait fuel attempt _ _ _ c p Hlt Hs Hq Hf).
  unfold bind at 1. rewrite sleep_world.
  cbn [files net rng rng_next trace]. rewrite <- !app_assoc. reflexivity.
Qed.

End StubFacts.

(* ===================================================================== *)
(** * scouts/vhs_berlin.py: the result parser *)
(* ===================================================================== *)

Section ParserFacts.
Import Py Effects VHSBerlin.
Context `{Env}.

Lemma take_digits_all (s : string) : all_digits (take_digits s) = true.
Proof.
  induction s as [|c s IH]; [reflexivity|]. simpl.
  destruct (is_digit c) eqn:Hc; [|reflexivity]. simpl. rewrite Hc. exact IH.
Qed.

(** A match of [\d+] is a non-empty run of digits. *)
Lemma re_search_some (s group : string) :
  re_search_digits s = Some group ->
  all_digits group = true /\ group <> EmptyString.
Proof.
  revert group. induction s as [|c s IH]; intros group; [discriminate|].
  cbn [re_search_digits]. destruct (is_digit c) eqn:Hc; [|apply IH].
  intros [= <-]. split; [apply (take_digits_all (String c s))|].
  cbn [take_digits]. rewrite Hc. discriminate.
Qed.

(** [int(m.group())] never raises. *)
Lemma int_of_group (s group : string) (w : world) :
  re_search_digits s = Some group ->
  int_of group w = (Returned (decimal group), w).
Proof.
  intros Hm. destruct (re_search_some _ _ Hm) as [Hd Hne].
  unfold int_of. rewrite (int_digits _ Hd Hne). reflexivity.
Qed.

Lemma parse_soup_no_courses (soup : Bs4.soup) (w : world) :
  shows_no_courses soup = true ->
  parse_soup soup w = (Returned no_courses, w).
Proof.
  unfold shows_no_courses, parse_soup. intros Hn.
  destruct (Bs4.select_one [] sel_error soup) as [el|]; [|discriminate].
  rewrite Hn. reflexivity.
Qed.

Lemma parse_soup_unrecognized (soup : Bs4.soup) (w : world) :
  shows_no_courses soup = false ->
  shows_course_list soup = false ->
  parse_soup soup w = (Returned no_courses, w).
Proof.
  unfold shows_no_courses, shows_course_list, parse_soup. intros Hn Ht.
  rewrite Hn.
  destruct (Bs4.select_one [] sel_title soup) as [el|]; [rewrite Ht|]; reflexivity.
Qed.

Lemma parse_soup_list (soup : Bs4.soup) (w : world) :
  shows_no_courses soup = false ->
  shows_course_list soup = true ->
  parse_soup soup w =
  (Returned {| success := true; has_courses := true;
               course_count := Some (reported_count soup);
               courses := Some (map course_of_row (data_rows soup)) |}, w).
Proof.
  unfold shows_no_courses, shows_course_list, parse_soup, reported_count. intros Hn Ht.
  rewrite Hn.
  destruct (Bs4.select_one [] sel_title soup) as [el|]; [|discriminate].
  rewrite Ht. cbn [negb]. unfold bind.
  destruct (re_search_digits (count_text soup)) as [group|] eqn:Hm; [|reflexivity].
  rewrite (int_of_group _ _ w Hm). reflexivity.
Qed.

(** The count is the first run of digits of the summary text. *)
Lemma reported_count_run (soup : Bs4.soup) (count_el : Bs4.node) (pre ds post : string) :
  Bs4.select_one [] sel_count soup = Some count_el ->
  Bs4.text count_el = pre +:+ ds +:+ post ->
  has_digit pre = false -> all_digits ds = true -> ds <> EmptyString ->
  starts_with_digit post = false ->
  reported_count soup = decimal ds.
Proof.
  intros Hel Htext Hpre Hds Hne Hpost. unfold reported_count, count_text.
  rewrite Hel, re_search_strip, Htext, (re_search_run _ _ _ Hpre Hds Hne Hpost).
  reflexivity.
Qed.

Lemma reported_count_no_digit (soup : Bs4.soup) :
  match Bs4.select_one [] sel_count soup with
  | Some count_el => has_digit (Bs4.text count_el) = false
  | None => True
  end ->
  reported_count soup = 0.
Proof.
  unfold reported_count, count_text.
  destruct (Bs4.select_one [] sel_count soup) as [el|]; [|reflexivity].
  intros Hd. rewrite re_search_strip, (re_search_none _ Hd). reflexivity.
Qed.

Lemma decimal_str (n : Z) : 0 <= n -> decimal (str n) = n.
Proof.
  intros Hn. destruct (str_nonneg_digits n Hn) as [Hd Hne].
  pose proof (int_digits _ Hd Hne) as Hi. rewrite int_str in Hi. congruence.
Qed.

End ParserFacts.

(* ===================================================================== *)
(** * The claims about core/utils.py *)
(* ===================================================================== *)

Section UtilsClaims.
Import Py Effects.






End UtilsClaims.

(* ===================================================================== *)
(** * The claims about the polling loop *)
(* ===================================================================== *)

Section LoopClaims.
Import Py Effects BaseScout.

(** C3: a run with [max_attempts = 5] in which the first two searches raise
    and the third returns a page that parses to a successful result makes
    exactly three searches, sends exactly two failure notifications, calls
    the success handler exactly once, never the failure handler, and the
    run ends there: no fourth search.  [evs] is all the run leaves in the
    trace, in order. *)
Theorem three_attempts_then_success `{Env} {content results : Type}
    (script : nat -> exn + content) (parse : content -> exn + results)
    (flag : results -> bool) (e1 e2 : exn) (c3 : content) (p3 : results)
    (short_wait long_wait run_number : Z) (w : world) :
  Stub.calls "perform_search" (trace w) = 0%nat ->
  script 0%nat = inl e1 -> script 1%nat = inl e2 -> script 2%nat = inr c3 ->
  parse c3 = inr p3 -> flag p3 = true ->
  let d1 := Utils.jittered (inject_Z short_wait) (rng w (rng_next w)) in
  let d2 := Utils.jittered (inject_Z short_wait) (rng w (S (rng_next w))) in
  let d3 := Utils.jittered (inject_Z long_wait) (rng w (S (S (rng_next w)))) in
  let evs :=
    [Logged (start_message (run_number + 1));
     Called "notify" [start_message (run_number + 1)];
     Called "perform_search" [];
     Logged (error_log 1 e1); Called "notify" [error_notification 1 e1];
     Logged (waiting d1); Slept d1;
     Called "perform_search" [];
     Logged (error_log 2 e2); Called "notify" [error_notification 2 e2];
     Logged (waiting d2); Slept d2;
     Called "perform_search" []; Called "parse_results" [];
     Called "handle_success" [str (run_number + 1)];
     Logged (waiting d3); Slept d3] in
  exists w',
    @run_once _ _ _ (Stub.StubScout script parse flag) 5 short_wait long_wait run_number w
      = (Returned (run_number + 1), w') /\
    trace w' = trace w ++ evs /\
    Stub.calls "perform_search" evs = 3%nat /\
    Stub.error_notifications evs = 2%nat /\
    Stub.calls "handle_success" evs = 1%nat /\
    Stub.calls "handle_failure" evs = 0%nat.
Proof.
  intros Hfresh H1 H2 H3 Hp Hf d1 d2 d3 evs.
  unfold run_once.
  unfold bind at 1 2 3.
  cbn [save_run_number Utils.save_run_number write_file Utils.log emit
       BaseScout.notify Stub.StubScout Stub.notify files net rng rng_next trace].
  unfold bind at 1. change (Z.to_nat 5) with 5%nat.
  rewrite (stub_attempt_raises script parse flag 5 short_wait 0 4 0 _ e1)
    by (try lia; try exact H1; cbn [trace]; rewrite !calls_app, Hfresh; reflexivity).
  cbn [files net rng rng_next trace].
  rewrite (stub_attempt_raises script parse flag 5 short_wait 1 3 (0 + 1) _ e2)
    by (try lia; try exact H2; cbn [trace]; rewrite !calls_app, Hfresh; reflexivity).
  cbn [files net rng rng_next trace].
  rewrite (stub_attempt_success script parse flag 5 short_wait 2 2 (0 + 1 + 1) _ c3 p3)
    by (try lia; try assumption; cbn [trace]; rewrite !calls_app, Hfresh; reflexivity).
  cbn [files net rng rng_next trace snd].
  unfold bind at 1 2.
  cbn [BaseScout.handle_success Stub.StubScout Stub.handle_success emit
       files net rng rng_next trace].
  rewrite sleep_world. cbn [files net rng rng_next trace ret].
  eexists. split; [reflexivity|]. cbn [trace].
  split; [rewrite <- !app_assoc; reflexivity|].
  repeat split; reflexivity.
Qed.

Lemma three_attempts_then_success_witness :
  let script : nat -> exn + string :=
    fun k => match k with
             | O => inl (Exn "ConnectionError" "connection refused")
             | S O => inl (Exn "Timeout" "read timed out")
             | _ => inr "results"
             end in
  let w := Lab.fresh [] [] in
  exists w' evs,
    @run_once _ _ _ (Stub.StubScout script (fun _ => inr true) id) 5 60 3600 0 w
      = (Returned (0 + 1), w') /\
    trace w' = trace w ++ evs /\
    Stub.calls "perform_search" evs = 3%nat /\
    Stub.error_notifications evs = 2%nat /\
    Stub.calls "handle_success" evs = 1%nat /\
    Stub.calls "handle_failure" evs = 0%nat.
Proof.
  cbv zeta.
  destruct (@three_attempts_then_success (Lab.env []) string bool
              (fun k => match k with
                        | O => inl (Exn "ConnectionError" "connection refused")
                        | S O => inl (Exn "Timeout" "read timed out")
                        | _ => inr "results"
                        end)
              (fun _ => inr true) id
              (Exn "ConnectionError" "connection refused") (Exn "Timeout" "read timed out")
              "results" true 60 3600 0 (Lab.fresh [] [])
              eq_refl eq_refl eq_refl eq_refl eq_refl eq_refl) as (w' & Hrun).
  exists w'. eexists. exact Hrun.
Defined.

(** C2, as stated, fails for an attempt with a negative outcome: the
    scripted scout returns a page that parses to a result with a false
    success flag; the loop records the search, the parse and the short
    sleep, and no notification and no log of the outcome. *)
Lemma negative_outcome_not_notified :
  let scout := Stub.StubScout (fun _ => inr "no courses") (fun _ : string => inr false) id in
  let delay := Utils.jittered 60 (1 # 2) in
  let after := @attempts (Lab.env []) _ _ scout 1 60 1 0 None (Lab.fresh [] []) in
  fst after = Returned (1, None) /\
  trace (snd after) = [Called "perform_search" []; Called "parse_results" [];
                       Logged "Waiting 60.0 seconds..."; Slept delay] /\
  Stub.calls "notify" (trace (snd after)) = 0%nat.
Proof. repeat split; reflexivity. Qed.

(** C2, amended: an attempt that raises, in the search or in the parse, is
    logged and notified with the error, then the loop sleeps the short
    jittered delay and goes on with the next attempt; an attempt that ends
    with a negative outcome (a false success flag) goes to the short sleep
    directly, the loop neither logs nor notifies it. *)
Theorem failed_attempt_handling `{Env} {content results : Type}
    {scout : Scout content results} (max_attempts short_wait : Z) :
  (forall (fuel : nat) (attempt : Z) (w w1 : world) (e : exn),
     attempt < max_attempts ->
     perform_search w = (Raised e, w1) ->
     attempts max_attempts short_wait (S fuel) attempt None w =
     bind (Utils.log (error_log (attempt + 1) e)) (fun _ =>
     bind (notify (error_notification (attempt + 1) e)) (fun _ =>
     bind (sleep (inject_Z short_wait)) (fun _ =>
     attempts max_attempts short_wait fuel (attempt + 1) None))) w1) /\
  (forall (fuel : nat) (attempt : Z) (w w1 w2 : world) (c : content) (e : exn),
     attempt < max_attempts ->
     perform_search w = (Returned c, w1) ->
     parse_results c w1 = (Raised e, w2) ->
     attempts max_attempts short_wait (S fuel) attempt None w =
     bind (Utils.log (error_log (attempt + 1) e)) (fun _ =>
     bind (notify (error_notification (attempt + 1) e)) (fun _ =>
     bind (sleep (inject_Z short_wait)) (fun _ =>
     attempts max_attempts short_wait fuel (attempt + 1) None))) w2) /\
  (forall (fuel : nat) (attempt : Z) (w w1 w2 : world) (c : content) (p : results),
     attempt < max_attempts ->
     perform_search w = (Returned c, w1) ->
     parse_results c w1 = (Returned p, w2) ->
     get_success p = false ->
     attempts max_attempts short_wait (S fuel) attempt None w =
     bind (sleep (inject_Z short_wait)) (fun _ =>
     attempts max_attempts short_wait fuel (attempt + 1) None) w2).
Proof.
  split; [|split]; intros.
  - apply attempts_search_raises; assumption.
  - eapply attempts_parse_raises; eassumption.
  - eapply attempts_negative; eassumption.
Qed.

Lemma failed_attempt_handling_witness :
  let E := Lab.env [] in
  let refused := Exn "ConnectionError" "connection refused" in
  let garbled := Exn "ValueError" "unexpected markup" in
  let raising := Stub.StubScout (fun _ => inl refused) (fun _ : string => inr false) id in
  let choking := Stub.StubScout (fun _ => inr "garbage") (fun _ : string => inl garbled) id in
  let negative := Stub.StubScout (fun _ => inr "no courses") (fun _ : string => inr false) id in
  let w := Lab.fresh [] [] in
  @attempts E _ _ raising 5 60 4 0 None w =
    bind (Utils.log (error_log 1 refused)) (fun _ =>
    bind (@notify E _ _ raising (error_notification 1 refused)) (fun _ =>
    bind (sleep (inject_Z 60)) (fun _ =>
    @attempts E _ _ raising 5 60 3 1 None))) (snd (@perform_search E _ _ raising w)) /\
  @attempts E _ _ choking 5 60 4 0 None w =
    bind (Utils.log (error_log 1 garbled)) (fun _ =>
    bind (@notify E _ _ choking (error_notification 1 garbled)) (fun _ =>
    bind (sleep (inject_Z 60)) (fun _ =>
    @attempts E _ _ choking 5 60 3 1 None)))
      (snd (@parse_results E _ _ choking "garbage" (snd (@perform_search E _ _ choking w)))) /\
  @attempts E _ _ negative 5 60 4 0 None w =
    bind (sleep (inject_Z 60)) (fun _ => @attempts E _ _ negative 5 60 3 1 None)
      (snd (@parse_results E _ _ negative "no courses"
              (snd (@perform_search E _ _ negative w)))).
Proof.
  cbv zeta. split; [|split].
  - eapply (proj1 (@failed_attempt_handling (Lab.env []) string bool _ 5 60));
      [lia | reflexivity].
  - eapply (proj1 (proj2 (@failed_attempt_handling (Lab.env []) string bool _ 5 60)));
      [lia | reflexivity | reflexivity].
  - eapply (proj2 (proj2 (@failed_attempt_handling (Lab.env []) string bool _ 5 60)));
      [lia | reflexivity | reflexivity | reflexivity].
Defined.

End LoopClaims.

(* ===================================================================== *)
(** * The claims about the result parser *)
(* ===================================================================== *)

Section ParserClaims.
Import Py Effects BaseScout VHSBerlin.

Lemma lookup_map {A B : Type} (f : A -> B) (l : list A) (i : nat) :
  map f l !! i = f <$> (l !! i).
Proof.
  revert i. induction l as [|x l IH]; intros [|i]; try reflexivity. apply IH.
Qed.

(** C1, as stated, fails: a page without the list title and a page with
    the message that no course was found are parsed to equal values. *)
Lemma unrecognized_equals_no_results :
  let E := Lab.env Lab.site_pages in
  let w := Lab.fresh Lab.site_pages [] in
  shows_no_courses (html_parser "<no courses>") = true /\
  shows_no_courses (html_parser "<maintenance>") = false /\
  shows_course_list (html_parser "<maintenance>") = false /\
  parse_results "<maintenance>" w = parse_results "<no courses>" w.
Proof. repeat split; reflexivity. Qed.

(** C1, amended: the parser returns one and the same value, the dictionary
    with [success] and [has_courses] false, for a page whose title lacks
    the list marker and for a page carrying the no-results message; the
    two cannot be told apart from it.  That value differs from what a
    course list yields, whose [success] is true. *)
Theorem unrecognized_and_no_results_coincide `{Env}
    (unrecognized no_results listing : string) (w : world) :
  shows_no_courses (html_parser no_results) = true ->
  shows_no_courses (html_parser unrecognized) = false ->
  shows_course_list (html_parser unrecognized) = false ->
  shows_no_courses (html_parser listing) = false ->
  shows_course_list (html_parser listing) = true ->
  parse_results unrecognized w = (Returned no_courses, w) /\
  parse_results no_results w = (Returned no_courses, w) /\
  exists p, parse_results listing w = (Returned p, w) /\
            success p = true /\ p <> no_courses.
Proof.
  intros Hn Hu1 Hu2 Hl1 Hl2. unfold parse_results. split; [|split].
  - apply parse_soup_unrecognized; assumption.
  - apply parse_soup_no_courses; assumption.
  - eexists. split; [apply parse_soup_list; assumption|].
    split; [reflexivity | discriminate].
Qed.

Lemma unrecognized_and_no_results_coincide_witness :
  let E := Lab.env Lab.site_pages in
  let w := Lab.fresh Lab.site_pages [] in
  parse_results "<maintenance>" w = (Returned no_courses, w) /\
  parse_results "<no courses>" w = (Returned no_courses, w) /\
  exists p, parse_results "<listing>" w = (Returned p, w) /\
            success p = true /\ p <> no_courses.
Proof.
  apply (@unrecognized_and_no_results_coincide (Lab.env Lab.site_pages)
           "<maintenance>" "<no courses>" "<listing>"); reflexivity.
Defined.





End ParserClaims.

(* ===================================================================== *)
(** * The claims about the search protocol *)
(* ===================================================================== *)

Section ProtocolFacts.
Import Py Effects BaseScout VHSBerlin.
Context `{Env}.
Variable cfg : config.

(** [perform_search] is the form submission, then the status check, then
    the redirect resolution. *)
Lemma perform_search_steps (w : world) :
  perform_search cfg w =
  bind (submit_form cfg) (fun post_resp =>
  bind (check_post_status post_resp) (fun _ =>
  _follow_redirects post_resp)) w.
Proof.
  unfold perform_search, submit_form, bind.
  destruct (session_get (URL cfg) true w) as [[r|e] w1]; [|reflexivity].
  destruct (raise_for_status r w1) as [[[]|e] w2]; [|reflexivity].
  destruct (_get_hidden_inputs (html_parser (text r)) w2) as [[hidden|e] w3]; [|reflexivity].
  destruct (_build_search_payload cfg hidden w3) as [[payload|e] w4]; [|reflexivity].
  destruct (session_post (URL cfg) payload false w4) as [[post_resp|e] w5]; [|reflexivity].
  destruct (check_post_status post_resp w5) as [[[]|e] w6]; [|reflexivity].
  destruct (_follow_redirects post_resp w6) as [[content|e] w7]; reflexivity.
Qed.

Lemma check_post_status_accepts (post_resp : response) (w : world) :
  status_code post_resp = 200 \/ status_code post_resp = 302 ->
  check_post_status post_resp w = (Returned tt, w).
Proof.
  intros Hs. unfold check_post_status.
  rewrite bool_decide_eq_true_2; [reflexivity|].
  rewrite !elem_of_cons. tauto.
Qed.

Lemma check_post_status_rejects (post_resp : response) (w : world) :
  status_code post_resp <> 200 -> status_code post_resp <> 302 ->
  check_post_status post_resp w = (Raised (unexpected_status (status_code post_resp)), w).
Proof.
  intros H200 H302. unfold check_post_status.
  rewrite bool_decide_eq_false_2; [reflexivity|].
  rewrite !elem_of_cons, elem_of_nil. tauto.
Qed.

End ProtocolFacts.

Section ProtocolClaims.
Import Py Effects BaseScout VHSBerlin.

(** C5: once the form submission has been answered, the search goes on to
    the redirect resolution if and only if the status of the answer is
    200 or 302; with any other status it raises an exception whose message
    holds that status. *)
Theorem post_status_gate `{Env} (cfg : config) (w w1 : world) (post_resp : response) :
  submit_form cfg w = (Returned post_resp, w1) ->
  (check_post_status post_resp w1 = (Returned tt, w1) <->
   status_code post_resp = 200 \/ status_code post_resp = 302) /\
  (status_code post_resp = 200 \/ status_code post_resp = 302 ->
   perform_search cfg w = _follow_redirects post_resp w1) /\
  (~ (status_code post_resp = 200 \/ status_code post_resp = 302) ->
   perform_search cfg w = (Raised (unexpected_status (status_code post_resp)), w1) /\
   contains (str (status_code post_resp))
     (exn_str (unexpected_status (status_code post_resp))) = true).
Proof.
  intros Hsub. split; [|split].
  - split.
    + intros Hok.
      destruct (Z.eq_dec (status_code post_resp) 200) as [|H200]; [left; assumption|].
      destruct (Z.eq_dec (status_code post_resp) 302) as [|H302]; [right; assumption|].
      rewrite (check_post_status_rejects _ _ H200 H302) in Hok. discriminate.
    + apply check_post_status_accepts.
  - intros Hs. rewrite perform_search_steps. unfold bind at 1. rewrite Hsub.
    unfold bind. rewrite (check_post_status_accepts _ _ Hs). reflexivity.
  - intros Hs. split.
    + rewrite perform_search_steps. unfold bind at 1. rewrite Hsub.
      unfold bind. rewrite check_post_status_rejects by tauto. reflexivity.
    + cbn [exn_str unexpected_status].
      rewrite <- (append_nil_r (str (status_code post_resp))) at 2.
      apply contains_middle.
Qed.

Lemma post_status_gate_witness :
  let cfg := Lab.settings in
  let busy := Response 503 "Service Unavailable" "https://vhs/search" [] EmptyString in
  let w := Lab.fresh Lab.site_pages [inr Lab.ok_form; inr busy] in
  let w1 := snd (submit_form cfg w) in
  submit_form cfg w = (Returned busy, w1) /\
  perform_search cfg w = (Raised (unexpected_status 503), w1) /\
  contains "503" (exn_str (unexpected_status 503)) = true.
Proof.
  cbv zeta.
  set (busy := Response 503 "Service Unavailable" "https://vhs/search" [] EmptyString).
  set (w := Lab.fresh Lab.site_pages [inr Lab.ok_form; inr busy]).
  assert (submit_form Lab.settings w = (Returned busy, snd (submit_form Lab.settings w)))
    as Hsub by reflexivity.
  split; [exact Hsub|].
  apply (proj2 (proj2 (post_status_gate _ _ _ _ Hsub))).
  cbn. intros [Hs | Hs]; discriminate Hs.
Defined.

(** C4: when the answer to the form submission is a 302 with a (non-empty)
    Location A, the GET of A without redirects is answered by a 302 with a
    (non-empty) Location B, and the GET of B is answered by a 200, then the
    redirect resolution, and with it the search, returns the body of the
    answer to the GET of B, whatever the body of the answer to the GET of
    A. *)
Theorem two_redirects_return_last_body `{Env} (cfg : config)
    (w w1 w2 w3 : world) (post_resp rA rB : response) (A B : string) :
  submit_form cfg w = (Returned post_resp, w1) ->
  status_code post_resp = 302 ->
  headers_get (headers post_resp) "Location" = Some A -> A <> EmptyString ->
  session_get (site +:+ A) false w1 = (Returned rA, w2) ->
  status_code rA = 302 ->
  headers_get (headers rA) "Location" = Some B -> B <> EmptyString ->
  session_get (site +:+ B) true w2 = (Returned rB, w3) ->
  status_code rB = 200 ->
  _follow_redirects post_resp w1 = (Returned (text rB), w3) /\
  perform_search cfg w = (Returned (text rB), w3).
Proof.
  intros Hsub Hpost HlocA HA HgetA HstA HlocB HB HgetB HstB.
  assert (_follow_redirects post_resp w1 = (Returned (text rB), w3)) as Hfollow.
  { unfold _follow_redirects. rewrite Hpost, HlocA. cbn [Z.eqb Pos.eqb].
    destruct A as [|a A']; [congruence|].
    unfold bind at 1. rewrite HgetA, HstA, HlocB. cbn [Z.eqb Pos.eqb].
    destruct B as [|b B']; [congruence|].
    unfold bind at 1. rewrite HgetB.
    unfold bind, raise_for_status. rewrite HstB. reflexivity. }
  split; [exact Hfollow|].
  rewrite perform_search_steps. unfold bind at 1. rewrite Hsub.
  unfold bind. rewrite check_post_status_accepts by (right; exact Hpost).
  exact Hfollow.
Qed.

Lemma two_redirects_return_last_body_witness :
  let found := fun (location body : string) =>
    Response 302 "Found" "https://vhs/search" [("Location", location)] body in
  let last := Response 200 "OK" "https://www.vhsit.berlin.de/list" [] "<listing>" in
  let w := Lab.fresh Lab.site_pages
             [inr Lab.ok_form; inr (found "/hop" EmptyString);
              inr (found "/list" "<maintenance>"); inr last] in
  exists w3,
    perform_search Lab.settings w = (Returned "<listing>", w3).
Proof.
  cbv zeta.
  set (found := fun (location body : string) =>
    Response 302 "Found" "https://vhs/search" [("Location", location)] body).
  set (last := Response 200 "OK" "https://www.vhsit.berlin.de/list" [] "<listing>").
  set (w := Lab.fresh Lab.site_pages _).
  set (w1 := snd (submit_form Lab.settings w)).
  set (w2 := snd (session_get (site +:+ "/hop") false w1)).
  set (w3 := snd (session_get (site +:+ "/list") true w2)).
  exists w3.
  refine (proj2 (@two_redirects_return_last_body (Lab.env Lab.site_pages) Lab.settings
            w w1 w2 w3 (found "/hop" EmptyString) (found "/list" "<maintenance>") last
            "/hop" "/list" _ _ _ _ _ _ _ _ _ _));
    try reflexivity; discriminate.
Defined.

End ProtocolClaims.

(* ===================================================================== *)
(** * A list without courses ends the run as a success *)
(* ===================================================================== *)

Section EmptyList.
Import Py Effects BaseScout VHSBerlin.

(** The Telegram notification never raises. *)
Lemma notify_returns `{Env} (cfg : config) (message : string) (w : world) :
  fst (VHSBerlin.notify cfg message w) = Returned tt.
Proof.
  unfold VHSBerlin.notify, Utils.send_telegram_message, try_except, bind, send.
  destruct (serve _ (net w)) as [[e|resp] net']; [reflexivity|].
  destruct (negb (ok resp)); reflexivity.
Qed.



End EmptyList.

(* ===================================================================== *)
(** * Configuration: [load_env_vars] and [setup] *)
(* ===================================================================== *)

Section SetupFacts.
Import Py VHSBerlin.

Lemma contains_join (sep x : string) (items : list string) :
  In x items -> contains x (Utils.join sep items) = true.
Proof.
  induction items as [|y items IH]; intros Hin; [destruct Hin|].
  cbn [Utils.join]. destruct items as [|z items].
  - destruct Hin as [-> | []]. apply contains_prefix.
    rewrite <- (append_nil_r x) at 2. apply prefix_append.
  - destruct Hin as [-> | Hin].
    + apply contains_prefix, prefix_append.
    + apply contains_append_l, contains_append_l, IH, Hin.
Qed.

Lemma getenv_all_lookup (environ : gmap string string) (vars : list string) (var : string) :
  Utils.getenv_all environ vars !! var =
  if bool_decide (var ∈ vars) then environ !! var else None.
Proof.
  induction vars as [|v vars IH]; cbn [Utils.getenv_all].
  - rewrite bool_decide_eq_false_2 by apply not_elem_of_nil. apply lookup_empty.
  - destruct (decide (v = var)) as [-> | Hne].
    + rewrite bool_decide_eq_true_2 by (apply elem_of_cons; left; reflexivity).
      destruct (environ !! var) as [x|] eqn:E.
      * apply lookup_insert_eq.
      * rewrite IH. destruct (bool_decide (var ∈ vars)); reflexivity.
    + assert (bool_decide (var ∈ v :: vars) = bool_decide (var ∈ vars)) as ->.
      { apply bool_decide_ext. rewrite elem_of_cons. split; [intros [? | ?]|right]; congruence || assumption. }
      destruct (environ !! v); [rewrite lookup_insert_ne by exact Hne|]; exact IH.
Qed.

(** The two outcomes of [load_env_vars]. *)
Lemma load_env_vars_raises (environ : gmap string string) (required : list string) :
  (exists var, In var required /\ Utils.not_set environ var = true) ->
  exists msg,
    Utils.load_env_vars environ required = inl (Exn "ScoutConfigurationError" msg) /\
    forall var, In var required -> Utils.not_set environ var = true ->
                contains var msg = true.
Proof.
  unfold Utils.load_env_vars. intros (var & Hin & Hun).
  assert (In var (List.filter (Utils.not_set environ) required)) as Hf
    by (apply filter_In; split; assumption).
  destruct (List.filter (Utils.not_set environ) required) as [|m ms] eqn:E; [destruct Hf|].
  eexists. split; [reflexivity|]. intros v Hv Hvu.
  unfold Utils.missing_message. apply contains_append_l, contains_join.
  rewrite <- E. apply filter_In. split; assumption.
Qed.

Lemma load_env_vars_returns (environ : gmap string string) (required : list string) :
  (forall var, In var required -> Utils.not_set environ var = false) ->
  exists d,
    Utils.load_env_vars environ required = inr d /\
    (forall var, In var required ->
       exists v, d !! var = Some v /\ environ !! var = Some v /\ v <> EmptyString) /\
    (forall var, ~ In var required -> d !! var = None).
Proof.
  unfold Utils.load_env_vars. intros Hall.
  assert (List.filter (Utils.not_set environ) required = []) as ->.
  { destruct (List.filter (Utils.not_set environ) required) as [|m ms] eqn:E; [reflexivity|].
    assert (In m (List.filter (Utils.not_set environ) required)) as Hm
      by (rewrite E; left; reflexivity).
    apply filter_In in Hm as [Hin Hun]. rewrite (Hall m Hin) in Hun. discriminate. }
  eexists. split; [reflexivity|]. split.
  - intros var Hin. specialize (Hall var Hin). unfold Utils.not_set in Hall.
    rewrite getenv_all_lookup, bool_decide_eq_true_2 by (apply list_elem_of_In, Hin).
    destruct (environ !! var) as [[|c v]|]; try discriminate.
    eexists. repeat split. discriminate.
  - intros var Hnin. rewrite getenv_all_lookup, bool_decide_eq_false_2
      by (rewrite list_elem_of_In; exact Hnin).
    reflexivity.
Qed.

(** X1.  [load_env_vars] fails exactly when a required variable is unset or
    empty; its error names every such variable.  Otherwise the dictionary
    it returns maps each required variable to its value in the environment
    and holds nothing else. *)
Theorem load_env_vars_complete (environ : gmap string string) (required : list string) :
  ((exists var, In var required /\ Utils.not_set environ var = true) ->
   exists msg,
     Utils.load_env_vars environ required = inl (Exn "ScoutConfigurationError" msg) /\
     forall var, In var required -> Utils.not_set environ var = true ->
                 contains var msg = true) /\
  ((forall var, In var required -> Utils.not_set environ var = false) ->
   exists d,
     Utils.load_env_vars environ required = inr d /\
     (forall var, In var required ->
        exists v, d !! var = Some v /\ environ !! var = Some v /\ v <> EmptyString) /\
     (forall var, ~ In var required -> d !! var = None)).
Proof.
  split; [apply load_env_vars_raises | apply load_env_vars_returns].
Qed.

Lemma load_env_vars_complete_witness :
  let environ : gmap string string :=
    <["URL" := "https://vhs/search"]> (<["TOKEN" := EmptyString]> (<["OTHER" := "x"]> ∅)) in
  (exists msg,
     Utils.load_env_vars environ ["URL"; "TOKEN"; "CHAT"]
       = inl (Exn "ScoutConfigurationError" msg) /\
     contains "TOKEN" msg = true /\ contains "CHAT" msg = true) /\
  (exists d,
     Utils.load_env_vars environ ["URL"] = inr d /\
     d !! "URL" = Some "https://vhs/search" /\ d !! "OTHER" = None).
Proof.
  cbv zeta. split.
  - destruct (proj1 (load_env_vars_complete
                       (<["URL" := "https://vhs/search"]>
                          (<["TOKEN" := EmptyString]> (<["OTHER" := "x"]> ∅)))
                       ["URL"; "TOKEN"; "CHAT"])) as (msg & Hmsg & Hall).
    { exists "CHAT". split; [cbn; tauto | reflexivity]. }
    exists msg. split; [exact Hmsg|].
    split; apply Hall; try reflexivity; cbn; tauto.
  - destruct (proj2 (load_env_vars_complete
                       (<["URL" := "https://vhs/search"]>
                          (<["TOKEN" := EmptyString]> (<["OTHER" := "x"]> ∅)))
                       ["URL"])) as (d & Hd & Hin & Hout).
    { intros var [<- | []]. reflexivity. }
    exists d. split; [exact Hd|]. split.
    + destruct (Hin "URL") as (v & Hv & He & _); [left; reflexivity|].
      rewrite Hv, <- He. reflexivity.
    + apply Hout. intros [Hx | []]. discriminate Hx.
Defined.

Lemma required_set (environ : gmap string string) (u k t c : string) :
  environ !! "URL" = Some u -> u <> EmptyString ->
  environ !! "KEYWORD_SELECTION_VALUE" = Some k -> k <> EmptyString ->
  environ !! "TELEGRAM_BOT_TOKEN" = Some t -> t <> EmptyString ->
  environ !! "TELEGRAM_CHAT_ID" = Some c -> c <> EmptyString ->
  exists d,
    Utils.load_env_vars environ required_vars = inr d /\
    d !! "URL" = Some u /\ d !! "KEYWORD_SELECTION_VALUE" = Some k /\
    d !! "TELEGRAM_BOT_TOKEN" = Some t /\ d !! "TELEGRAM_CHAT_ID" = Some c.
Proof.
  intros Hu Hu' Hk Hk' Ht Ht' Hc Hc'.
  destruct (load_env_vars_returns environ required_vars) as (d & Hd & Hin & _).
  { intros var Hvar. unfold Utils.not_set.
    repeat (destruct Hvar as [<- | Hvar];
            [match goal with H : environ !! _ = Some ?x |- context [environ !! _] =>
               rewrite H; destruct x; [congruence | reflexivity] end|]).
    destruct Hvar. }
  exists d. split; [exact Hd|].
  repeat split;
    match goal with |- d !! ?var = _ =>
      destruct (Hin var) as (v & Hv & He & _); [cbn; tauto|]; congruence end.
Qed.





End SetupFacts.

(* ===================================================================== *)
(** * The parser on every page *)
(* ===================================================================== *)

Section ParserTotal.
Import Py Effects VHSBerlin.
Context `{Env}.

Lemma digit_value_nonneg (c : ascii) : is_digit c = true -> 0 <= digit_value c <= 9.
Proof. intros Hc. apply is_digit_range in Hc. unfold digit_value. lia. Qed.

Lemma decimal_from_nonneg (s : string) (acc : Z) :
  all_digits s = true -> 0 <= acc -> acc <= decimal_from acc s.
Proof.
  revert acc. induction s as [|c s IH]; intros acc Hd Hacc; [cbn; lia|].
  simpl in Hd. apply andb_true_iff in Hd as [Hc Hd]. cbn [decimal_from].
  pose proof (digit_value_nonneg c Hc). specialize (IH (10 * acc + digit_value c) Hd). lia.
Qed.

Lemma reported_count_nonneg (soup : Bs4.soup) : 0 <= reported_count soup.
Proof.
  unfold reported_count. destruct (re_search_digits (count_text soup)) as [g|] eqn:E; [|lia].
  destruct (re_search_some _ _ E) as [Hd _].
  pose proof (decimal_from_nonneg g 0 Hd). unfold decimal. lia.
Qed.


End ParserTotal.

Section ParserTotalRuns.
Import Py Effects VHSBerlin.


End ParserTotalRuns.

(* ===================================================================== *)
(** * The hidden inputs and the form payload *)
(* ===================================================================== *)

Section FormFacts.
Import Py Effects VHSBerlin.
Context `{Env}.

(** The loop of [_get_hidden_inputs] over a list of names, started on a
    dictionary [inputs]. *)
Lemma hidden_inputs_of_returns (soup : Bs4.soup) (names : list string)
    (inputs : gmap string string) (w : world) :
  (forall name, name ∈ names -> is_Some (hidden_value soup name)) ->
  exists h,
    hidden_inputs_of soup names inputs w = (Returned h, w) /\
    forall name,
      h !! name = if bool_decide (name ∈ names) then hidden_value soup name
                  else inputs !! name.
Proof.
  revert inputs. induction names as [|n names IH]; intros inputs Hall.
  - exists inputs. split; [reflexivity|]. intros name.
    rewrite bool_decide_eq_false_2 by apply not_elem_of_nil. reflexivity.
  - destruct (Hall n) as [v Hv]; [apply elem_of_cons; left; reflexivity|].
    destruct (IH (<[n := v]> inputs)) as (h & Hh & Hlook).
    { intros name Hin. apply Hall, elem_of_cons. right. exact Hin. }
    exists h. split.
    + cbn [hidden_inputs_of]. unfold hidden_value in Hv.
      destruct (Bs4.find "input" "name" n soup) as [tag|].
      * rewrite Hv. exact Hh.
      * injection Hv as <-. exact Hh.
    + intros name. rewrite Hlook.
      destruct (decide (name ∈ names)) as [Hin | Hnin].
      * rewrite !bool_decide_eq_true_2; [reflexivity | apply elem_of_cons; right|]; assumption.
      * rewrite (bool_decide_eq_false_2 _ Hnin).
        destruct (decide (name = n)) as [-> | Hne].
        -- rewrite bool_decide_eq_true_2 by (apply elem_of_cons; left; reflexivity).
           rewrite lookup_insert_eq. symmetry. exact Hv.
        -- rewrite bool_decide_eq_false_2, lookup_insert_ne by
             (rewrite ?elem_of_cons; try tauto; congruence).
           reflexivity.
Qed.

Lemma hidden_inputs_of_raises (soup : Bs4.soup) (names : list string)
    (inputs : gmap string string) (w : world) :
  (exists name, name ∈ names /\ hidden_value soup name = None) ->
  hidden_inputs_of soup names inputs w = (Raised (Exn "KeyError" "'value'"), w).
Proof.
  revert inputs. induction names as [|n names IH]; intros inputs (name & Hin & Hnone).
  - apply elem_of_nil in Hin. destruct Hin.
  - cbn [hidden_inputs_of]. unfold hidden_value in *.
    destruct (Bs4.find "input" "name" n soup) as [tag|] eqn:Hf.
    + destruct (Bs4.tag_get tag "value") as [v|] eqn:Hv; [|reflexivity].
      apply IH. exists name. split; [|exact Hnone].
      apply elem_of_cons in Hin as [-> | Hin]; [|exact Hin].
      rewrite Hf, Hv in Hnone. discriminate.
    + apply IH. exists name. split; [|exact Hnone].
      apply elem_of_cons in Hin as [-> | Hin]; [|exact Hin].
      rewrite Hf in Hnone. discriminate.
Qed.

(** X5.  [_get_hidden_inputs] returns a dictionary with exactly the seven
    hidden names as keys, each mapped to the value of the first input of
    that name, or to the empty string when the page has no such input; it
    raises [KeyError] exactly when one of these inputs has no [value]
    attribute.  Either way the world is left as it was. *)
Theorem get_hidden_inputs_complete (soup : Bs4.soup) (w : world) :
  ((forall name, name ∈ hidden_names -> is_Some (hidden_value soup name)) ->
   exists h,
     _get_hidden_inputs soup w = (Returned h, w) /\
     (forall name, name ∈ hidden_names -> h !! name = hidden_value soup name) /\
     (forall name, name ∉ hidden_names -> h !! name = None)) /\
  ((exists name, name ∈ hidden_names /\ hidden_value soup name = None) ->
   _get_hidden_inputs soup w = (Raised (Exn "KeyError" "'value'"), w)).
Proof.
  unfold _get_hidden_inputs. split.
  - intros Hall. destruct (hidden_inputs_of_returns soup hidden_names ∅ w Hall) as (h & Hh & Hl).
    exists h. split; [exact Hh|]. split; intros name Hname; rewrite Hl.
    + rewrite bool_decide_eq_true_2 by exact Hname. reflexivity.
    + rewrite bool_decide_eq_false_2 by exact Hname. apply lookup_empty.
  - apply hidden_inputs_of_raises.
Qed.

(** X6.  The payload built from the hidden inputs of a page never lacks a
    key: when [_get_hidden_inputs] returns, [_build_search_payload]
    returns too.  The payload has twenty fields with distinct names; it
    echoes every hidden input of the page and carries the configured
    keyword and the search button. *)
Theorem search_payload_complete (cfg : config) (soup : Bs4.soup) (w : world) :
  (forall name, name ∈ hidden_names -> is_Some (hidden_value soup name)) ->
  exists payload,
    bind (_get_hidden_inputs soup) (_build_search_payload cfg) w = (Returned payload, w) /\
    length payload = 20%nat /\
    NoDup (map fst payload) /\
    (forall name v, name ∈ hidden_names -> hidden_value soup name = Some v ->
                    (name, v) ∈ payload) /\
    ("ctl00$Content$KeywordsList1$cmbKeyword", KEYWORD_SELECTION_VALUE cfg) ∈ payload /\
    ("ctl00$Content$btnSearch", "Suchen") ∈ payload.
Proof.
  intros Hall.
  destruct (hidden_inputs_of_returns soup hidden_names ∅ w Hall) as (h & Hh & Hl).
  assert (forall name, name ∈ hidden_names -> h !! name = hidden_value soup name) as Hin.
  { intros name Hname. rewrite Hl, bool_decide_eq_true_2 by exact Hname. reflexivity. }
  assert (forall name, name ∈ hidden_names ->
            exists v, h !! name = Some v /\ hidden_value soup name = Some v) as Hval.
  { intros name Hname. destruct (Hall name Hname) as [v Hv]. exists v.
    rewrite (Hin name Hname). split; assumption. }
  unfold hidden_names in Hval.
  destruct (Hval "__LASTFOCUS") as (v1 & H1 & S1); [rewrite !elem_of_cons; tauto|].
  destruct (Hval "__EVENTTARGET") as (v2 & H2 & S2); [rewrite !elem_of_cons; tauto|].
  destruct (Hval "__EVENTARGUMENT") as (v3 & H3 & S3); [rewrite !elem_of_cons; tauto|].
  destruct (Hval "__VIEWSTATE") as (v4 & H4 & S4); [rewrite !elem_of_cons; tauto|].
  destruct (Hval "__VIEWSTATEGENERATOR") as (v5 & H5 & S5); [rewrite !elem_of_cons; tauto|].
  destruct (Hval "__SCROLLPOSITIONX") as (v6 & H6 & S6); [rewrite !elem_of_cons; tauto|].
  destruct (Hval "__SCROLLPOSITIONY") as (v7 & H7 & S7); [rewrite !elem_of_cons; tauto|].
  eexists. split.
  { unfold bind at 1, _get_hidden_inputs. rewrite Hh. unfold _build_search_payload, bind, item.
    rewrite H1, H2, H3, H4, H5, H6, H7. reflexivity. }
  split; [reflexivity|]. split.
  { cbn [map fst]. apply (bool_decide_unpack _). vm_compute. exact I. }
  split.
  { intros name v Hname Hv. unfold hidden_names in Hname.
    apply elem_of_cons in Hname as [-> | Hname];
      [rewrite S4 in Hv; injection Hv as <-; apply (list_elem_of_lookup_2 _ 3); reflexivity|].
    apply elem_of_cons in Hname as [-> | Hname];
      [rewrite S5 in Hv; injection Hv as <-; apply (list_elem_of_lookup_2 _ 4); reflexivity|].
    apply elem_of_cons in Hname as [-> | Hname];
      [rewrite S1 in Hv; injection Hv as <-; apply (list_elem_of_lookup_2 _ 0); reflexivity|].
    apply elem_of_cons in Hname as [-> | Hname];
      [rewrite S2 in Hv; injection Hv as <-; apply (list_elem_of_lookup_2 _ 1); reflexivity|].
    apply elem_of_cons in Hname as [-> | Hname];
      [rewrite S3 in Hv; injection Hv as <-; apply (list_elem_of_lookup_2 _ 2); reflexivity|].
    apply elem_of_cons in Hname as [-> | Hname];
      [rewrite S6 in Hv; injection Hv as <-; apply (list_elem_of_lookup_2 _ 5); reflexivity|].
    apply elem_of_cons in Hname as [-> | Hname];
      [rewrite S7 in Hv; injection Hv as <-; apply (list_elem_of_lookup_2 _ 6); reflexivity|].
    apply elem_of_nil in Hname. destruct Hname. }
  split; [apply (list_elem_of_lookup_2 _ 9) | apply (list_elem_of_lookup_2 _ 7)]; reflexivity.
Qed.

End FormFacts.

Section FormFactsRuns.
Import Py Effects BaseScout VHSBerlin.

Lemma get_hidden_inputs_complete_witness :
  let E := Lab.env Lab.site_pages in
  let w := Lab.fresh Lab.site_pages [] in
  let broken := [Bs4.NTag "input" [("name", "__EVENTTARGET")] [] []] in
  (exists h,
     _get_hidden_inputs Lab.form_page w = (Returned h, w) /\
     h !! "__VIEWSTATE" = Some "dDwtMTA4" /\ h !! "__LASTFOCUS" = Some EmptyString /\
     h !! "ctl00$Content$btnSearch" = None) /\
  _get_hidden_inputs broken w = (Raised (Exn "KeyError" "'value'"), w).
Proof.
  cbv zeta. split.
  - destruct (proj1 (@get_hidden_inputs_complete (Lab.env Lab.site_pages) Lab.form_page
                       (Lab.fresh Lab.site_pages [])))
      as (h & Hh & Hin & Hout).
    { intros name Hname. unfold hidden_names in Hname.
      repeat (apply elem_of_cons in Hname as [-> | Hname]; [eexists; reflexivity|]).
      apply elem_of_nil in Hname. destruct Hname. }
    exists h. split; [exact Hh|].
    split; [rewrite Hin; [reflexivity | unfold hidden_names; rewrite !elem_of_cons; tauto]|].
    split; [rewrite Hin; [reflexivity | unfold hidden_names; rewrite !elem_of_cons; tauto]|].
    apply Hout. unfold hidden_names. rewrite !elem_of_cons, elem_of_nil.
    intros Hx. repeat destruct Hx as [Hx | Hx]; try discriminate Hx. exact Hx.
  - apply (proj2 (@get_hidden_inputs_complete (Lab.env Lab.site_pages) _ _)).
    exists "__EVENTTARGET". split; [|reflexivity].
    unfold hidden_names. rewrite !elem_of_cons. tauto.
Defined.


Lemma search_payload_complete_witness :
  let E := Lab.env Lab.site_pages in
  let w := Lab.fresh Lab.site_pages [] in
  exists payload,
    bind (_get_hidden_inputs Lab.form_page) (_build_search_payload Lab.settings) w
      = (Returned payload, w) /\
    length payload = 20%nat /\
    ("__VIEWSTATE", "dDwtMTA4") ∈ payload /\
    ("ctl00$Content$KeywordsList1$cmbKeyword", "42") ∈ payload.
Proof.
  cbv zeta.
  destruct (@search_payload_complete (Lab.env Lab.site_pages) Lab.settings Lab.form_page
              (Lab.fresh Lab.site_pages []))
    as (payload & Hp & Hlen & _ & Hecho & Hkey & _).
  { intros name Hname. unfold hidden_names in Hname.
    repeat (apply elem_of_cons in Hname as [-> | Hname]; [eexists; reflexivity|]).
    apply elem_of_nil in Hname. destruct Hname. }
  exists payload. split; [exact Hp|]. split; [exact Hlen|]. split; [|exact Hkey].
  apply Hecho; [unfold hidden_names; rewrite !elem_of_cons; tauto | reflexivity].
Defined.

End FormFactsRuns.

(* ===================================================================== *)
(** * The requests of a search *)
(* ===================================================================== *)

Section RequestFacts.
Import Py Effects VHSBerlin.
Context `{Env}.
Variable cfg : config.

(** What [send] does to the world. *)
Lemma send_world (r : request) (w : world) :
  let w' := snd (send r w) in
  trace w' = trace w ++ [Sent r] /\ files w' = files w /\
  rng w' = rng w /\ rng_next w' = rng_next w /\
  net w' = snd (serve r (net w)) /\
  fst (send r w) = match fst (serve r (net w)) with
                   | inl e => Raised e
                   | inr resp => Returned resp
                   end.
Proof.
  cbv zeta. unfold send.
  destruct (serve r (net w)) as [[e|resp] net']; cbn; repeat split; reflexivity.
Qed.

Lemma raise_for_status_cases (r : response) (w : world) :
  (400 <= status_code r < 600 /\
   exists msg, raise_for_status r w = (Raised (Exn "HTTPError" msg), w) /\
               contains (str (status_code r)) msg = true) \/
  (~ 400 <= status_code r < 600 /\ raise_for_status r w = (Returned tt, w)).
Proof.
  unfold raise_for_status.
  destruct ((400 <=? status_code r) && (status_code r <? 500)) eqn:E4.
  - left. apply andb_true_iff in E4 as [H1 H2]. apply Z.leb_le in H1. apply Z.ltb_lt in H2.
    split; [lia|]. eexists. split; [reflexivity|]. apply contains_prefix, prefix_append.
  - destruct ((500 <=? status_code r) && (status_code r <? 600)) eqn:E5.
    + left. apply andb_true_iff in E5 as [H1 H2]. apply Z.leb_le in H1. apply Z.ltb_lt in H2.
      split; [lia|]. eexists. split; [reflexivity|]. apply contains_prefix, prefix_append.
    + right. split; [|reflexivity].
      apply andb_false_iff in E4. apply andb_false_iff in E5.
      rewrite !Z.leb_gt, !Z.ltb_ge in *. lia.
Qed.

(** Close the conjuncts left once the events are known. *)
Ltac conclude :=
  repeat match goal with |- _ /\ _ => split end;
  first [ reflexivity
        | assumption
        | congruence
        | cbn [length]; lia
        | repeat (apply List.Forall_cons; [assumption|]); apply List.Forall_nil
        | intros [? | [? | ?]]; congruence
        | intros; split; reflexivity ];
  try exact I.

Lemma follow_redirects_sends (initial_response : response) (w : world) :
  let after := _follow_redirects initial_response w in
  exists evs,
    trace (snd after) = trace w ++ evs /\
    (length evs <= 2)%nat /\ Forall site_get evs /\
    files (snd after) = files w /\ rng_next (snd after) = rng_next w /\
    (status_code initial_response = 200 \/
     headers_get (headers initial_response) "Location" = None \/
     headers_get (headers initial_response) "Location" = Some EmptyString ->
     evs = [] /\ after = (Returned (text initial_response), w)).
Proof.
  cbv zeta. remember (_follow_redirects initial_response w) as after eqn:Hafter.
  unfold _follow_redirects in Hafter.
  destruct (status_code initial_response =? 200) eqn:E200.
  { exists []. subst after. cbn [snd]. rewrite app_nil_r. conclude. }
  apply Z.eqb_neq in E200.
  destruct (headers_get (headers initial_response) "Location") as [[|c loc]|] eqn:Hloc;
    try (exists []; subst after; cbn [snd]; rewrite app_nil_r; conclude).
  unfold bind at 1, session_get in Hafter.
  pose proof (send_world (Request GET (site +:+ String c loc) NoBody false true) w)
    as (T1 & F1 & _ & R1 & _ & _).
  assert (site_get (Sent (Request GET (site +:+ String c loc) NoBody false true))) as G1
    by (eexists; eexists; reflexivity).
  destruct (send (Request GET (site +:+ String c loc) NoBody false true) w)
    as [[r1|e1] w1]; cbn [snd] in *;
    [|exists [Sent (Request GET (site +:+ String c loc) NoBody false true)];
      subst after; cbn [snd]; conclude].
  destruct (status_code r1 =? 200);
    [exists [Sent (Request GET (site +:+ String c loc) NoBody false true)];
     subst after; cbn [snd]; conclude|].
  destruct (headers_get (headers r1) "Location") as [[|c2 loc2]|];
    try (exists [Sent (Request GET (site +:+ String c loc) NoBody false true)];
         subst after; cbn [snd]; conclude).
  unfold bind at 1 in Hafter.
  pose proof (send_world (Request GET (site +:+ String c2 loc2) NoBody true true) w1)
    as (T2 & F2 & _ & R2 & _ & _).
  assert (site_get (Sent (Request GET (site +:+ String c2 loc2) NoBody true true))) as G2
    by (eexists; eexists; reflexivity).
  exists [Sent (Request GET (site +:+ String c loc) NoBody false true);
          Sent (Request GET (site +:+ String c2 loc2) NoBody true true)].
  destruct (send (Request GET (site +:+ String c2 loc2) NoBody true true) w1)
    as [[r2|e2] w2]; cbn [snd] in *;
    [|subst after; cbn [snd]; rewrite T2, T1, <- app_assoc; conclude].
  unfold bind in Hafter.
  destruct (raise_for_status_cases r2 w2) as [(_ & msg & Hr & _) | (_ & Hr)];
    rewrite Hr in Hafter; subst after; cbn [snd ret];
    rewrite T2, T1, <- app_assoc; conclude.
Qed.

(** X7.  [_follow_redirects] sends at most two requests, each a GET of the
    session to an address of the site, and none at all when the response
    has status 200 or no Location: it then returns the body it was given.
    It touches neither the files nor the random source. *)
Theorem follow_redirects_requests (initial_response : response) (w : world) :
  let after := _follow_redirects initial_response w in
  exists evs,
    trace (snd after) = trace w ++ evs /\
    (length evs <= 2)%nat /\ Forall site_get evs /\
    files (snd after) = files w /\ rng_next (snd after) = rng_next w /\
    (status_code initial_response = 200 \/
     headers_get (headers initial_response) "Location" = None \/
     headers_get (headers initial_response) "Location" = Some EmptyString ->
     evs = [] /\ after = (Returned (text initial_response), w)).
Proof. exact (follow_redirects_sends initial_response w). Qed.

(** X8.  Error statuses on the redirect chain are not treated alike.  The
    response to the first hop is returned as the content whenever it has
    no further Location, whatever its status, a 404 or a 500 included;
    the response to the second hop raises an [HTTPError] naming its status
    when that is in 400..599. *)
Theorem follow_redirects_error_statuses (initial_response r1 : response)
    (loc : string) (w w1 : world) :
  status_code initial_response <> 200 ->
  headers_get (headers initial_response) "Location" = Some loc -> loc <> EmptyString ->
  session_get (site +:+ loc) false w = (Returned r1, w1) ->
  (status_code r1 <> 200 ->
   headers_get (headers r1) "Location" = None \/
   headers_get (headers r1) "Location" = Some EmptyString ->
   _follow_redirects initial_response w = (Returned (text r1), w1)) /\
  (forall (loc2 : string) (r2 : response) (w2 : world),
     status_code r1 <> 200 ->
     headers_get (headers r1) "Location" = Some loc2 -> loc2 <> EmptyString ->
     session_get (site +:+ loc2) true w1 = (Returned r2, w2) ->
     400 <= status_code r2 < 600 ->
     exists msg,
       _follow_redirects initial_response w = (Raised (Exn "HTTPError" msg), w2) /\
       contains (str (status_code r2)) msg = true).
Proof.
  intros H200 Hloc Hne Hget.
  assert (_follow_redirects initial_response w =
          (if status_code r1 =? 200 then ret (text r1)
           else match headers_get (headers r1) "Location" with
                | None | Some EmptyString => ret (text r1)
                | Some loc2 =>
                    bind (session_get (site +:+ loc2) true) (fun r2 =>
                    bind (raise_for_status r2) (fun _ => ret (text r2)))
                end) w1) as Hstep.
  { unfold _follow_redirects. apply Z.eqb_neq in H200. rewrite H200, Hloc.
    destruct loc as [|c loc]; [congruence|]. unfold bind at 1. rewrite Hget. reflexivity. }
  rewrite Hstep. split.
  - intros Hr1 Hnoloc. apply Z.eqb_neq in Hr1. rewrite Hr1.
    destruct Hnoloc as [-> | ->]; reflexivity.
  - intros loc2 r2 w2 Hr1 Hloc2 Hne2 Hget2 Hbad. apply Z.eqb_neq in Hr1. rewrite Hr1, Hloc2.
    destruct loc2 as [|c2 loc2]; [congruence|]. unfold bind at 1. rewrite Hget2.
    destruct (raise_for_status_cases r2 w2) as [(_ & msg & Hraise & Hmsg) | (Hok & _)]; [|lia].
    exists msg. unfold bind. rewrite Hraise. split; [reflexivity | exact Hmsg].
Qed.

Lemma hidden_inputs_of_world (soup : Bs4.soup) (names : list string)
    (inputs : gmap string string) (w : world) :
  snd (hidden_inputs_of soup names inputs w) = w.
Proof.
  revert inputs. induction names as [|n names IH]; intros inputs; [reflexivity|].
  cbn [hidden_inputs_of]. destruct (Bs4.find "input" "name" n soup) as [tag|]; [|apply IH].
  destruct (Bs4.tag_get tag "value"); [apply IH | reflexivity].
Qed.

Lemma build_search_payload_world (h : gmap string string) (w : world) :
  snd (_build_search_payload cfg h w) = w.
Proof.
  unfold _build_search_payload.
  repeat (unfold bind at 1, item at 1;
          match goal with |- context [h !! ?k] => destruct (h !! k) end;
          [|reflexivity]).
  reflexivity.
Qed.

Lemma site_get_session (e : event) : site_get e -> session_request e.
Proof. intros (loc & redirects & ->). eexists. split; reflexivity. Qed.

(** What a search sends, whatever its outcome. *)
Lemma perform_search_sends (w : world) :
  let after := perform_search cfg w in
  exists evs,
    trace (snd after) = trace w ++ Sent (Request GET (URL cfg) NoBody true true) :: evs /\
    (length evs <= 3)%nat /\ Forall session_request evs /\
    match evs with
    | [] => True
    | e :: _ => exists payload, e = Sent (Request POST (URL cfg) (FormData payload) false true)
    end /\
    files (snd after) = files w /\ rng_next (snd after) = rng_next w.
Proof.
  cbv zeta. remember (perform_search cfg w) as after eqn:Hafter.
  unfold perform_search in Hafter. unfold bind at 1, session_get in Hafter.
  pose proof (send_world (Request GET (URL cfg) NoBody true true) w)
    as (T1 & F1 & _ & R1 & _ & _).
  destruct (send (Request GET (URL cfg) NoBody true true) w) as [[r|e] w1]; cbn [snd] in *;
    [|exists []; subst after; cbn [snd]; conclude].
  unfold bind at 1 in Hafter.
  destruct (raise_for_status_cases r w1) as [(_ & msg & Hr & _) | (_ & Hr)];
    rewrite Hr in Hafter; [exists []; subst after; cbn [snd]; conclude|].
  unfold bind at 1 in Hafter.
  pose proof (hidden_inputs_of_world (html_parser (text r)) hidden_names ∅ w1) as Hw.
  unfold _get_hidden_inputs in Hafter.
  destruct (hidden_inputs_of (html_parser (text r)) hidden_names ∅ w1) as [[h|e] w1'];
    cbn [snd] in Hw; subst w1'; [|exists []; subst after; cbn [snd]; conclude].
  unfold bind at 1 in Hafter.
  pose proof (build_search_payload_world h w1) as Hw.
  destruct (_build_search_payload cfg h w1) as [[payload|e] w1'];
    cbn [snd] in Hw; subst w1'; [|exists []; subst after; cbn [snd]; conclude].
  unfold bind at 1, session_post in Hafter.
  pose proof (send_world (Request POST (URL cfg) (FormData payload) false true) w1)
    as (T2 & F2 & _ & R2 & _ & _).
  assert (session_request (Sent (Request POST (URL cfg) (FormData payload) false true))) as G2
    by (eexists; split; reflexivity).
  destruct (send (Request POST (URL cfg) (FormData payload) false true) w1)
    as [[post_resp|e] w2]; cbn [snd] in *;
    [|exists [Sent (Request POST (URL cfg) (FormData payload) false true)];
      subst after; cbn [snd]; rewrite T2, T1, <- app_assoc;
      repeat match goal with |- _ /\ _ => split end;
      first [ reflexivity | congruence | cbn [length]; lia
            | apply List.Forall_cons; [assumption | apply List.Forall_nil]
            | eexists; reflexivity ]].
  unfold bind at 1 in Hafter.
  destruct (check_post_status post_resp w2) as [[[]|e] w2'] eqn:Hcheck.
  2:{ assert (w2' = w2) as -> by (unfold check_post_status in Hcheck;
        destruct (negb _) in Hcheck; injection Hcheck; auto).
      exists [Sent (Request POST (URL cfg) (FormData payload) false true)].
      subst after; cbn [snd]; rewrite T2, T1, <- app_assoc.
      repeat match goal with |- _ /\ _ => split end;
      first [ reflexivity | congruence | cbn [length]; lia
            | apply List.Forall_cons; [assumption | apply List.Forall_nil]
            | eexists; reflexivity ]. }
  assert (w2' = w2) as -> by (unfold check_post_status in Hcheck;
    destruct (negb _) in Hcheck; injection Hcheck; auto).
  rewrite bind_ret_r in Hafter.
  destruct (follow_redirects_sends post_resp w2) as (evs & T3 & L3 & G3 & F3 & R3 & _).
  rewrite <- Hafter in *.
  exists (Sent (Request POST (URL cfg) (FormData payload) false true) :: evs).
  rewrite T3, T2, T1, <- !app_assoc.
  repeat match goal with |- _ /\ _ => split end.
  - reflexivity.
  - cbn [length]. lia.
  - apply List.Forall_cons; [exact G2|].
    eapply Forall_impl; [exact G3 | exact site_get_session].
  - eexists. reflexivity.
  - congruence.
  - congruence.
Qed.

(** X9.  A search sends between one and four requests, all through the
    session: first the GET of the configured address, then, if it gets
    that far, the POST of the form to the same address with redirects
    disabled, then the GETs of the redirect resolution.  It leaves the
    files and the random source alone. *)
Theorem perform_search_requests (w : world) :
  let after := perform_search cfg w in
  exists evs,
    trace (snd after) = trace w ++ Sent (Request GET (URL cfg) NoBody true true) :: evs /\
    (length evs <= 3)%nat /\ Forall session_request evs /\
    match evs with
    | [] => True
    | e :: _ => exists payload, e = Sent (Request POST (URL cfg) (FormData payload) false true)
    end /\
    files (snd after) = files w /\ rng_next (snd after) = rng_next w.
Proof. exact (perform_search_sends w). Qed.

(** X10.  When the first GET is answered with a status in 400..599, or
    raises, the search raises (an [HTTPError] naming the status in the
    first case) and nothing but that GET has been sent: the form is not
    submitted. *)
Theorem perform_search_get_rejected (w w1 : world) :
  (forall r : response,
     session_get (URL cfg) true w = (Returned r, w1) ->
     400 <= status_code r < 600 ->
     exists msg,
       perform_search cfg w = (Raised (Exn "HTTPError" msg), w1) /\
       contains (str (status_code r)) msg = true /\
       trace w1 = trace w ++ [Sent (Request GET (URL cfg) NoBody true true)]) /\
  (forall e : exn,
     session_get (URL cfg) true w = (Raised e, w1) ->
     perform_search cfg w = (Raised e, w1) /\
     trace w1 = trace w ++ [Sent (Request GET (URL cfg) NoBody true true)]).
Proof.
  pose proof (send_world (Request GET (URL cfg) NoBody true true) w) as (T1 & _).
  split.
  - intros r Hget Hbad. unfold session_get in Hget. rewrite Hget in T1. cbn [snd] in T1.
    destruct (raise_for_status_cases r w1) as [(_ & msg & Hr & Hmsg) | (Hok & _)]; [|lia].
    exists msg. split; [|split; assumption].
    unfold perform_search, bind at 1, session_get. rewrite Hget.
    unfold bind at 1. rewrite Hr. reflexivity.
  - intros e Hget. unfold session_get in Hget. rewrite Hget in T1. cbn [snd] in T1.
    split; [|exact T1].
    unfold perform_search, bind at 1, session_get. rewrite Hget. reflexivity.
Qed.

End RequestFacts.

Section RequestRuns.
Import Py Effects BaseScout VHSBerlin.

Lemma follow_redirects_requests_witness :
  let E := Lab.env Lab.site_pages in
  let w := Lab.fresh Lab.site_pages [inr Lab.ok_form] in
  _follow_redirects Lab.ok_form w = (Returned "<form>", w).
Proof.
  cbv zeta.
  destruct (@follow_redirects_requests (Lab.env Lab.site_pages) Lab.ok_form
              (Lab.fresh Lab.site_pages [inr Lab.ok_form])) as (evs & _ & _ & _ & _ & _ & Hsame).
  exact (proj2 (Hsame (or_introl eq_refl))).
Defined.

Lemma follow_redirects_error_statuses_witness :
  let E := Lab.env Lab.site_pages in
  let first := Response 302 "Found" "https://vhs/search" [("Location", "/hop")] EmptyString in
  let gone := Response 404 "Not Found" "https://vhs/hop" [] "<maintenance>" in
  let hop := Response 302 "Found" "https://vhs/hop" [("Location", "/list")] EmptyString in
  let down := Response 503 "Service Unavailable" "https://vhs/list" [] "<maintenance>" in
  fst (_follow_redirects first (Lab.fresh Lab.site_pages [inr gone]))
    = Returned "<maintenance>" /\
  exists msg,
    fst (_follow_redirects first (Lab.fresh Lab.site_pages [inr hop; inr down]))
      = Raised (Exn "HTTPError" msg) /\
    contains "503" msg = true.
Proof.
  cbv zeta. split.
  - rewrite (proj1 (@follow_redirects_error_statuses (Lab.env Lab.site_pages)
               (Response 302 "Found" "https://vhs/search" [("Location", "/hop")] EmptyString)
               (Response 404 "Not Found" "https://vhs/hop" [] "<maintenance>")
               "/hop" (Lab.fresh Lab.site_pages
                         [inr (Response 404 "Not Found" "https://vhs/hop" [] "<maintenance>")])
               _ ltac:(discriminate) eq_refl ltac:(discriminate) eq_refl)
             ltac:(discriminate) (or_introl eq_refl)).
    reflexivity.
  - destruct (proj2 (@follow_redirects_error_statuses (Lab.env Lab.site_pages)
               (Response 302 "Found" "https://vhs/search" [("Location", "/hop")] EmptyString)
               (Response 302 "Found" "https://vhs/hop" [("Location", "/list")] EmptyString)
               "/hop" (Lab.fresh Lab.site_pages
                  [inr (Response 302 "Found" "https://vhs/hop" [("Location", "/list")]
                          EmptyString);
                   inr (Response 503 "Service Unavailable" "https://vhs/list" []
                          "<maintenance>")])
               _ ltac:(discriminate) eq_refl ltac:(discriminate) eq_refl)
             "/list"
             (Response 503 "Service Unavailable" "https://vhs/list" [] "<maintenance>")
             _ ltac:(discriminate) eq_refl ltac:(discriminate) eq_refl ltac:(simpl; lia))
      as (msg & Hmsg & Hc).
    exists msg. rewrite Hmsg. split; [reflexivity | exact Hc].
Defined.

Lemma perform_search_get_rejected_witness :
  let E := Lab.env Lab.site_pages in
  let down := Response 503 "Service Unavailable" "https://vhs/search" [] "<maintenance>" in
  let refused := Exn "ConnectionError" "connection refused" in
  (exists msg,
     fst (perform_search Lab.settings (Lab.fresh Lab.site_pages [inr down; inr Lab.ok_form]))
       = Raised (Exn "HTTPError" msg) /\
     contains "503" msg = true) /\
  fst (perform_search Lab.settings (Lab.fresh Lab.site_pages [inl refused; inr Lab.ok_form]))
    = Raised refused.
Proof.
  cbv zeta. split.
  - destruct (proj1 (@perform_search_get_rejected (Lab.env Lab.site_pages) Lab.settings
               (Lab.fresh Lab.site_pages
                  [inr (Response 503 "Service Unavailable" "https://vhs/search" []
                          "<maintenance>"); inr Lab.ok_form]) _)
               (Response 503 "Service Unavailable" "https://vhs/search" [] "<maintenance>")
               eq_refl ltac:(simpl; lia)) as (msg & Hmsg & Hc & _).
    exists msg. rewrite Hmsg. split; [reflexivity | exact Hc].
  - rewrite (proj1 (proj2 (@perform_search_get_rejected (Lab.env Lab.site_pages) Lab.settings
               (Lab.fresh Lab.site_pages
                  [inl (Exn "ConnectionError" "connection refused"); inr Lab.ok_form]) _)
               (Exn "ConnectionError" "connection refused") eq_refl)).
    reflexivity.
Defined.

End RequestRuns.

(* ===================================================================== *)
(** * Telegram and the run-number file *)
(* ===================================================================== *)

Section TelegramFacts.
Import Py Effects.
Context `{Env}.

(** The request [send_telegram_message] makes. *)
Lemma send_telegram_world (bot_token chat_id message : string) (w : world) :
  let req := Request POST ("https://api.telegram.org/bot" +:+ bot_token +:+ "/sendMessage")
               (JsonData [("chat_id", chat_id); ("text", message);
                          ("parse_mode", "Markdown")]) true false in
  let after := Utils.send_telegram_message bot_token chat_id message w in
  fst after = Returned tt /\
  exists logs,
    trace (snd after) = trace w ++ Sent req :: logs /\
    (length logs <= 1)%nat /\ Forall (fun e => exists msg, e = Logged msg) logs /\
    (logs = [] <-> exists resp, fst (serve req (net w)) = inr resp /\ ok resp = true) /\
    files (snd after) = files w /\ rng_next (snd after) = rng_next w.
Proof.
  cbv zeta. unfold Utils.send_telegram_message, try_except, bind, send.
  destruct (serve _ (net w)) as [[e|resp] net']; cbn [fst snd].
  - split; [reflexivity|]. eexists. cbn [Utils.log emit snd trace files rng_next].
    split; [rewrite <- app_assoc; reflexivity|]. split; [cbn; lia|].
    split; [apply List.Forall_cons; [eexists; reflexivity | apply List.Forall_nil]|].
    split; [|split; reflexivity].
    split; [discriminate | intros (resp & Hresp & _); discriminate].
  - destruct (ok resp) eqn:Hok; cbn [negb Utils.log emit ret fst snd trace files rng_next].
    + split; [reflexivity|]. exists []. split; [reflexivity|]. split; [cbn; lia|].
      split; [apply List.Forall_nil|]. split; [|split; reflexivity].
      split; [intros _; exists resp; split; [reflexivity | exact Hok] | reflexivity].
    + split; [reflexivity|]. eexists.
      split; [rewrite <- app_assoc; reflexivity|]. split; [cbn; lia|].
      split; [apply List.Forall_cons; [eexists; reflexivity | apply List.Forall_nil]|].
      split; [|split; reflexivity].
      split; [discriminate | intros (resp' & Hresp & Hok'); congruence].
Qed.

(** X11.  [send_telegram_message] never raises.  It makes exactly one
    request, a POST outside the session to the bot's [sendMessage] address
    carrying the chat id, the text and the Markdown mode, and writes at
    most one log line, none exactly when the request was answered with a
    status outside 400..599.  Files and random source are left alone. *)
Theorem send_telegram_message_contained (bot_token chat_id message : string) (w : world) :
  let req := Request POST ("https://api.telegram.org/bot" +:+ bot_token +:+ "/sendMessage")
               (JsonData [("chat_id", chat_id); ("text", message);
                          ("parse_mode", "Markdown")]) true false in
  let after := Utils.send_telegram_message bot_token chat_id message w in
  fst after = Returned tt /\
  exists logs,
    trace (snd after) = trace w ++ Sent req :: logs /\
    (length logs <= 1)%nat /\ Forall (fun e => exists msg, e = Logged msg) logs /\
    (logs = [] <-> exists resp, fst (serve req (net w)) = inr resp /\ ok resp = true) /\
    files (snd after) = files w /\ rng_next (snd after) = rng_next w.
Proof. exact (send_telegram_world bot_token chat_id message w). Qed.

End TelegramFacts.

Section RunNumberFacts.
Import Py Effects.

Lemma all_space_no_digit (p : string) : all_space p = true -> has_digit p = false.
Proof.
  induction p as [|c p IH]; [reflexivity|]. simpl. intros Hp.
  apply andb_true_iff in Hp as [Hc Hp]. rewrite (space_not_digit c Hc), (IH Hp). reflexivity.
Qed.

Lemma lstrip_spaces (p s : string) : all_space p = true -> lstrip (p +:+ s) = lstrip s.
Proof.
  induction p as [|c p IH]; [reflexivity|]. simpl. intros Hp.
  apply andb_true_iff in Hp as [Hc Hp]. rewrite Hc. apply IH, Hp.
Qed.

Lemma lstrip_rev_spaces (p s : string) :
  all_space p = true -> lstrip_rev (p +:+ s) = lstrip_rev s.
Proof.
  induction p as [|c p IH]; [reflexivity|]. simpl. intros Hp.
  apply andb_true_iff in Hp as [Hc Hp]. rewrite Hc. apply IH, Hp.
Qed.

Lemma all_space_append (a b : string) : all_space (a +:+ b) = all_space a && all_space b.
Proof. induction a as [|c a IH]; simpl; [reflexivity|]. rewrite IH. apply andb_assoc. Qed.

Lemma all_space_reverse (p : string) : all_space (reverse p) = all_space p.
Proof.
  induction p as [|c p IH]; [reflexivity|].
  rewrite reverse_cons, all_space_append, IH. simpl. rewrite andb_true_r. apply andb_comm.
Qed.

Lemma rstrip_spaces (s p : string) : all_space p = true -> rstrip (s +:+ p) = rstrip s.
Proof.
  intros Hp. unfold rstrip. rewrite reverse_append, lstrip_rev_spaces; [reflexivity|].
  rewrite all_space_reverse. exact Hp.
Qed.

Lemma lstrip_str_append (n : Z) (s : string) : lstrip (str n +:+ s) = str n +:+ s.
Proof.
  destruct n as [|q|q].
  - apply lstrip_digit. reflexivity.
  - destruct (str_nonneg_digits (Z.pos q)) as [Hd Hne]; [lia|].
    apply lstrip_digit. destruct (str (Z.pos q)) as [|c r]; [congruence|].
    simpl in *. apply andb_true_iff in Hd. tauto.
  - rewrite str_neg. rewrite append_cons. apply lstrip_minus.
Qed.

(** Surrounding whitespace does not hide a number from [strip]. *)
Lemma strip_padded_str (n : Z) (p1 p2 : string) :
  all_space p1 = true -> all_space p2 = true ->
  strip (p1 +:+ str n +:+ p2) = str n.
Proof.
  intros H1 H2. unfold strip.
  rewrite (lstrip_spaces _ _ H1), lstrip_str_append, (rstrip_spaces _ _ H2).
  pose proof (strip_str n) as Hs. unfold strip in Hs.
  rewrite <- (append_nil_r (str n)) in Hs at 1. rewrite lstrip_str_append, append_nil_r in Hs.
  exact Hs.
Qed.

Context `{Env}.

Lemma load_run_number_returns (w : world) :
  exists n, Utils.load_run_number w = (Returned n, w).
Proof.
  unfold Utils.load_run_number, try_except, bind, read_file, int_of.
  destruct (files w !! Utils.run_number_file) as [data|]; [|eexists; reflexivity].
  destruct (int (strip data)); eexists; reflexivity.
Qed.


(** X13.  [save_run_number] replaces what the file held: saving twice
    leaves the world a single save of the second number leaves.  It
    leaves every other file, the trace, the network and the random source
    as they were. *)
Theorem save_run_number_overwrites (a b : Z) (w : world) :
  snd (Utils.save_run_number b (snd (Utils.save_run_number a w)))
    = snd (Utils.save_run_number b w) /\
  (forall path, path <> Utils.run_number_file ->
     files (snd (Utils.save_run_number a w)) !! path = files w !! path) /\
  trace (snd (Utils.save_run_number a w)) = trace w /\
  net (snd (Utils.save_run_number a w)) = net w /\
  rng_next (snd (Utils.save_run_number a w)) = rng_next w.
Proof.
  unfold Utils.save_run_number, write_file. cbn [snd files net rng rng_next trace].
  split; [rewrite insert_insert_eq; reflexivity|].
  split; [intros path Hne; apply lookup_insert_ne; congruence|].
  repeat split.
Qed.

End RunNumberFacts.

Section RunNumberRuns.
Import Py Effects.


Lemma save_run_number_overwrites_witness :
  let E := Lab.env [] in
  let w := Lab.fresh [] [] in
  let kept : world :=
    World (<["notes.txt" := "keep"]> (files w)) (net w) (rng w) (rng_next w) (trace w) in
  snd (Utils.save_run_number 8 (snd (Utils.save_run_number 7 kept)))
    = snd (Utils.save_run_number 8 kept) /\
  files (snd (Utils.save_run_number 7 kept)) !! "notes.txt" = files kept !! "notes.txt".
Proof.
  cbv zeta.
  destruct (@save_run_number_overwrites (Lab.env []) 7 8
              (World (<["notes.txt" := "keep"]> (files (Lab.fresh [] [])))
                 (net (Lab.fresh [] [])) (rng (Lab.fresh [] []))
                 (rng_next (Lab.fresh [] [])) (trace (Lab.fresh [] []))))
    as (Hagain & Hother & _).
  split; [exact Hagain|]. apply Hother. discriminate.
Defined.

Lemma send_telegram_message_contained_witness :
  let E := Lab.env [] in
  let w := Lab.fresh [] [] in
  let req := Request POST "https://api.telegram.org/bottoken/sendMessage"
               (JsonData [("chat_id", "chat"); ("text", "hello");
                          ("parse_mode", "Markdown")]) true false in
  exists logs,
    trace (snd (Utils.send_telegram_message "token" "chat" "hello" w)) = Sent req :: logs /\
    logs = [].
Proof.
  cbv zeta.
  destruct (@send_telegram_message_contained (Lab.env []) "token" "chat" "hello"
              (Lab.fresh [] [])) as (_ & logs & Ht & _ & _ & Hquiet & _).
  exists logs. split; [exact Ht|]. apply Hquiet. eexists. split; reflexivity.
Defined.

End RunNumberRuns.

(* ===================================================================== *)
(** * The loop never gives up on an error *)
(* ===================================================================== *)

Section LoopTotal.
Import Py Effects BaseScout.
Context `{Env} {content results : Type} {scout : Scout content results}.
Variables (max_attempts short_wait long_wait : Z).

Local Abbreviation attempts := (attempts max_attempts short_wait).
Local Abbreviation run_once := (run_once max_attempts short_wait long_wait).

(** The scout's [notify] returns in every world. *)
Hypothesis notify_total : forall msg w, exists w', notify msg w = (Returned tt, w').

(** One attempt returns, whatever the search and the parser do; what it
    returns is a successful result of the parser. *)
Lemma attempt_search_returns (attempt : Z) (w : world) :
  exists found w',
    attempt_search attempt w = (Returned found, w') /\
    forall p, found = Some p ->
      get_success p = true /\
      exists c w1 w2, parse_results c w1 = (Returned p, w2).
Proof.
  unfold attempt_search, try_except. unfold bind at 1.
  destruct (perform_search w) as [[c|e] w1].
  - unfold bind at 1. destruct (parse_results c w1) as [[p|e] w2] eqn:Hp.
    + destruct (get_success p) eqn:Hs; cbn [ret].
      * exists (Some p), w2. split; [reflexivity|]. intros p' [= <-].
        split; [exact Hs|]. exists c, w1, w2. exact Hp.
      * exists None, w2. split; [reflexivity | discriminate].
    + unfold bind at 1. cbn [Utils.log emit]. unfold bind.
      edestruct notify_total as [w' ->]. exists None, w'. split; [reflexivity | discriminate].
  - unfold bind at 1. cbn [Utils.log emit]. unfold bind.
    edestruct notify_total as [w' ->]. exists None, w'. split; [reflexivity | discriminate].
Qed.

Lemma attempts_returns (fuel : nat) (attempt : Z) (w : world) :
  exists a r w',
    attempts fuel attempt None w = (Returned (a, r), w') /\
    forall p, r = Some p ->
      get_success p = true /\ attempt < a /\
      exists c w1 w2, parse_results c w1 = (Returned p, w2).
Proof.
  revert attempt w. induction fuel as [|fuel IH]; intros attempt w.
  - exists attempt, None, w. split; [|discriminate].
    cbn [BaseScout.attempts]. destruct (_ && _); reflexivity.
  - destruct (Z.ltb_spec attempt max_attempts) as [Hlt|Hge].
    + rewrite (attempts_enter _ _ fuel attempt w Hlt). unfold bind at 1.
      destruct (attempt_search_returns (attempt + 1) w) as (found & w1 & -> & Hfound).
      destruct found as [p|].
      * exists (attempt + 1), (Some p), w1. split; [reflexivity|]. intros p' [= <-].
        destruct (Hfound p eq_refl) as [Hs Hp]. split; [exact Hs|]. split; [lia | exact Hp].
      * unfold bind at 1. rewrite sleep_world.
        edestruct (IH (attempt + 1)) as (a & r & w' & -> & Hr).
        exists a, r, w'. split; [reflexivity|]. intros p Hp.
        destruct (Hr p Hp) as (Hs & Hlt' & Hparse). split; [exact Hs|]. split; [lia | exact Hparse].
    + exists attempt, None, w. split; [|discriminate].
      apply attempts_exit. left. exact Hge.
Qed.

(** The inner loop as [run] calls it. *)
Lemma attempts_outcome (w : world) :
  exists a r w',
    attempts (Z.to_nat max_attempts) 0 None w = (Returned (a, r), w') /\
    0 <= a <= Z.max 0 max_attempts /\
    match r with
    | Some p => get_success p = true /\ 1 <= a /\
                exists c w1 w2, parse_results c w1 = (Returned p, w2)
    | None => a = Z.max 0 max_attempts
    end.
Proof.
  destruct (attempts_returns (Z.to_nat max_attempts) 0 w) as (a & r & w' & Hrun & Hr).
  exists a, r, w'. split; [exact Hrun|].
  destruct (attempts_ends max_attempts short_wait (Z.to_nat max_attempts) 0 a None r w w')
    as [Hend Hbound]; [lia | exact Hrun |].
  split; [exact Hbound|].
  destruct r as [p|].
  - destruct (Hr p eq_refl) as (Hs & Hlt & Hp). split; [exact Hs|]. split; [lia | exact Hp].
  - destruct Hend as [Hend | [x Hx]]; [lia | discriminate].
Qed.

(** The scout's methods leave the files alone; its handlers return. *)
Hypothesis search_files : forall w, files (snd (perform_search w)) = files w.
Hypothesis parse_files : forall c w, files (snd (parse_results c w)) = files w.
Hypothesis notify_files : forall msg w, files (snd (notify msg w)) = files w.
Hypothesis success_returns :
  forall n c w0 p w1 w, parse_results c w0 = (Returned p, w1) -> get_success p = true ->
    exists w', handle_success n p w = (Returned tt, w') /\ files w' = files w.
Hypothesis failure_returns :
  forall n m w, exists w', handle_failure n m w = (Returned tt, w') /\ files w' = files w.

Lemma attempt_search_files (attempt : Z) (w : world) :
  files (snd (attempt_search attempt w)) = files w.
Proof.
  unfold attempt_search, try_except. unfold bind at 1.
  pose proof (search_files w) as Hs.
  destruct (perform_search w) as [[c|e] w1]; cbn [snd] in Hs.
  - unfold bind at 1. pose proof (parse_files c w1) as Hp.
    destruct (parse_results c w1) as [[p|e] w2]; cbn [snd] in Hp.
    + destruct (get_success p); cbn [ret snd]; congruence.
    + unfold bind at 1. cbn [Utils.log emit]. unfold bind.
      match goal with |- context [notify ?m ?w0] =>
        pose proof (notify_files m w0) as Hn; destruct (notify m w0) as [[[]|e'] w3] end;
        cbn [snd ret files] in *; congruence.
  - unfold bind at 1. cbn [Utils.log emit]. unfold bind.
    match goal with |- context [notify ?m ?w0] =>
      pose proof (notify_files m w0) as Hn; destruct (notify m w0) as [[[]|e'] w3] end;
      cbn [snd ret files] in *; congruence.
Qed.

Lemma attempts_files (fuel : nat) (attempt : Z) (res : option results) (w : world) :
  files (snd (attempts fuel attempt res w)) = files w.
Proof.
  revert attempt w. induction fuel as [|fuel IH]; intros attempt w.
  - cbn [BaseScout.attempts]. destruct (_ && _); reflexivity.
  - cbn [BaseScout.attempts]. destruct (_ && _); [|reflexivity].
    unfold bind at 1. pose proof (attempt_search_files (attempt + 1) w) as Ha.
    destruct (attempt_search (attempt + 1) w) as [[[p|]|e] w1]; cbn [snd ret] in *;
      [exact Ha | | exact Ha].
    unfold bind at 1. rewrite sleep_world. rewrite IH. cbn [files]. exact Ha.
Qed.

(** A run of such a scout returns the next run number, having written it
    to the file and touched no other. *)
Lemma run_once_returns (run_number : Z) (w : world) :
  exists w',
    run_once run_number w = (Returned (run_number + 1), w') /\
    files w' = <[Utils.run_number_file := str (run_number + 1)]> (files w).
Proof.
  unfold BaseScout.run_once. cbv zeta.
  unfold bind at 1. cbn [save_run_number Utils.save_run_number write_file].
  unfold bind at 1. cbn [Utils.log emit].
  unfold bind at 1.
  match goal with |- context [notify ?m ?w0] =>
    pose proof (notify_files m w0) as Hn; destruct (notify_total m w0) as [w1 Hw1];
    rewrite Hw1 in Hn |- *; cbn [snd files] in Hn end.
  unfold bind at 1.
  pose proof (attempts_files (Z.to_nat max_attempts) 0 None w1) as Hf.
  destruct (attempts_outcome w1) as (a & r & w2 & Hrun & _ & Hr).
  rewrite Hrun in Hf |- *. cbn [snd] in Hf |- *.
  destruct r as [p|].
  - destruct Hr as (Hs & _ & c & u1 & u2 & Hp).
    destruct (success_returns (run_number + 1) c u1 p u2 w2 Hp Hs) as (w3 & Hw3 & Hf3).
    unfold bind. rewrite Hw3, sleep_world. eexists. split; [reflexivity|].
    cbn [files]. congruence.
  - destruct (failure_returns (run_number + 1) max_attempts w2) as (w3 & Hw3 & Hf3).
    unfold bind. rewrite Hw3, sleep_world. eexists. split; [reflexivity|].
    cbn [files]. congruence.
Qed.

(** [n] runs in a row, from the number the file holds. *)
Lemma runs_returns (n : nat) (run_number : Z) (w : world) :
  Utils.load_run_number w = (Returned run_number, w) ->
  exists w',
    runs max_attempts short_wait long_wait n run_number w
      = (Returned (run_number + Z.of_nat n), w') /\
    Utils.load_run_number w' = (Returned (run_number + Z.of_nat n), w').
Proof.
  revert run_number w. induction n as [|n IH]; intros run_number w Hload.
  - exists w. cbn [runs ret]. rewrite Z.add_0_r. split; [reflexivity | exact Hload].
  - cbn [runs]. unfold bind at 1.
    destruct (run_once_returns run_number w) as (w1 & -> & Hf1).
    destruct (IH (run_number + 1) w1) as (w' & Hruns & Hload').
    { unfold Utils.load_run_number, try_except, bind, read_file, int_of.
      rewrite Hf1, lookup_insert_eq, strip_str, int_str. reflexivity. }
    exists w'. replace (run_number + Z.of_nat (S n)) with (run_number + 1 + Z.of_nat n) by lia.
    split; assumption.
Qed.

End LoopTotal.

(* ===================================================================== *)
(** * Counting the calls of a run *)
(* ===================================================================== *)

Section StubRunFacts.
Import Py Effects BaseScout Stub.

Lemma error_notifications_app (a b : list event) :
  error_notifications (a ++ b) = (error_notifications a + error_notifications b)%nat.
Proof. unfold error_notifications. rewrite List.filter_app, length_app. reflexivity. Qed.

Lemma sleeps_app (a b : list event) : sleeps (a ++ b) = (sleeps a + sleeps b)%nat.
Proof. unfold sleeps. rewrite List.filter_app, length_app. reflexivity. Qed.

Context `{Env} {content results : Type}.
Variable script : nat -> exn + content.
Variable parse : content -> exn + results.
Variable flag : results -> bool.
Variables (max_attempts short_wait long_wait : Z).

Local Abbreviation stub := (StubScout script parse flag).
Local Abbreviation attempts := (@attempts _ _ _ stub max_attempts short_wait).
Local Abbreviation raising := (raising script parse).

Lemma raising_S (from n : nat) :
  raising from (S n) = (raising from 1 + raising (S from) n)%nat.
Proof.
  unfold Stub.raising. cbn [seq List.filter].
  destruct (attempt_raises script parse from); reflexivity.
Qed.

(** An attempt of the stub whose parse raises. *)
Lemma stub_attempt_parse_raises (k fuel : nat) (attempt : Z) (w : world)
    (c : content) (e : exn) :
  attempt < max_attempts ->
  calls "perform_search" (trace w) = k ->
  script k = inr c -> parse c = inl e ->
  attempts (S fuel) attempt None w =
  attempts fuel (attempt + 1) None
    (let delay := Utils.jittered (inject_Z short_wait) (rng w (rng_next w)) in
     World (files w) (net w) (rng w) (S (rng_next w))
       (trace w ++ [Called "perform_search" []; Called "parse_results" [];
                    Logged (error_log (attempt + 1) e);
                    Called "notify" [error_notification (attempt + 1) e];
                    Logged (waiting delay); Slept delay])).
Proof.
  intros Hlt Hk Hc Hp.
  pose proof (stub_search script k w Hk) as Hs. rewrite Hc in Hs.
  assert (Stub.parse_results parse c
            (World (files w) (net w) (rng w) (rng_next w)
               (trace w ++ [Called "perform_search" []])) =
          (Raised e,
           World (files w) (net w) (rng w) (rng_next w)
             (trace w ++ [Called "perform_search" []; Called "parse_results" []]))) as Hq.
  { unfold Stub.parse_results, bind, emit. rewrite Hp.
    cbn [files net rng rng_next trace]. rewrite <- app_assoc. reflexivity. }
  rewrite (attempts_parse_raises (scout := stub) max_attempts short_wait fuel attempt
             _ _ _ c e Hlt Hs Hq).
  unfold bind at 1. cbn [Utils.log emit].
  unfold bind at 1. cbn [BaseScout.notify StubScout Stub.notify emit].
  unfold bind at 1. rewrite sleep_world.
  cbn [files net rng rng_next trace]. rewrite <- !app_assoc. reflexivity.
Qed.

(** What one failed attempt adds to the trace. *)
Lemma stub_attempt_fails (fuel : nat) (attempt : Z) (w : world) :
  attempt < max_attempts ->
  attempt_fails script parse flag (calls "perform_search" (trace w)) = true ->
  exists w' evs,
    attempts (S fuel) attempt None w = attempts fuel (attempt + 1) None w' /\
    trace w' = trace w ++ evs /\ files w' = files w /\
    calls "perform_search" evs = 1%nat /\
    calls "notify" evs = raising (calls "perform_search" (trace w)) 1 /\
    error_notifications evs = raising (calls "perform_search" (trace w)) 1 /\
    calls "handle_success" evs = 0%nat /\ calls "handle_failure" evs = 0%nat /\
    sleeps evs = 1%nat.
Proof.
  intros Hlt Hfail. remember (calls "perform_search" (trace w)) as k eqn:Hk. symmetry in Hk.
  unfold attempt_fails in Hfail. unfold Stub.raising, attempt_raises. cbn [seq List.filter].
  destruct (script k) as [e|c] eqn:Hs.
  - rewrite (stub_attempt_raises script parse flag max_attempts short_wait k fuel attempt w e
               Hlt Hk Hs).
    eexists. eexists. split; [reflexivity|]. cbn [trace files].
    repeat split; reflexivity.
  - destruct (parse c) as [e|p] eqn:Hp.
    + rewrite (stub_attempt_parse_raises k fuel attempt w c e Hlt Hk Hs Hp).
      eexists. eexists. split; [reflexivity|]. cbn [trace files].
      repeat split; reflexivity.
    + apply negb_true_iff in Hfail.
      rewrite (stub_attempt_negative script parse flag max_attempts short_wait k fuel attempt w
                 c p Hlt Hk Hs Hp Hfail).
      eexists. eexists. split; [reflexivity|]. cbn [trace files].
      repeat split; reflexivity.
Qed.

(** What [n] failed attempts in a row add to the trace. *)
Lemma stub_failing_prefix (n fuel : nat) (attempt : Z) (w : world) :
  (forall i, (i < n)%nat ->
     attempt_fails script parse flag (calls "perform_search" (trace w) + i) = true) ->
  Z.of_nat n <= Z.max 0 (max_attempts - attempt) ->
  exists w' evs,
    attempts (n + fuel) attempt None w = attempts fuel (attempt + Z.of_nat n) None w' /\
    trace w' = trace w ++ evs /\ files w' = files w /\
    calls "perform_search" evs = n /\
    calls "notify" evs = raising (calls "perform_search" (trace w)) n /\
    error_notifications evs = raising (calls "perform_search" (trace w)) n /\
    calls "handle_success" evs = 0%nat /\ calls "handle_failure" evs = 0%nat /\
    sleeps evs = n.
Proof.
  revert attempt w. induction n as [|n IH]; intros attempt w Hfail Hle.
  - exists w, []. rewrite Z.add_0_r, app_nil_r. repeat split; reflexivity.
  - destruct (stub_attempt_fails (n + fuel) attempt w) as
      (w1 & evs1 & Hrun1 & Ht1 & Hf1 & Hs1 & Hn1 & He1 & Hhs1 & Hhf1 & Hsl1).
    { lia. }
    { rewrite <- (Nat.add_0_r (calls _ _)). apply Hfail. lia. }
    destruct (IH (attempt + 1) w1) as
      (w2 & evs2 & Hrun2 & Ht2 & Hf2 & Hs2 & Hn2 & He2 & Hhs2 & Hhf2 & Hsl2).
    { intros i Hi. rewrite Ht1, calls_app, Hs1.
      replace (calls "perform_search" (trace w) + 1 + i)%nat
        with (calls "perform_search" (trace w) + S i)%nat by lia.
      apply Hfail. lia. }
    { lia. }
    exists w2, (evs1 ++ evs2). cbn [Nat.add]. rewrite Hrun1, Hrun2.
    rewrite Ht1, calls_app, Hs1 in Hn2, He2.
    replace (calls "perform_search" (trace w) + 1)%nat
      with (S (calls "perform_search" (trace w))) in Hn2, He2 by lia.
    rewrite raising_S, !calls_app, error_notifications_app, sleeps_app.
    split; [f_equal; lia|]. split; [rewrite Ht2, Ht1, app_assoc; reflexivity|].
    split; [congruence|]. repeat split; lia.
Qed.

(** The run of the stub up to its inner loop. *)
Lemma stub_run_once_start (run_number : Z) (w : world) :
  @run_once _ _ _ stub max_attempts short_wait long_wait run_number w =
  bind (attempts (Z.to_nat max_attempts) 0 None)
    (fun ar =>
       bind match snd ar with
            | Some r => bind (Stub.handle_success (run_number + 1) r)
                          (fun _ => sleep (inject_Z long_wait))
            | None => bind (Stub.handle_failure (run_number + 1) max_attempts)
                        (fun _ => sleep (inject_Z long_wait))
            end (fun _ => ret (run_number + 1)))
    (World (<[Utils.run_number_file := str (run_number + 1)]> (files w)) (net w) (rng w)
       (rng_next w)
       (trace w ++ [Logged (start_message (run_number + 1));
                    Called "notify" [start_message (run_number + 1)]])).
Proof.
  unfold run_once. unfold bind at 1 2 3.
  cbn [save_run_number Utils.save_run_number write_file Utils.log emit
       BaseScout.notify StubScout Stub.notify files net rng rng_next trace].
  rewrite <- app_assoc. reflexivity.
Qed.

(** Count the calls in the part of a trace that is known. *)
Ltac tally :=
  repeat match goal with
         | |- context [calls ?n (?a :: ?l)] =>
             let v := eval lazy in (calls n (a :: l)) in
             change (calls n (a :: l)) with v
         | |- context [error_notifications (?a :: ?l)] =>
             let v := eval lazy in (error_notifications (a :: l)) in
             change (error_notifications (a :: l)) with v
         | |- context [sleeps (?a :: ?l)] =>
             let v := eval lazy in (sleeps (a :: l)) in
             change (sleeps (a :: l)) with v
         end.

(** A run whose attempts all fail. *)
Lemma stub_run_exhausted (run_number : Z) (w : world) :
  trace w = [] ->
  (forall i, (i < Z.to_nat max_attempts)%nat -> attempt_fails script parse flag i = true) ->
  exists w',
    @run_once _ _ _ stub max_attempts short_wait long_wait run_number w
      = (Returned (run_number + 1), w') /\
    calls "perform_search" (trace w') = Z.to_nat max_attempts /\
    error_notifications (trace w') = raising 0 (Z.to_nat max_attempts) /\
    calls "notify" (trace w') = S (raising 0 (Z.to_nat max_attempts)) /\
    calls "handle_failure" (trace w') = 1%nat /\
    calls "handle_success" (trace w') = 0%nat /\
    sleeps (trace w') = S (Z.to_nat max_attempts).
Proof.
  intros Hfresh Hfail. rewrite stub_run_once_start, Hfresh. cbn [app].
  unfold bind at 1.
  match goal with |- context [attempts _ 0 None ?w0] =>
    assert (calls "perform_search" (trace w0) = 0%nat) as Hk0 by reflexivity;
    destruct (stub_failing_prefix (Z.to_nat max_attempts) 0 0 w0) as
      (w1 & evs & Hrun & Ht & _ & Hs & Hn & He & Hhs & Hhf & Hsl);
      [intros i Hi; rewrite Hk0; apply Hfail, Hi | lia |];
    rewrite Hk0 in Hn, He end.
  rewrite Nat.add_0_r in Hrun. rewrite Hrun.
  assert (attempts 0 (0 + Z.of_nat (Z.to_nat max_attempts)) None w1
          = (Returned (0 + Z.of_nat (Z.to_nat max_attempts), None), w1)) as ->
    by (cbn [BaseScout.attempts]; destruct (_ && _); reflexivity).
  cbn [snd]. unfold bind at 1 2. cbn [Stub.handle_failure emit]. rewrite sleep_world.
  cbn [ret]. eexists. split; [reflexivity|].
  cbn [trace] in Ht |- *. rewrite Ht.
  rewrite !calls_app, !error_notifications_app, !sleeps_app, Hs, Hn, He, Hhs, Hhf, Hsl.
  tally. repeat split; lia.
Qed.

(** A run whose attempt of index [k] is the first not to fail. *)
Lemma stub_run_found (k : nat) (run_number : Z) (w : world) :
  trace w = [] ->
  (k < Z.to_nat max_attempts)%nat ->
  (forall i, (i < k)%nat -> attempt_fails script parse flag i = true) ->
  attempt_fails script parse flag k = false ->
  exists w',
    @run_once _ _ _ stub max_attempts short_wait long_wait run_number w
      = (Returned (run_number + 1), w') /\
    calls "perform_search" (trace w') = S k /\
    error_notifications (trace w') = raising 0 k /\
    calls "notify" (trace w') = S (raising 0 k) /\
    calls "handle_success" (trace w') = 1%nat /\
    calls "handle_failure" (trace w') = 0%nat /\
    sleeps (trace w') = S k.
Proof.
  intros Hfresh Hk Hfail Hgood. rewrite stub_run_once_start, Hfresh. cbn [app].
  unfold bind at 1.
  replace (Z.to_nat max_attempts) with (k + S (Z.to_nat max_attempts - S k))%nat by lia.
  match goal with |- context [attempts _ 0 None ?w0] =>
    assert (calls "perform_search" (trace w0) = 0%nat) as Hk0 by reflexivity;
    destruct (stub_failing_prefix k (S (Z.to_nat max_attempts - S k)) 0 w0) as
      (w1 & evs & Hrun & Ht & _ & Hs & Hn & He & Hhs & Hhf & Hsl);
      [intros i Hi; rewrite Hk0; apply Hfail, Hi | lia |];
    rewrite Hk0 in Hn, He end.
  rewrite Hrun. cbn [trace] in Ht.
  unfold attempt_fails in Hgood.
  destruct (script k) as [e|c] eqn:Hc; [discriminate|].
  destruct (parse c) as [e|p] eqn:Hp; [discriminate|].
  apply negb_false_iff in Hgood.
  rewrite (stub_attempt_success script parse flag max_attempts short_wait k _ _ w1 c p);
    [| lia | rewrite Ht, calls_app, Hs; reflexivity | exact Hc | exact Hp | exact Hgood].
  cbn [snd]. unfold bind at 1 2. cbn [Stub.handle_success emit]. rewrite sleep_world.
  cbn [ret files net rng rng_next trace]. eexists. split; [reflexivity|].
  cbn [trace]. rewrite Ht.
  rewrite !calls_app, !error_notifications_app, !sleeps_app, Hs, Hn, He, Hhs, Hhf, Hsl.
  tally. repeat split; lia.
Qed.

End StubRunFacts.

(* ===================================================================== *)
(** * The run of any scout *)
(* ===================================================================== *)

Section RunTheorems.
Import Py Effects BaseScout.


(** X15.  The handler of a failed attempt is not itself protected: when
    the search raises and the [notify] that reports it raises in turn,
    that second exception leaves the loop at once, with no sleep and no
    further attempt. *)
Theorem notification_failure_escapes `{Env} {content results : Type}
    {scout : Scout content results} (max_attempts short_wait : Z)
    (fuel : nat) (attempt : Z) (w w1 w2 : world) (e e' : exn) :
  attempt < max_attempts ->
  perform_search w = (Raised e, w1) ->
  notify (error_notification (attempt + 1) e)
    (snd (Utils.log (error_log (attempt + 1) e) w1)) = (Raised e', w2) ->
  attempts max_attempts short_wait (S fuel) attempt None w = (Raised e', w2).
Proof.
  intros Hlt Hsearch Hnotify.
  rewrite (attempts_search_raises max_attempts short_wait fuel attempt w w1 e Hlt Hsearch).
  unfold bind at 1. cbn [Utils.log emit snd] in Hnotify |- *.
  unfold bind at 1. rewrite Hnotify. reflexivity.
Qed.


Import Stub.

(** X17.  A run in which every attempt of the budget fails (the search
    raises, the parser raises, or the result is not a success) makes
    exactly [max_attempts] searches, none when the budget is zero or
    negative; it notifies once for the start and once for each attempt
    that raised, calls the failure handler once and the success handler
    never, and sleeps once after each attempt and once at the end. *)
Theorem exhausted_run_counts `{Env} {content results : Type}
    (script : nat -> exn + content) (parse : content -> exn + results)
    (flag : results -> bool) (max_attempts short_wait long_wait run_number : Z)
    (w : world) :
  trace w = [] ->
  (forall i, (i < Z.to_nat max_attempts)%nat -> attempt_fails script parse flag i = true) ->
  exists w',
    @run_once _ _ _ (StubScout script parse flag) max_attempts short_wait long_wait
      run_number w = (Returned (run_number + 1), w') /\
    calls "perform_search" (trace w') = Z.to_nat max_attempts /\
    error_notifications (trace w') = raising script parse 0 (Z.to_nat max_attempts) /\
    calls "notify" (trace w') = S (raising script parse 0 (Z.to_nat max_attempts)) /\
    calls "handle_failure" (trace w') = 1%nat /\
    calls "handle_success" (trace w') = 0%nat /\
    sleeps (trace w') = S (Z.to_nat max_attempts).
Proof.
  exact (stub_run_exhausted script parse flag max_attempts short_wait long_wait run_number w).
Qed.

(** X18.  A run whose attempt number [k + 1] is the first to succeed,
    within the budget, makes exactly [k + 1] searches and stops: it
    notifies once for the start and once for each earlier attempt that
    raised, calls the success handler once and the failure handler never,
    and sleeps [k] times between attempts and once at the end. *)
Theorem first_success_ends_run `{Env} {content results : Type}
    (script : nat -> exn + content) (parse : content -> exn + results)
    (flag : results -> bool) (max_attempts short_wait long_wait run_number : Z)
    (k : nat) (w : world) :
  trace w = [] ->
  (k < Z.to_nat max_attempts)%nat ->
  (forall i, (i < k)%nat -> attempt_fails script parse flag i = true) ->
  attempt_fails script parse flag k = false ->
  exists w',
    @run_once _ _ _ (StubScout script parse flag) max_attempts short_wait long_wait
      run_number w = (Returned (run_number + 1), w') /\
    calls "perform_search" (trace w') = S k /\
    error_notifications (trace w') = raising script parse 0 k /\
    calls "notify" (trace w') = S (raising script parse 0 k) /\
    calls "handle_success" (trace w') = 1%nat /\
    calls "handle_failure" (trace w') = 0%nat /\
    sleeps (trace w') = S k.
Proof.
  exact (stub_run_found script parse flag max_attempts short_wait long_wait k run_number w).
Qed.

End RunTheorems.

Section RunTheoremsRuns.
Import Py Effects BaseScout Stub.


Lemma notification_failure_escapes_witness :
  let down := Exn "RuntimeError" "no route to the chat" in
  let refused := Exn "ConnectionError" "connection refused" in
  let scout : @Scout (Lab.env []) string bool :=
    @Build_Scout (Lab.env []) string bool (raise refused) (fun _ => ret true) id
      (fun _ => raise down) (fun _ _ => ret tt) (fun _ _ => ret tt) in
  fst (@attempts (Lab.env []) _ _ scout 5 60 5 0 None (Lab.fresh [] [])) = Raised down.
Proof.
  cbv zeta.
  rewrite (@notification_failure_escapes (Lab.env []) string bool
             (@Build_Scout (Lab.env []) string bool
                (raise (Exn "ConnectionError" "connection refused")) (fun _ => ret true) id
                (fun _ => raise (Exn "RuntimeError" "no route to the chat"))
                (fun _ _ => ret tt) (fun _ _ => ret tt))
             5 60 4 0 (Lab.fresh [] []) _ _
             (Exn "ConnectionError" "connection refused")
             (Exn "RuntimeError" "no route to the chat")
             ltac:(lia) eq_refl eq_refl).
  reflexivity.
Defined.


Lemma exhausted_run_counts_witness :
  let script : nat -> exn + string :=
    fun k => match k with
             | O => inl (Exn "ConnectionError" "connection refused")
             | _ => inr "page"
             end in
  let parse : string -> exn + bool := fun c => inr (String.eqb c "list") in
  exists w',
    @run_once (Lab.env []) _ _ (StubScout script parse id) 3 60 3600 7 (Lab.fresh [] [])
      = (Returned (7 + 1), w') /\
    calls "perform_search" (trace w') = 3%nat /\
    error_notifications (trace w') = 1%nat /\
    calls "handle_failure" (trace w') = 1%nat.
Proof.
  cbv zeta.
  destruct (@exhausted_run_counts (Lab.env []) string bool
              (fun k => match k with
                        | O => inl (Exn "ConnectionError" "connection refused")
                        | _ => inr "page"
                        end)
              (fun c => inr (String.eqb c "list")) id 3 60 3600 7 (Lab.fresh [] []) eq_refl)
    as (w' & Hrun & Hs & He & _ & Hf & _).
  { intros [|i] _; reflexivity. }
  exists w'. split; [exact Hrun|]. split; [exact Hs|]. split; [exact He | exact Hf].
Defined.

Lemma first_success_ends_run_witness :
  let script : nat -> exn + string :=
    fun k => match k with
             | O => inl (Exn "ConnectionError" "connection refused")
             | 1%nat => inr "page"
             | _ => inr "list"
             end in
  let parse : string -> exn + bool := fun c => inr (String.eqb c "list") in
  exists w',
    @run_once (Lab.env []) _ _ (StubScout script parse id) 5 60 3600 7 (Lab.fresh [] [])
      = (Returned (7 + 1), w') /\
    calls "perform_search" (trace w') = 3%nat /\
    error_notifications (trace w') = 1%nat /\
    calls "handle_success" (trace w') = 1%nat /\
    sleeps (trace w') = 3%nat.
Proof.
  cbv zeta.
  destruct (@first_success_ends_run (Lab.env []) string bool
              (fun k => match k with
                        | O => inl (Exn "ConnectionError" "connection refused")
                        | 1%nat => inr "page"
                        | _ => inr "list"
                        end)
              (fun c => inr (String.eqb c "list")) id 5 60 3600 7 2 (Lab.fresh [] []) eq_refl)
    as (w' & Hrun & Hs & He & _ & Hh & _ & Hsl).
  { change (Z.to_nat 5) with 5%nat. lia. }
  { intros [|[|i]] Hi; try reflexivity. lia. }
  { reflexivity. }
  exists w'. split; [exact Hrun|]. split; [exact Hs|]. split; [exact He|].
  split; [exact Hh | exact Hsl].
Defined.

End RunTheoremsRuns.

(* ===================================================================== *)
(** * The runs of the VHS scout *)
(* ===================================================================== *)

Section VHSRunFacts.
Import Py Effects BaseScout VHSBerlin.
Context `{Env}.
Variable cfg : config.

Lemma vhs_notify_world (message : string) (w : world) :
  exists w', notify cfg message w = (Returned tt, w') /\ files w' = files w.
Proof.
  pose proof (send_telegram_world (TELEGRAM_BOT_TOKEN cfg) (TELEGRAM_CHAT_ID cfg) message w)
    as Hsend.
  cbv zeta in Hsend. destruct Hsend as (Hr & logs & _ & _ & _ & _ & Hf & _).
  unfold notify.
  destruct (Utils.send_telegram_message _ _ message w) as [o w']. cbn [fst snd] in *.
  subst o. exists w'. split; [reflexivity | exact Hf].
Qed.

Lemma vhs_parse_world (html_text : string) (w : world) :
  exists p,
    parse_results html_text w = (Returned p, w) /\
    (success p = true ->
     exists count cs, course_count p = Some count /\ courses p = Some cs).
Proof.
  unfold parse_results.
  destruct (shows_no_courses (html_parser html_text)) eqn:Hn.
  - exists no_courses. split; [apply parse_soup_no_courses, Hn | discriminate].
  - destruct (shows_course_list (html_parser html_text)) eqn:Ht.
    + eexists. split; [apply parse_soup_list; assumption|].
      intros _. eexists. eexists. split; reflexivity.
    + exists no_courses. split; [apply parse_soup_unrecognized; assumption | discriminate].
Qed.

Lemma vhs_handle_success_world (run_number : Z) (p : parsed) (w : world)
    (count : Z) (cs : list course) :
  course_count p = Some count -> courses p = Some cs ->
  exists w', handle_success cfg run_number p w = (Returned tt, w') /\ files w' = files w.
Proof.
  intros Hc Hcs. unfold handle_success. rewrite Hc, Hcs. cbv zeta. unfold bind.
  match goal with |- context [notify cfg ?m w] =>
    destruct (vhs_notify_world m w) as (w1 & -> & Hf) end.
  eexists. split; [reflexivity | exact Hf].
Qed.

Lemma vhs_handle_failure_world (run_number max_attempts : Z) (w : world) :
  exists w',
    handle_failure cfg run_number max_attempts w = (Returned tt, w') /\ files w' = files w.
Proof.
  unfold handle_failure. cbv zeta. unfold bind. cbn [Utils.log emit].
  match goal with |- context [notify cfg ?m ?w0] =>
    destruct (vhs_notify_world m w0) as (w1 & -> & Hf) end.
  exists w1. split; [reflexivity | exact Hf].
Qed.

(** The requirements of [run_once_returns], for this scout. *)
Lemma vhs_notify_total :
  forall msg w, exists w', BaseScout.notify (Scout := VHSBerlinScout cfg) msg w = (Returned tt, w').
Proof. intros msg w. destruct (vhs_notify_world msg w) as (w' & Hw & _). exists w'. exact Hw. Qed.

Lemma vhs_search_files :
  forall w, files (snd (BaseScout.perform_search (Scout := VHSBerlinScout cfg) w)) = files w.
Proof.
  intros w. pose proof (perform_search_sends cfg w) as Hs. cbv zeta in Hs.
  destruct Hs as (evs & _ & _ & _ & _ & Hf & _). exact Hf.
Qed.

Lemma vhs_parse_files :
  forall c w, files (snd (BaseScout.parse_results (Scout := VHSBerlinScout cfg) c w)) = files w.
Proof.
  intros c w. cbn [BaseScout.parse_results VHSBerlinScout].
  destruct (vhs_parse_world c w) as (p & -> & _). reflexivity.
Qed.

Lemma vhs_notify_files :
  forall msg w, files (snd (BaseScout.notify (Scout := VHSBerlinScout cfg) msg w)) = files w.
Proof.
  intros msg w. cbn [BaseScout.notify VHSBerlinScout].
  destruct (vhs_notify_world msg w) as (w' & -> & Hf). exact Hf.
Qed.

Lemma vhs_success_returns :
  forall n c w0 p w1 w,
    BaseScout.parse_results (Scout := VHSBerlinScout cfg) c w0 = (Returned p, w1) ->
    get_success (Scout := VHSBerlinScout cfg) p = true ->
    exists w', BaseScout.handle_success (Scout := VHSBerlinScout cfg) n p w = (Returned tt, w')
               /\ files w' = files w.
Proof.
  intros n c w0 p w1 w Hp Hs. cbn [BaseScout.parse_results get_success VHSBerlinScout] in Hp, Hs.
  destruct (vhs_parse_world c w0) as (p' & Hp' & Hfields).
  rewrite Hp' in Hp. injection Hp as -> _.
  destruct (Hfields Hs) as (count & cs & Hc & Hcs).
  exact (vhs_handle_success_world n p w count cs Hc Hcs).
Qed.

Lemma vhs_failure_returns :
  forall n m w,
    exists w', BaseScout.handle_failure (Scout := VHSBerlinScout cfg) n m w = (Returned tt, w')
               /\ files w' = files w.
Proof. intros n m w. exact (vhs_handle_failure_world n m w). Qed.



Lemma enumerate_lines_header (cs : list course) (i : Z) (message : string) :
  enumerate_lines i cs message = message +:+ enumerate_lines i cs EmptyString.
Proof.
  revert i message. induction cs as [|c cs IH]; intros i message.
  - cbn [enumerate_lines]. rewrite append_nil_r. reflexivity.
  - cbn [enumerate_lines]. rewrite (IH (i + 1) (message +:+ course_lines i c)).
    rewrite (IH (i + 1) (EmptyString +:+ course_lines i c)).
    rewrite append_assoc. reflexivity.
Qed.

Lemma enumerate_lines_entry (cs : list course) (first : Z) (i : nat) (c : course) :
  cs !! i = Some c ->
  contains (course_lines (first + Z.of_nat i) c) (enumerate_lines first cs EmptyString) = true.
Proof.
  revert first i. induction cs as [|c0 cs IH]; intros first i Hi; [destruct i; discriminate|].
  cbn [enumerate_lines]. rewrite enumerate_lines_header.
  change (EmptyString +:+ course_lines first c0) with (course_lines first c0).
  destruct i as [|i].
  - injection Hi as <-. rewrite Z.add_0_r. apply contains_prefix, prefix_append.
  - apply contains_append_l.
    replace (first + Z.of_nat (S i)) with (first + 1 + Z.of_nat i) by lia.
    apply IH. exact Hi.
Qed.

(** X21.  For a result with a count and a list of courses,
    [handle_success] returns, having sent exactly one request, to
    Telegram, whose text names the run number, the count and the searched
    address and holds the numbered entry of every course of the list, the
    first numbered 1; all else it leaves in the trace are log lines. *)
Theorem success_message_lists_courses (run_number : Z) (p : parsed) (w : world)
    (count : Z) (cs : list course) :
  course_count p = Some count -> courses p = Some cs ->
  exists message logs w',
    handle_success cfg run_number p w = (Returned tt, w') /\
    trace w' = trace w ++
      Sent (Request POST
              ("https://api.telegram.org/bot" +:+ TELEGRAM_BOT_TOKEN cfg +:+ "/sendMessage")
              (JsonData [("chat_id", TELEGRAM_CHAT_ID cfg); ("text", message);
                         ("parse_mode", "Markdown")]) true false) :: logs /\
    Forall (fun e => exists msg, e = Logged msg) logs /\
    contains (str run_number) message = true /\
    contains (str count) message = true /\
    contains (URL cfg) message = true /\
    forall (i : nat) (c : course), cs !! i = Some c ->
      contains (course_lines (1 + Z.of_nat i) c) message = true.
Proof.
  intros Hc Hcs. unfold handle_success. rewrite Hc, Hcs. cbv zeta.
  match goal with |- context [notify cfg ?m] => exists m end.
  unfold bind, notify.
  match goal with |- context [Utils.send_telegram_message ?t ?c ?m w] =>
    pose proof (send_telegram_world t c m w) as Hsend; cbv zeta in Hsend;
    destruct Hsend as (Hr & logs & Ht & _ & Hlogs & _);
    destruct (Utils.send_telegram_message t c m w) as [o w1] end.
  cbn [fst snd] in Hr, Ht. subst o. cbn [Utils.log emit].
  eexists. eexists. split; [reflexivity|]. cbn [trace]. rewrite Ht, <- app_assoc.
  split; [reflexivity|].
  split; [apply Forall_app; split; [exact Hlogs|];
          apply List.Forall_cons; [eexists; reflexivity | apply List.Forall_nil]|].
  rewrite enumerate_lines_header, !append_assoc.
  split; [apply contains_middle|].
  split; [do 2 apply contains_append_l; apply contains_middle|].
  split; [do 4 apply contains_append_l; apply contains_middle|].
  intros i c Hi. do 7 apply contains_append_l. apply enumerate_lines_entry, Hi.
Qed.

End VHSRunFacts.

Section VHSRunRuns.
Import Py Effects BaseScout VHSBerlin.

Lemma success_message_lists_courses_witness :
  let E := Lab.env Lab.site_pages in
  let cs := [Course "Mitte" "Deutsch A1" "3"; Course "Pankow" "Deutsch A2" "unknown"] in
  let p := Parsed true true (Some 2) (Some cs) in
  exists message logs w',
    handle_success Lab.settings 8 p (Lab.fresh Lab.site_pages []) = (Returned tt, w') /\
    trace w' = trace (Lab.fresh Lab.site_pages []) ++
      Sent (Request POST
              ("https://api.telegram.org/bot" +:+ TELEGRAM_BOT_TOKEN Lab.settings
                 +:+ "/sendMessage")
              (JsonData [("chat_id", TELEGRAM_CHAT_ID Lab.settings); ("text", message);
                         ("parse_mode", "Markdown")]) true false) :: logs /\
    contains "8" message = true /\
    contains (course_lines 2 (Course "Pankow" "Deutsch A2" "unknown")) message = true.
Proof.
  cbv zeta.
  destruct (@success_message_lists_courses (Lab.env Lab.site_pages) Lab.settings 8
              (Parsed true true (Some 2)
                 (Some [Course "Mitte" "Deutsch A1" "3";
                        Course "Pankow" "Deutsch A2" "unknown"]))
              (Lab.fresh Lab.site_pages []) 2
              [Course "Mitte" "Deutsch A1" "3"; Course "Pankow" "Deutsch A2" "unknown"]
              eq_refl eq_refl)
    as (message & logs & w' & Hrun & Ht & _ & Hn & _ & _ & Hall).
  exists message, logs, w'. split; [exact Hrun|]. split; [exact Ht|]. split; [exact Hn|].
  exact (Hall 1%nat (Course "Pankow" "Deutsch A2" "unknown") eq_refl).
Defined.

End VHSRunRuns.

(* ===================================================================== *)
(** * The sleep between attempts *)
(* ===================================================================== *)

Section SleepNeverNegative.
Import Py Effects BaseScout.
Context `{Env}.


End SleepNeverNegative.
